(** * SheetController: boundary discovery and cache invalidation

    A shallow embedding of the [SheetController] class (the table region
    controller of the work-book scripts) and of the part of the spreadsheet
    service it talks to, followed by the properties of its configuration
    merge, its boundary scans and its cached state. *)

From Stdlib Require Import ZArith String List Bool Lia.
From stdpp Require Import base option list gmap strings.

Local Open Scope Z_scope.

(** ** JavaScript values *)

(** A cell value or a header entry: what [Range.getValue] hands back. *)
Inductive scalar : Type :=
| SStr (s : string)
| SNum (n : Z)
| SBool (b : bool).

#[global] Instance scalar_eq_dec : EqDecision scalar.
Proof. solve_decision. Defined.

(** An empty cell reads as the empty string. *)
Definition blank : scalar := SStr EmptyString.

(** A JavaScript number that may be missing: [None] stands for [undefined]
    (and for the [NaN] that arithmetic on [undefined] produces); both are
    falsy and both poison arithmetic. *)
Definition num : Type := option Z.

(** Truthiness, as [if (x)], [!x] and [x || y] see it. *)
Definition truthy (v : scalar) : bool :=
  match v with
  | SStr s => negb (String.eqb s EmptyString)
  | SNum n => negb (n =? 0)
  | SBool b => b
  end.

Definition truthy_num (n : num) : bool :=
  match n with
  | Some z => negb (z =? 0)
  | None => false
  end.

Definition truthy_str (s : option string) : bool :=
  match s with
  | Some t => negb (String.eqb t EmptyString)
  | None => false
  end.

(** [a || b] on numbers and on strings. *)
Definition or_num (a b : num) : num := if truthy_num a then a else b.
Definition or_str (a b : option string) : option string :=
  if truthy_str a then a else b.

Definition num_add (a b : num) : num :=
  match a, b with
  | Some x, Some y => Some (x + y)
  | _, _ => None
  end.

Definition num_sub (a b : num) : num :=
  match a, b with
  | Some x, Some y => Some (x - y)
  | _, _ => None
  end.

(** [a <= b]: false as soon as one side is missing. *)
Definition num_leb (a b : num) : bool :=
  match a, b with
  | Some x, Some y => x <=? y
  | _, _ => false
  end.

(** [Array.prototype.indexOf] with strict equality; [-1] when absent. *)
Fixpoint indexOf (l : list scalar) (x : scalar) : Z :=
  match l with
  | [] => -1
  | y :: l' =>
      if decide (y = x) then 0
      else let i := indexOf l' x in if i =? -1 then -1 else i + 1
  end.

(** ** The tabular resource *)

Inductive Direction : Type := UP | DOWN | NEXT | PREVIOUS.

Record Sheet : Type := mkSheet {
  maxRows : Z;
  maxColumns : Z;
  cells : Z -> Z -> scalar
}.

(** A sheet handle: the book it lives in and its name. *)
Definition SheetRef : Type := (string * string)%type.

(** A range handle: a rectangle of a sheet. *)
Record Range : Type := mkRange {
  rg_sheet : SheetRef;
  rg_row : Z;
  rg_column : Z;
  rg_rows : Z;
  rg_columns : Z
}.

(** What the controller asks of the resource, in call order (latest first). *)
Inductive Event : Type :=
| EvOpenById (id : option string)
| EvGetActive
| EvGetSheets (book : string)
| EvGetSheetByName (book name : string)
| EvInsertSheet (book : string) (name : option string)
| EvGetMaxRows (sh : SheetRef)
| EvGetMaxColumns (sh : SheetRef)
| EvGetRange (sh : SheetRef) (r c nr nc : num)
| EvNextDataCell (sh : SheetRef) (d : Direction) (r c : Z)
| EvGetValue (sh : SheetRef) (r c : Z)
| EvGetValues (sh : SheetRef) (r c nr nc : Z)
| EvSetValues (sh : SheetRef) (r c nr nc : Z).

Record World : Type := mkWorld {
  books : gmap string (gmap string Sheet);
  active : string;
  newRows : Z;
  newColumns : Z;
  log : list Event
}.

Definition populated (v : scalar) : bool := negb (bool_decide (v = blank)).

(** *** Jumping to the next data cell

    [pop d] tells whether the cell [d] steps away from the start is
    populated, [D] is the distance to the edge of the sheet. *)

Fixpoint block_end (pop : nat -> bool) (d fuel : nat) : nat :=
  match fuel with
  | O => d
  | S f => if pop (S d) then block_end pop (S d) f else d
  end.

Fixpoint next_pop (pop : nat -> bool) (d fuel : nat) : nat :=
  match fuel with
  | O => d
  | S f => if pop d then d else next_pop pop (S d) f
  end.

(** Modelled from the spec: [Cell.nextPopulatedCellInDirection], the
    spreadsheet service's [Range.getNextDataCell], which is not part of the
    repository.  It returns the cell at the edge of a contiguous run of
    populated cells, or the cell at the edge of the sheet: from inside a run
    it stops at the end of the run (the overshoot past all data that the
    last-row scan corrects), otherwise at the first populated cell met, and
    at the border when there is none. *)
Definition jump (pop : nat -> bool) (D : nat) : nat :=
  match D with
  | O => O
  | S D' => if pop 0%nat && pop 1%nat then block_end pop 1 D'
            else next_pop pop 1 D'
  end.

Definition nextDataCell (sh : Sheet) (d : Direction) (r c : Z) : Z * Z :=
  match d with
  | UP =>
      (r - Z.of_nat (jump (fun k => populated (cells sh (r - Z.of_nat k) c))
                          (Z.to_nat (r - 1))), c)
  | DOWN =>
      (r + Z.of_nat (jump (fun k => populated (cells sh (r + Z.of_nat k) c))
                          (Z.to_nat (maxRows sh - r))), c)
  | NEXT =>
      (r, c + Z.of_nat (jump (fun k => populated (cells sh r (c + Z.of_nat k)))
                             (Z.to_nat (maxColumns sh - c))))
  | PREVIOUS =>
      (r, c - Z.of_nat (jump (fun k => populated (cells sh r (c - Z.of_nat k)))
                             (Z.to_nat (c - 1))))
  end.

(** The values of a rectangle, row by row. *)
Definition block_values (sh : Sheet) (r c : Z) (nr nc : nat) : list (list scalar) :=
  map (fun i => map (fun j => cells sh (r + Z.of_nat i) (c + Z.of_nat j)) (seq 0 nc))
      (seq 0 nr).

(** Overwrite a rectangle whose top-left corner is [(r, c)]. *)
Definition write_block (cs : Z -> Z -> scalar) (r c : Z) (vals : list (list scalar))
  : Z -> Z -> scalar :=
  fun i j =>
    if (r <=? i) && (c <=? j) then
      match vals !! Z.to_nat (i - r) with
      | Some row =>
          match row !! Z.to_nat (j - c) with
          | Some v => v
          | None => cs i j
          end
      | None => cs i j
      end
    else cs i j.

(** The data of [setValues] must have the shape of the range: the service
    refuses a block whose row or column count differs from the range's. *)
Definition shape_ok (vals : list (list scalar)) (nr nc : Z) : bool :=
  (Z.of_nat (length vals) =? nr) &&
  forallb (fun row => Z.of_nat (length row) =? nc) vals.

Definition in_bounds (sh : Sheet) (r c nr nc : Z) : bool :=
  (1 <=? r) && (1 <=? c) && (1 <=? nr) && (1 <=? nc) &&
  (r + nr - 1 <=? maxRows sh) && (c + nc - 1 <=? maxColumns sh).

Definition blank_sheet (w : World) : Sheet :=
  mkSheet (newRows w) (newColumns w) (fun _ _ => blank).

Definition find_sheet (w : World) (ref : SheetRef) : option Sheet :=
  match books w !! ref.1 with
  | Some b => b !! ref.2
  | None => None
  end.

Definition put_sheet (w : World) (ref : SheetRef) (sh : Sheet) : World :=
  match books w !! ref.1 with
  | Some b =>
      mkWorld (<[ref.1 := <[ref.2 := sh]> b]> (books w)) (active w)
              (newRows w) (newColumns w) (log w)
  | None => w
  end.

Definition add_log (e : Event) (w : World) : World :=
  mkWorld (books w) (active w) (newRows w) (newColumns w) (e :: log w).

(** ** The controller and its effects *)

Record Controller : Type := mkCtl {
  _book : option string;
  _sheetName : option string;
  _sheet : option SheetRef;
  _headerRow : num;
  _dataStartRow : num;
  _startColumn : num;
  _keyColumn : num;
  _lastRow : num;
  _rowNum : num;
  _lastColumn : num;
  _columnNum : num;
  _header : option (list scalar)
}.

(** The object before its constructor has run: every field [undefined]. *)
Definition fresh : Controller :=
  mkCtl None None None None None None None None None None None None.

Definition set_book v (c : Controller) : Controller :=
  mkCtl v (_sheetName c) (_sheet c) (_headerRow c) (_dataStartRow c)
        (_startColumn c) (_keyColumn c) (_lastRow c) (_rowNum c)
        (_lastColumn c) (_columnNum c) (_header c).
Definition set_sheetName v (c : Controller) : Controller :=
  mkCtl (_book c) v (_sheet c) (_headerRow c) (_dataStartRow c)
        (_startColumn c) (_keyColumn c) (_lastRow c) (_rowNum c)
        (_lastColumn c) (_columnNum c) (_header c).
Definition set_sheet v (c : Controller) : Controller :=
  mkCtl (_book c) (_sheetName c) v (_headerRow c) (_dataStartRow c)
        (_startColumn c) (_keyColumn c) (_lastRow c) (_rowNum c)
        (_lastColumn c) (_columnNum c) (_header c).
Definition set_headerRow v (c : Controller) : Controller :=
  mkCtl (_book c) (_sheetName c) (_sheet c) v (_dataStartRow c)
        (_startColumn c) (_keyColumn c) (_lastRow c) (_rowNum c)
        (_lastColumn c) (_columnNum c) (_header c).
Definition set_dataStartRow v (c : Controller) : Controller :=
  mkCtl (_book c) (_sheetName c) (_sheet c) (_headerRow c) v
        (_startColumn c) (_keyColumn c) (_lastRow c) (_rowNum c)
        (_lastColumn c) (_columnNum c) (_header c).
Definition set_startColumn v (c : Controller) : Controller :=
  mkCtl (_book c) (_sheetName c) (_sheet c) (_headerRow c) (_dataStartRow c)
        v (_keyColumn c) (_lastRow c) (_rowNum c)
        (_lastColumn c) (_columnNum c) (_header c).
Definition set_keyColumn v (c : Controller) : Controller :=
  mkCtl (_book c) (_sheetName c) (_sheet c) (_headerRow c) (_dataStartRow c)
        (_startColumn c) v (_lastRow c) (_rowNum c)
        (_lastColumn c) (_columnNum c) (_header c).
Definition set_lastRow v (c : Controller) : Controller :=
  mkCtl (_book c) (_sheetName c) (_sheet c) (_headerRow c) (_dataStartRow c)
        (_startColumn c) (_keyColumn c) v (_rowNum c)
        (_lastColumn c) (_columnNum c) (_header c).
Definition set_rowNum v (c : Controller) : Controller :=
  mkCtl (_book c) (_sheetName c) (_sheet c) (_headerRow c) (_dataStartRow c)
        (_startColumn c) (_keyColumn c) (_lastRow c) v
        (_lastColumn c) (_columnNum c) (_header c).
Definition set_lastColumn v (c : Controller) : Controller :=
  mkCtl (_book c) (_sheetName c) (_sheet c) (_headerRow c) (_dataStartRow c)
        (_startColumn c) (_keyColumn c) (_lastRow c) (_rowNum c)
        v (_columnNum c) (_header c).
Definition set_columnNum v (c : Controller) : Controller :=
  mkCtl (_book c) (_sheetName c) (_sheet c) (_headerRow c) (_dataStartRow c)
        (_startColumn c) (_keyColumn c) (_lastRow c) (_rowNum c)
        (_lastColumn c) v (_header c).
Definition set_header v (c : Controller) : Controller :=
  mkCtl (_book c) (_sheetName c) (_sheet c) (_headerRow c) (_dataStartRow c)
        (_startColumn c) (_keyColumn c) (_lastRow c) (_rowNum c)
        (_lastColumn c) (_columnNum c) v.

Inductive Error : Type :=
| ResourceOpenError
| ColumnNotFoundError
| ResourceBoundsError
| PlatformError.

Inductive Res (A : Type) : Type :=
| Ok (a : A)
| Throw (e : Error).
Arguments Ok {A} a.
Arguments Throw {A} e.

Record State : Type := mkState { world : World; ctl : Controller }.

(** A method call: it may throw, and what it did to the object and to the
    resource before throwing stays done. *)
Definition M (A : Type) : Type := State -> Res A * State.

Definition ret {A} (a : A) : M A := fun s => (Ok a, s).

Definition bind {A B} (m : M A) (k : A -> M B) : M B :=
  fun s => match m s with
           | (Ok a, s') => k a s'
           | (Throw e, s') => (Throw e, s')
           end.

Definition throw {A} (e : Error) : M A := fun s => (Throw e, s).

Definition try_catch {A} (m : M A) (h : Error -> M A) : M A :=
  fun s => match m s with
           | (Ok a, s') => (Ok a, s')
           | (Throw e, s') => h e s'
           end.

Notation "x <- m ;; k" := (bind m (fun x => k))
  (at level 100, m at next level, right associativity).
Notation "m ;; k" := (bind m (fun _ => k))
  (at level 100, right associativity).

Definition this : M Controller := fun s => (Ok (ctl s), s).
Definition assign (f : Controller -> Controller) : M unit :=
  fun s => (Ok tt, mkState (world s) (f (ctl s))).
Definition get_world : M World := fun s => (Ok (world s), s).
Definition set_world (w : World) : M unit :=
  fun s => (Ok tt, mkState w (ctl s)).
Definition emit (e : Event) : M unit :=
  fun s => (Ok tt, mkState (add_log e (world s)) (ctl s)).

(** *** The spreadsheet service

    The calls the class makes on [SpreadsheetApp], on a book, on a sheet and
    on a range.  Each one is logged; a call on a missing object, or with a
    missing argument, throws. *)

Definition openById (id : option string) : M string :=
  emit (EvOpenById id) ;;
  w <- get_world ;;
  match id with
  | Some i => if bool_decide (is_Some (books w !! i)) then ret i
              else throw PlatformError
  | None => throw PlatformError
  end.

Definition getActiveSpreadsheet : M string :=
  emit EvGetActive ;;
  w <- get_world ;;
  ret (active w).

Definition the_book (o : option string) : M (string * gmap string Sheet) :=
  w <- get_world ;;
  match o with
  | Some b => match books w !! b with
              | Some sheets => ret (b, sheets)
              | None => throw PlatformError
              end
  | None => throw PlatformError
  end.

(** [book.getSheets().map(sheet => sheet.getSheetName())] *)
Definition book_getSheetNames (o : option string) : M (list string) :=
  bs <- the_book o ;;
  emit (EvGetSheets bs.1) ;;
  ret (map fst (map_to_list bs.2)).

Fixpoint includes (l : list string) (x : option string) : bool :=
  match l, x with
  | _, None => false
  | [], _ => false
  | y :: l', Some t => String.eqb y t || includes l' x
  end.

Definition book_getSheetByName (o : option string) (name : option string)
  : M (option SheetRef) :=
  bs <- the_book o ;;
  match name with
  | Some n =>
      emit (EvGetSheetByName bs.1 n) ;;
      ret (if bool_decide (is_Some (bs.2 !! n)) then Some (bs.1, n) else None)
  | None => throw PlatformError
  end.

Definition book_insertSheet (o : option string) (name : option string)
  : M (option SheetRef) :=
  bs <- the_book o ;;
  emit (EvInsertSheet bs.1 name) ;;
  match name with
  | Some n =>
      if bool_decide (is_Some (bs.2 !! n)) then throw PlatformError
      else
        w <- get_world ;;
        set_world (mkWorld (<[bs.1 := <[n := blank_sheet w]> bs.2]> (books w))
                           (active w) (newRows w) (newColumns w) (log w)) ;;
        ret (Some (bs.1, n))
  | None => throw PlatformError
  end.

Definition the_sheet (o : option SheetRef) : M (SheetRef * Sheet) :=
  w <- get_world ;;
  match o with
  | Some ref => match find_sheet w ref with
                | Some sh => ret (ref, sh)
                | None => throw PlatformError
                end
  | None => throw PlatformError
  end.

Definition sheet_getMaxRows (o : option SheetRef) : M num :=
  rs <- the_sheet o ;;
  emit (EvGetMaxRows rs.1) ;;
  ret (Some (maxRows rs.2)).

Definition sheet_getMaxColumns (o : option SheetRef) : M num :=
  rs <- the_sheet o ;;
  emit (EvGetMaxColumns rs.1) ;;
  ret (Some (maxColumns rs.2)).

(** [sheet.getRange(row, column, numRows, numColumns)]: the coordinates must
    be numbers and lie on the sheet, or the resource raises its bounds error
    (the resource-level out-of-range access of the error taxonomy). *)
Definition sheet_getRange (o : option SheetRef) (r c nr nc : num) : M Range :=
  rs <- the_sheet o ;;
  emit (EvGetRange rs.1 r c nr nc) ;;
  match r, c, nr, nc with
  | Some r', Some c', Some nr', Some nc' =>
      if in_bounds rs.2 r' c' nr' nc' then ret (mkRange rs.1 r' c' nr' nc')
      else throw ResourceBoundsError
  | _, _, _, _ => throw PlatformError
  end.

Definition range_getRow (rg : Range) : num := Some (rg_row rg).
Definition range_getColumn (rg : Range) : num := Some (rg_column rg).

Definition range_getNextDataCell (rg : Range) (d : Direction) : M Range :=
  rs <- the_sheet (Some (rg_sheet rg)) ;;
  emit (EvNextDataCell rs.1 d (rg_row rg) (rg_column rg)) ;;
  let rc := nextDataCell rs.2 d (rg_row rg) (rg_column rg) in
  ret (mkRange rs.1 rc.1 rc.2 1 1).

Definition range_getValue (rg : Range) : M scalar :=
  rs <- the_sheet (Some (rg_sheet rg)) ;;
  emit (EvGetValue rs.1 (rg_row rg) (rg_column rg)) ;;
  ret (cells rs.2 (rg_row rg) (rg_column rg)).

Definition range_getValues (rg : Range) : M (list (list scalar)) :=
  rs <- the_sheet (Some (rg_sheet rg)) ;;
  emit (EvGetValues rs.1 (rg_row rg) (rg_column rg) (rg_rows rg) (rg_columns rg)) ;;
  ret (block_values rs.2 (rg_row rg) (rg_column rg)
         (Z.to_nat (rg_rows rg)) (Z.to_nat (rg_columns rg))).

Definition range_setValues (rg : Range) (vals : list (list scalar)) : M unit :=
  rs <- the_sheet (Some (rg_sheet rg)) ;;
  emit (EvSetValues rs.1 (rg_row rg) (rg_column rg) (rg_rows rg) (rg_columns rg)) ;;
  if shape_ok vals (rg_rows rg) (rg_columns rg) then
    w <- get_world ;;
    set_world (put_sheet w rs.1
                 (mkSheet (maxRows rs.2) (maxColumns rs.2)
                    (write_block (cells rs.2) (rg_row rg) (rg_column rg) vals)))
  else throw PlatformError.

(** ** SheetController *)

Record SheetControllerParam : Type := mkParam {
  bookId : option string;
  sheetName : option string;
  headerRow : num;
  startColumn : num;
  keyColumn : num
}.

Module RangeAddress.
Record t : Type := mk {
  rangeName : option string;
  startRow : num;
  startColumn : num;
  rowNum : num;
  columnNum : num
}.
End RangeAddress.

(** The four local flags of [setSheetControllerParam]. *)
Record Flags : Type := mkFlags {
  changeBookId : bool;
  changeSheetName : bool;
  changeHeaderRow : bool;
  changeStartColumn : bool
}.

Definition any_change (f : Flags) : bool :=
  changeBookId f || changeSheetName f || changeHeaderRow f || changeStartColumn f.

(** [getLastRow()] *)
Definition getLastRow : M num :=
  c <- this ;;
  rows <- sheet_getMaxRows (_sheet c) ;;
  baseCell <- sheet_getRange (_sheet c) rows (_keyColumn c) (Some 1) (Some 1) ;;
  cell <- range_getNextDataCell baseCell UP ;;
  let lastRow := range_getRow cell in
  v <- range_getValue baseCell ;;
  if truthy v && num_leb lastRow (_headerRow c)
  then ret (range_getRow baseCell)
  else ret lastRow.

(** [getLastColumn()] *)
Definition getLastColumn : M num :=
  c <- this ;;
  baseCell <- sheet_getRange (_sheet c) (_headerRow c) (_startColumn c)
                (Some 1) (Some 1) ;;
  cell <- range_getNextDataCell baseCell NEXT ;;
  ret (range_getColumn cell).

(** [getSheet()] *)
Definition getSheet : M (option SheetRef) :=
  c <- this ;; ret (_sheet c).

(** [getRange(param)] *)
Definition getRange (param : RangeAddress.t) : M Range :=
  let startRow := RangeAddress.startRow param in
  let startColumn := RangeAddress.startColumn param in
  let rowNum := or_num (RangeAddress.rowNum param) (Some 1) in
  let columnNum := or_num (RangeAddress.columnNum param) (Some 1) in
  c <- this ;;
  sheet_getRange (_sheet c) startRow startColumn rowNum columnNum.

(** [getRowRange(startRow, rowNum = 1, allColumn = false)]; a row count left
    out reaches [getRange] as 1 either way. *)
Definition getRowRange (startRow rowNum : num) (allColumn : bool) : M Range :=
  c <- this ;;
  let startColumn := if allColumn then Some 1 else _startColumn c in
  columnNum <- (if allColumn then sheet_getMaxColumns (_sheet c)
                else ret (_columnNum c)) ;;
  getRange (RangeAddress.mk None startRow startColumn rowNum columnNum).

(** [getColumnRange(startColumn, columnNum = 1, allRow = false)] *)
Definition getColumnRange (startColumn columnNum : num) (allRow : bool) : M Range :=
  c <- this ;;
  let startRow := if allRow then Some 1 else _dataStartRow c in
  rowNum <- (if allRow then sheet_getMaxRows (_sheet c) else ret (_rowNum c)) ;;
  getRange (RangeAddress.mk None startRow startColumn rowNum columnNum).

(** [getHeaderRange()] *)
Definition getHeaderRange : M Range :=
  c <- this ;;
  getRange (RangeAddress.mk None (_headerRow c) (_startColumn c) None (_columnNum c)).

(** [getDataAreaRange()] *)
Definition getDataAreaRange : M Range :=
  c <- this ;;
  getRange (RangeAddress.mk None (_dataStartRow c) (_startColumn c)
              (_rowNum c) (_columnNum c)).

(** [reflashLastRow()] *)
Definition reflashLastRow : M unit :=
  lastRow <- getLastRow ;;
  assign (set_lastRow lastRow) ;;
  c <- this ;;
  assign (set_rowNum (num_add (num_sub (_lastRow c) (_dataStartRow c)) (Some 1))).

(** [reflashLastColumn()] *)
Definition reflashLastColumn : M unit :=
  lastColumn <- getLastColumn ;;
  assign (set_lastColumn lastColumn) ;;
  c <- this ;;
  assign (set_columnNum (num_add (num_sub (_lastColumn c) (_startColumn c)) (Some 1))) ;;
  headerRange <- getHeaderRange ;;
  values <- range_getValues headerRange ;;
  assign (set_header (Some (concat values))).

(** [setSheetControllerParam(param)], block by block. *)

(** The book instance. *)
Definition update_book (param : SheetControllerParam) : M bool :=
  if truthy_str (bookId param) then
    book <- try_catch (openById (bookId param))
              (fun _ => throw ResourceOpenError) ;;
    assign (set_book (Some book)) ;;
    ret true
  else
    c <- this ;;
    match _book c with
    | None =>
        book <- getActiveSpreadsheet ;;
        assign (set_book (Some book)) ;;
        ret true
    | Some _ => ret false
    end.

(** The sheet instance. *)
Definition update_sheet (param : SheetControllerParam) (changeBookId : bool)
  : M bool :=
  if truthy_str (sheetName param) || changeBookId then
    c <- this ;;
    assign (set_sheetName (or_str (sheetName param) (_sheetName c))) ;;
    c <- this ;;
    hasSheetNames <- book_getSheetNames (_book c) ;;
    (if includes hasSheetNames (_sheetName c) then
       sheet <- book_getSheetByName (_book c) (_sheetName c) ;;
       assign (set_sheet sheet)
     else
       sheet <- book_insertSheet (_book c) (_sheetName c) ;;
       assign (set_sheet sheet)) ;;
    ret true
  else ret false.

(** The header row and the first data row. *)
Definition update_headerRow (param : SheetControllerParam) : M bool :=
  changeHeaderRow <-
    (if truthy_num (headerRow param) then
       assign (set_headerRow (headerRow param)) ;;
       ret true
     else
       c <- this ;;
       if negb (truthy_num (_headerRow c)) then
         assign (set_headerRow (Some 1)) ;;
         ret true
       else ret false) ;;
  (if changeHeaderRow : bool then
     c <- this ;;
     assign (set_dataStartRow (num_add (_headerRow c) (Some 1)))
   else ret tt) ;;
  ret changeHeaderRow.

(** The start column. *)
Definition update_startColumn (param : SheetControllerParam) : M bool :=
  if truthy_num (startColumn param) then
    assign (set_startColumn (startColumn param)) ;;
    ret true
  else
    c <- this ;;
    if negb (truthy_num (_startColumn c)) then
      assign (set_startColumn (Some 1)) ;;
      ret true
    else ret false.

(** The key column. *)
Definition update_keyColumn (param : SheetControllerParam)
  (changeStartColumn : bool) : M unit :=
  if truthy_num (keyColumn param) then
    assign (set_keyColumn (keyColumn param))
  else if changeStartColumn then
    c <- this ;;
    assign (set_keyColumn (_startColumn c))
  else ret tt.

(** Everything up to the final test on the flags. *)
Definition configure (param : SheetControllerParam) : M Flags :=
  changeBookId <- update_book param ;;
  changeSheetName <- update_sheet param changeBookId ;;
  changeHeaderRow <- update_headerRow param ;;
  changeStartColumn <- update_startColumn param ;;
  update_keyColumn param changeStartColumn ;;
  ret (mkFlags changeBookId changeSheetName changeHeaderRow changeStartColumn).

Definition setSheetControllerParam (param : SheetControllerParam) : M unit :=
  flags <- configure param ;;
  if changeBookId flags || changeSheetName flags
     || changeHeaderRow flags || changeStartColumn flags
  then reflashLastRow ;; reflashLastColumn
  else ret tt.

(** [new SheetController(param)] *)
Definition constructor (param : SheetControllerParam) (w : World)
  : Res unit * State :=
  setSheetControllerParam param (mkState w fresh).

(** [outputHeader(headerArray)] *)
Definition outputHeader (headerArray : list scalar) : M Range :=
  c <- this ;;
  outputHeaderRange <-
    getRange (RangeAddress.mk None (_headerRow c) (_startColumn c) None
                (Some (Z.of_nat (length headerArray)))) ;;
  range_setValues outputHeaderRange [headerArray] ;;
  reflashLastColumn ;;
  ret outputHeaderRange.

(** [outputDataArea(outputDataArray)] *)
Definition outputDataArea (outputDataArray : list (list scalar)) : M Range :=
  c <- this ;;
  match outputDataArray with
  | [] => throw PlatformError
  | row0 :: _ =>
      outputDataRange <-
        getRange (RangeAddress.mk None (_dataStartRow c) (_startColumn c)
                    (Some (Z.of_nat (length outputDataArray)))
                    (Some (Z.of_nat (length row0)))) ;;
      range_setValues outputDataRange outputDataArray ;;
      reflashLastRow ;;
      ret outputDataRange
  end.

(** [getHeaderArrayIndexByColumnName(columnName)] *)
Definition getHeaderArrayIndexByColumnName (columnName : scalar) : M Z :=
  c <- this ;;
  match _header c with
  | None => throw PlatformError
  | Some header =>
      let idx := indexOf header columnName in
      if idx =? -1 then throw ColumnNotFoundError else ret idx
  end.

(** [getHeaderColumnByColumnName(columnName)] *)
Definition getHeaderColumnByColumnName (columnName : scalar) : M num :=
  headerArrayIdx <- getHeaderArrayIndexByColumnName columnName ;;
  c <- this ;;
  ret (num_add (Some headerArrayIdx) (_startColumn c)).

(** ** A small workbook to run the methods on *)

Definition cells_of (rows : list (list scalar)) : Z -> Z -> scalar :=
  fun r c =>
    if (1 <=? r) && (1 <=? c) then
      match rows !! Z.to_nat (r - 1) with
      | Some row => default blank (row !! Z.to_nat (c - 1))
      | None => blank
      end
    else blank.

Definition one_sheet_world (name : string) (sh : Sheet) : World :=
  mkWorld {[ "book"%string := {[ name := sh ]} ]} "book" 1000 26 [].

Definition empty_world : World :=
  mkWorld {[ "book"%string := ∅ ]} "book" 1000 26 [].

(** ** Observations, predicates and sample states used by the properties *)

(** [preserves f m]: whatever [m] does, and whether or not it throws, the
    observation [f] of the state is the same afterwards. *)
Definition preserves {X A : Type} (f : State -> X) (m : M A) : Prop :=
  forall s, f (m s).2 = f s.

(** The observations used below. *)
Definition numbers_of (s : State) : num * num * num * num :=
  (_headerRow (ctl s), _dataStartRow (ctl s), _startColumn (ctl s), _keyColumn (ctl s)).
Definition binding_of (s : State) : option string * option string * option SheetRef :=
  (_book (ctl s), _sheetName (ctl s), _sheet (ctl s)).
Definition pairA (s : State) : num * num := (_lastRow (ctl s), _rowNum (ctl s)).
Definition pairB (s : State) : num * num * option (list scalar) :=
  (_lastColumn (ctl s), _columnNum (ctl s), _header (ctl s)).
Definition sheets_of (s : State) : gmap string (gmap string Sheet) := books (world s).
Definition whole (s : State) : State := s.

(** A controller whose cache holds the header Name, Age, City from column 2. *)
Definition lookup_state : State :=
  mkState empty_world
    (set_header (Some [SStr "Name"; SStr "Age"; SStr "City"])
       (set_startColumn (Some 2) fresh)).

(** A sheet of three rows and two columns: a header and two data rows. *)
Definition three_by_two : Sheet :=
  mkSheet 3 2 (cells_of [[SStr "id"; SStr "n"];
                         [SNum 1; SStr "a"];
                         [SNum 2; SStr "b"]]).

(** A controller on that sheet whose cached column count is 0. *)
Definition zero_columns_state : State :=
  mkState (one_sheet_world "S" three_by_two)
    (set_columnNum (Some 0)
       (set_startColumn (Some 1)
          (set_headerRow (Some 1) (set_sheet (Some ("book", "S")%string) fresh)))).

(** The last row the controller computes, as a function of the sheet. *)
Definition last_row_of (sh : Sheet) (keyColumn : Z) (headerRow : num) : Z :=
  let r := (nextDataCell sh UP (maxRows sh) keyColumn).1 in
  if truthy (cells sh (maxRows sh) keyColumn) && num_leb (Some r) headerRow
  then maxRows sh else r.

(** [!x] on an object reference. *)
Definition missing {A : Type} (o : option A) : bool :=
  match o with
  | None => true
  | Some _ => false
  end.

(** The two equations between the cached counts and bounds, and the length
    of the cached header. *)
Definition rows_ok (c : Controller) : Prop :=
  _rowNum c = num_add (num_sub (_lastRow c) (_dataStartRow c)) (Some 1).

Definition columns_ok (c : Controller) : Prop :=
  _columnNum c = num_add (num_sub (_lastColumn c) (_startColumn c)) (Some 1).

Definition header_ok (c : Controller) : Prop :=
  exists header n,
    _header c = Some header /\ _columnNum c = Some n /\
    Z.of_nat (length header) = n /\ 1 <= n.

(** The states a controller goes through: built by the constructor, then
    moved by its methods when they return, while anyone may change the
    resource in between. *)
Inductive reachable : State -> Prop :=
| reach_new param w s' :
    constructor param w = (Ok tt, s') -> reachable s'
| reach_update param s s' :
    reachable s -> setSheetControllerParam param s = (Ok tt, s') -> reachable s'
| reach_outputHeader headerArray s rg s' :
    reachable s -> outputHeader headerArray s = (Ok rg, s') -> reachable s'
| reach_outputDataArea rows s rg s' :
    reachable s -> outputDataArea rows s = (Ok rg, s') -> reachable s'
| reach_resource s w :
    reachable s -> reachable (mkState w (ctl s)).

(** A sheet with a header and two data rows, and a controller built on it. *)
Definition demo_world : World := one_sheet_world "S" three_by_two.

Definition demo_param : SheetControllerParam :=
  mkParam None (Some "S"%string) None None None.

Definition demo_state : State := (constructor demo_param demo_world).2.

(** A controller whose constructor has run. *)
Definition initialized (c : Controller) : Prop :=
  _book c <> None /\ truthy_num (_headerRow c) = true /\
  truthy_num (_startColumn c) = true.

(** Construction with start column 3, then start column 7, then header row 2. *)
Definition tracking_param : SheetControllerParam :=
  mkParam None (Some "S"%string) None (Some 3) None.
Definition tracking_s1 : State := (constructor tracking_param empty_world).2.
Definition tracking_s2 : State :=
  (setSheetControllerParam (mkParam None None None (Some 7) None) tracking_s1).2.
Definition tracking_s3 : State :=
  (setSheetControllerParam (mkParam None None (Some 2) None None) tracking_s2).2.

(** The reading of C3 that the code does not follow: supplying another book
    or another sheet name without a start column (a header row) would put
    the start column (the header row) back to 1. *)
Definition rebinding_resets_defaults : Prop :=
  forall (param : SheetControllerParam) (s s' : State),
    initialized (ctl s) ->
    setSheetControllerParam param s = (Ok tt, s') ->
    (truthy_str (bookId param) = true /\ bookId param <> _book (ctl s)) \/
    (truthy_str (sheetName param) = true /\ sheetName param <> _sheetName (ctl s)) ->
    (startColumn param = None -> _startColumn (ctl s') = Some 1) /\
    (headerRow param = None -> _headerRow (ctl s') = Some 1).

(** Header row 2 and start column 3 on sheet S, then an update naming sheet T. *)
Definition rebind_before : State :=
  (constructor (mkParam None (Some "S"%string) (Some 2) (Some 3) None) empty_world).2.
Definition rebind_param : SheetControllerParam :=
  mkParam None (Some "T"%string) None None None.
Definition rebind_after : State := (setSheetControllerParam rebind_param rebind_before).2.

(** The reading of C7 that the code does not follow: on an update that
    names neither a book nor a sheet, every configuration field left out
    keeps its value. *)
Definition omitted_fields_kept : Prop :=
  forall (param : SheetControllerParam) (s s' : State),
    initialized (ctl s) ->
    setSheetControllerParam param s = (Ok tt, s') ->
    bookId param = None -> sheetName param = None ->
    (headerRow param = None -> _headerRow (ctl s') = _headerRow (ctl s)) /\
    (startColumn param = None -> _startColumn (ctl s') = _startColumn (ctl s)) /\
    (keyColumn param = None -> _keyColumn (ctl s') = _keyColumn (ctl s)).

(** Start column 3 and key column 5, then an update with start column 7
    alone, or with header row 5 alone, or with key column 2 alone. *)
Definition merge_before : State :=
  (constructor (mkParam None (Some "S"%string) None (Some 3) (Some 5)) empty_world).2.
Definition merge_param : SheetControllerParam :=
  mkParam None None None (Some 7) None.
Definition merge_after : State := (setSheetControllerParam merge_param merge_before).2.

Definition header_only_param : SheetControllerParam :=
  mkParam None None (Some 5) None None.
Definition header_only_after : State :=
  (setSheetControllerParam header_only_param merge_before).2.

Definition key_only_param : SheetControllerParam :=
  mkParam None None None None (Some 2).

Definition key_only_state : State := (configure key_only_param demo_state).2.
Definition merge_configured : State := (configure merge_param merge_before).2.

Definition header_values : list scalar := [SStr "A"; SStr "B"].

(** A key column of zeros under the header: every cell is populated. *)
Definition zero_key_sheet : Sheet :=
  mkSheet 3 2 (cells_of [[SStr "id"; SStr "n"];
                         [SNum 0; SStr "a"];
                         [SNum 0; SStr "b"]]).

Definition zero_key_state : State :=
  (constructor demo_param (one_sheet_world "S" zero_key_sheet)).2.

(** ** Strings as JavaScript has them *)

(** A JavaScript string is a sequence of UTF-16 code units; a regular
    expression without the [u] flag, [indexOf] and [replace] all work on
    code units. *)
Definition jsstring : Type := list N.

(** The code units of an ASCII literal. *)
Fixpoint units (s : string) : jsstring :=
  match s with
  | EmptyString => []
  | String a s' => Ascii.N_of_ascii a :: units s'
  end.

Definition truthy_js (s : option jsstring) : bool :=
  match s with
  | Some (_ :: _) => true
  | _ => false
  end.

(** ** BookController: identifiers out of URLs *)

(** The pieces of the two regular expressions: a literal character or the
    dot, which matches every code unit but the four line terminators. *)
Inductive atom : Type :=
| Lit (c : N)
| Dot.

Definition line_terminator (c : N) : bool :=
  ((c =? 10) || (c =? 13) || (c =? 8232) || (c =? 8233))%N.

Definition atom_matches (a : atom) (c : N) : bool :=
  match a with
  | Lit x => (c =? x)%N
  | Dot => negb (line_terminator c)
  end.

(** The source text of a pattern without groups: a dot is the wildcard, any
    other character of the patterns used here stands for itself. *)
Fixpoint atoms_of (s : string) : list atom :=
  match s with
  | EmptyString => []
  | String a s' =>
      (if (Ascii.N_of_ascii a =? 46)%N then Dot else Lit (Ascii.N_of_ascii a))
      :: atoms_of s'
  end.

(** Match a sequence of atoms at the head of the text; what is left. *)
Fixpoint match_atoms (p : list atom) (s : jsstring) : option jsstring :=
  match p, s with
  | [], _ => Some s
  | a :: p', c :: s' => if atom_matches a c then match_atoms p' s' else None
  | _ :: _, [] => None
  end.

(** The group [([^/]+)] followed by the atoms [after]: greedy, giving back
    characters until the rest of the pattern matches.  The capture. *)
Fixpoint match_group (after : list atom) (s : jsstring) : option jsstring :=
  match s with
  | [] => None
  | c :: s' =>
      if (c =? 47)%N then None
      else match match_group after s' with
           | Some capture => Some (c :: capture)
           | None => match match_atoms after s' with
                     | Some _ => Some [c]
                     | None => None
                     end
           end
  end.

(** [text.match(new RegExp(before + "([^/]+)" + after))]: the leftmost
    match, and of it the first capture; [None] is [null]. *)
Fixpoint regexp_match (before after : list atom) (text : jsstring) : option jsstring :=
  match match_atoms before text with
  | Some rest =>
      match match_group after rest with
      | Some capture => Some capture
      | None => match text with
                | [] => None
                | _ :: text' => regexp_match before after text'
                end
      end
  | None => match text with
            | [] => None
            | _ :: text' => regexp_match before after text'
            end
  end.

(** [BookController.extractFolderIdFromUrl(folderUrl)]; [None] is
    [undefined]. *)
Definition extractFolderIdFromUrl (folderUrl : jsstring) : option jsstring :=
  let matchResult :=
    regexp_match (atoms_of "https://drive.google.com/drive/folders/") [] folderUrl in
  match matchResult with
  | Some capture => Some capture
  | None => None
  end.

(** [BookController.extractBookIdFromUrl(bookUrl)] *)
Definition extractBookIdFromUrl (bookUrl : jsstring) : option jsstring :=
  let matchResult :=
    regexp_match (atoms_of "https://docs.google.com/spreadsheets/d/") (atoms_of "/")
      bookUrl in
  match matchResult with
  | Some capture => Some capture
  | None => None
  end.

(** ** BookShelfSheet *)

(** [String.prototype.replace] with a string pattern: only the first
    occurrence is replaced, and in the replacement text [$$], [$&], [$`]
    and [$'] stand for a dollar sign, the matched text, the text before it
    and the text after it; a dollar sign before anything else is literal, a
    string pattern having no groups. *)
Fixpoint strip_prefix (p s : jsstring) : option jsstring :=
  match p, s with
  | [], _ => Some s
  | x :: p', c :: s' => if (c =? x)%N then strip_prefix p' s' else None
  | _ :: _, [] => None
  end.

(** The text before and after the first occurrence of [p]. *)
Fixpoint split_first (p s : jsstring) : option (jsstring * jsstring) :=
  match strip_prefix p s with
  | Some rest => Some ([], rest)
  | None =>
      match s with
      | [] => None
      | c :: s' =>
          match split_first p s' with
          | Some (before, after) => Some (c :: before, after)
          | None => None
          end
      end
  end.

Fixpoint substitution (matched before after replaceValue : jsstring) : jsstring :=
  match replaceValue with
  | [] => []
  | c :: r =>
      if (c =? 36)%N then
        match r with
        | d :: r' =>
            if (d =? 36)%N then 36%N :: substitution matched before after r'
            else if (d =? 38)%N then matched ++ substitution matched before after r'
            else if (d =? 96)%N then before ++ substitution matched before after r'
            else if (d =? 39)%N then after ++ substitution matched before after r'
            else 36%N :: substitution matched before after r
        | [] => [36%N]
        end
      else c :: substitution matched before after r
  end.

Definition js_replace (s searchValue replaceValue : jsstring) : jsstring :=
  match split_first searchValue s with
  | Some (before, after) =>
      before ++ substitution searchValue before after replaceValue ++ after
  | None => s
  end.

Record renameTemplateBookNameParam : Type := mkRename {
  yyyy : option jsstring;
  mm : option jsstring;
  dd : option jsstring;
  suffix : option jsstring
}.

(** The markers of a template name: a word between the brackets U+3010 and
    U+3011; the first one is the Japanese word for template. *)
Definition template_marker : jsstring :=
  [12304; 12486; 12531; 12503; 12524; 12540; 12488; 12305]%N.
Definition yyyy_marker : jsstring := [12304; 121; 121; 121; 121; 12305]%N.
Definition mm_marker : jsstring := [12304; 109; 109; 12305]%N.
Definition dd_marker : jsstring := [12304; 100; 100; 12305]%N.

(** The value of a field known to be a string. *)
Definition text_of (s : option jsstring) : jsstring :=
  match s with
  | Some t => t
  | None => []
  end.

(** [BookShelfSheet.getRenameTemplateBookName(templateFileName, renameParam)] *)
Definition getRenameTemplateBookName (templateFileName : jsstring)
  (renameParam : option renameTemplateBookNameParam) : jsstring :=
  let yyyy := match renameParam with Some p => yyyy p | None => None end in
  let mm := match renameParam with Some p => mm p | None => None end in
  let dd := match renameParam with Some p => dd p | None => None end in
  let suffix := match renameParam with Some p => suffix p | None => None end in
  let afterRenameName := js_replace templateFileName template_marker [] in
  let afterRenameName :=
    if truthy_js yyyy then js_replace afterRenameName yyyy_marker (text_of yyyy)
    else afterRenameName in
  let afterRenameName :=
    if truthy_js mm then js_replace afterRenameName mm_marker (text_of mm)
    else afterRenameName in
  let afterRenameName :=
    if truthy_js dd then js_replace afterRenameName dd_marker (text_of dd)
    else afterRenameName in
  if truthy_js suffix then afterRenameName ++ 95%N :: text_of suffix
  else afterRenameName.

(** [BookShelfSheet.CHECKBOX_COLUMN] *)
Definition CHECKBOX_COLUMN : num := Some 1.

(** [this._sheetController.getSheetControllerParam()]: the class
    [SheetController] defines no method of this name, so the call is the
    [TypeError] of calling [undefined], whatever the state of the object. *)
Definition getSheetControllerParam : M Controller := throw PlatformError.

(** The [forEach] of [getCheckedDataAreaRowArray]: the rows of the truthy
    entries, counted from the first data row. *)
Fixpoint checked_from (dataStartRow : num) (index : Z) (values : list scalar)
  : list num :=
  match values with
  | [] => []
  | row :: rest =>
      if truthy row
      then num_add dataStartRow (Some index) :: checked_from dataStartRow (index + 1) rest
      else checked_from dataStartRow (index + 1) rest
  end.

(** [getCheckedDataAreaRowArray()], on the sheet controller of the shelf. *)
Definition getCheckedDataAreaRowArray : M (list num) :=
  range <- getColumnRange CHECKBOX_COLUMN (Some 1) false ;;
  values <- range_getValues range ;;
  let checkBoxColumnArray := concat values in
  param <- getSheetControllerParam ;;
  let dataStartRow := _dataStartRow param in
  ret (checked_from dataStartRow 0 checkBoxColumnArray).

(** ** More observations *)

(** [avoids e m]: the method never throws the error [e]. *)
Definition avoids {A : Type} (e : Error) (m : M A) : Prop :=
  forall s, (m s).1 <> Throw e.

(** Every sheet of [w] is still there in [w'], with the same content. *)
Definition sheets_kept (w w' : World) : Prop :=
  forall ref sh, find_sheet w ref = Some sh -> find_sheet w' ref = Some sh.

(** A name as it looks before the template marker and the date markers are
    replaced, built from ASCII pieces. *)
Definition template_name : jsstring :=
  template_marker ++ units "report_" ++ yyyy_marker ++ units "-" ++ mm_marker
    ++ units "-" ++ dd_marker ++ yyyy_marker.

(** A sheet whose first column holds check boxes under a header. *)
Definition checkbox_sheet : Sheet :=
  mkSheet 5 2 (cells_of [[SStr "sel"; SStr "name"];
                         [SBool true; SStr "a"];
                         [SBool false; SStr "b"];
                         [SBool true; SStr "c"]]).

Definition checkbox_state : State :=
  (constructor (mkParam None (Some "S"%string) None None (Some 2))
     (one_sheet_world "S" checkbox_sheet)).2.

(** The sheet controller that the constructor of [BookShelfSheet] builds:
    the sheet of the shelf, header in row 13, key column 2. *)
Definition shelf_sheet_name : string := "ブック一覧".

Definition shelf_param : SheetControllerParam :=
  mkParam None (Some shelf_sheet_name) (Some 13) None (Some 2).

(** A controller on a sheet that does not exist yet. *)
Definition new_sheet_param : SheetControllerParam :=
  mkParam None (Some "New"%string) (Some 2) (Some 3) None.

(** An update that names a book nobody can open. *)
Definition lost_book_param : SheetControllerParam :=
  mkParam (Some "nowhere"%string) None (Some 9) None None.

Definition data_rows : list (list scalar) :=
  [[SNum 3; SStr "c"]; [SNum 4; SStr "d"]].

(** A sheet of six rows with a header and no data yet, and its controller. *)
Definition roomy_sheet : Sheet :=
  mkSheet 6 2 (cells_of [[SStr "id"; SStr "n"]]).

Definition roomy_state : State :=
  (constructor demo_param (one_sheet_world "S" roomy_sheet)).2.

(** [setSheetControllerParam] from its second block on, the book flag being
    known. *)
Definition after_book (param : SheetControllerParam) (bookChanged : bool) : M unit :=
  sheetChanged <- update_sheet param bookChanged ;;
  headerChanged <- update_headerRow param ;;
  columnChanged <- update_startColumn param ;;
  update_keyColumn param columnChanged ;;
  if bookChanged || sheetChanged || headerChanged || columnChanged
  then reflashLastRow ;; reflashLastColumn
  else ret tt.

(** A complete configuration: a header row and a start column on the sheet
    side of the axes, the first data row right under the header, a key
    column, a book and a sheet. *)
Definition configured (c : Controller) : Prop :=
  exists h col k ref,
    _headerRow c = Some h /\ 1 <= h /\ _dataStartRow c = Some (h + 1) /\
    _startColumn c = Some col /\ 1 <= col /\
    _keyColumn c = Some k /\ k <> 0 /\
    _book c <> None /\ _sheet c = Some ref.

(** [keeps_sheets m]: whatever [m] does, every sheet that existed is still
    there afterwards, unchanged. *)
Definition keeps_sheets {A : Type} (m : M A) : Prop :=
  forall s, sheets_kept (world s) (world (m s).2).

(** ** Live objects *)





(** The states of an object that a caller holds: its constructor has
    returned, and every later call counts, whether it returns or throws,
    since a throw keeps what the method has assigned before it. *)
Inductive live : State -> Prop :=
| live_new param w s' :
    constructor param w = (Ok tt, s') -> live s'
| live_update param s :
    live s -> live (setSheetControllerParam param s).2
| live_outputHeader headerArray s :
    live s -> live (outputHeader headerArray s).2
| live_outputDataArea rows s :
    live s -> live (outputDataArea rows s).2
| live_resource s w :
    live s -> live (mkState w (ctl s)).






(** * Properties *)

(** ** What a method leaves alone *)

Section Frame.
Context {X : Type} (f : State -> X).

Lemma preserves_ret {A} (a : A) : preserves f (ret a).
Proof. intros s. reflexivity. Qed.

Lemma preserves_throw {A} (e : Error) : preserves f (@throw A e).
Proof. intros s. reflexivity. Qed.

Lemma preserves_this : preserves f this.
Proof. intros s. reflexivity. Qed.

Lemma preserves_get_world : preserves f get_world.
Proof. intros s. reflexivity. Qed.

Lemma preserves_bind {A B} (m : M A) (k : A -> M B) :
  preserves f m -> (forall a, preserves f (k a)) -> preserves f (bind m k).
Proof.
  intros Hm Hk s. unfold bind. specialize (Hm s).
  destruct (m s) as [[a|e] s1]; simpl in *; [|exact Hm].
  rewrite Hk. exact Hm.
Qed.

Lemma preserves_try_catch {A} (m : M A) (h : Error -> M A) :
  preserves f m -> (forall e, preserves f (h e)) -> preserves f (try_catch m h).
Proof.
  intros Hm Hh s. unfold try_catch. specialize (Hm s).
  destruct (m s) as [[a|e] s1]; simpl in *; [exact Hm|].
  rewrite Hh. exact Hm.
Qed.
End Frame.

Lemma preserves_run {X A : Type} (f : State -> X) (m : M A) (s s' : State) (r : Res A) :
  preserves f m -> m s = (r, s') -> f s' = f s.
Proof. intros P H. specialize (P s). rewrite H in P. exact P. Qed.

Create HintDb methods.

#[local] Hint Unfold
  openById getActiveSpreadsheet the_book book_getSheetNames book_getSheetByName
  book_insertSheet the_sheet sheet_getMaxRows sheet_getMaxColumns sheet_getRange
  range_getNextDataCell range_getValue range_getValues range_setValues
  getLastRow getLastColumn getSheet getRange getRowRange getColumnRange
  getHeaderRange getDataAreaRange reflashLastRow reflashLastColumn
  update_book update_sheet update_headerRow update_startColumn update_keyColumn
  configure setSheetControllerParam outputHeader outputDataArea
  getHeaderArrayIndexByColumnName getHeaderColumnByColumnName : methods.

Ltac frame_leaf :=
  let s := fresh "s" in
  intros s; destruct s as [[? ? ? ? ?] ?]; reflexivity.

Ltac frame_step :=
  lazymatch goal with
  | |- preserves _ (bind _ _) => apply preserves_bind; [| intros ?]
  | |- preserves _ (ret _) => apply preserves_ret
  | |- preserves _ (throw _) => apply preserves_throw
  | |- preserves _ (try_catch _ _) => apply preserves_try_catch; [| intros ?]
  | |- preserves _ this => apply preserves_this
  | |- preserves _ get_world => apply preserves_get_world
  | |- preserves _ (assign _) => frame_leaf
  | |- preserves _ (emit _) => frame_leaf
  | |- preserves _ (set_world _) => frame_leaf
  | |- preserves _ (if ?b then _ else _) => destruct b
  | |- preserves _ (match ?x with _ => _ end) => destruct x
  | |- preserves _ _ => progress (autounfold with methods; cbv zeta)
  end.

Ltac frame := repeat frame_step.

Lemma getLastRow_reads : preserves (fun s => (ctl s, sheets_of s)) getLastRow.
Proof. frame. Qed.

Lemma getLastColumn_reads : preserves (fun s => (ctl s, sheets_of s)) getLastColumn.
Proof. frame. Qed.

Lemma getRange_reads param : preserves (fun s => (ctl s, sheets_of s)) (getRange param).
Proof. frame. Qed.

Lemma getHeaderRange_reads : preserves (fun s => (ctl s, sheets_of s)) getHeaderRange.
Proof. frame. Qed.

Lemma range_getValues_reads rg :
  preserves (fun s => (ctl s, sheets_of s)) (range_getValues rg).
Proof. frame. Qed.

Lemma reflashLastRow_frame :
  preserves (fun s => (numbers_of s, binding_of s, pairB s, sheets_of s)) reflashLastRow.
Proof. frame. Qed.

Lemma reflashLastColumn_frame :
  preserves (fun s => (numbers_of s, binding_of s, pairA s, sheets_of s)) reflashLastColumn.
Proof. frame. Qed.

Lemma update_book_frame param :
  preserves (fun s => (numbers_of s, pairA s, pairB s, sheets_of s)) (update_book param).
Proof. frame. Qed.

Lemma update_sheet_frame param b :
  preserves (fun s => (numbers_of s, pairA s, pairB s, _book (ctl s)))
    (update_sheet param b).
Proof. frame. Qed.

Lemma outputHeader_frame headerArray :
  preserves (fun s => (numbers_of s, binding_of s, pairA s)) (outputHeader headerArray).
Proof. frame. Qed.

Lemma outputDataArea_frame rows :
  preserves (fun s => (numbers_of s, binding_of s, pairB s)) (outputDataArea rows).
Proof. frame. Qed.

Lemma getHeaderArrayIndexByColumnName_pure x :
  preserves whole (getHeaderArrayIndexByColumnName x).
Proof. frame. Qed.

Lemma getHeaderColumnByColumnName_pure x :
  preserves whole (getHeaderColumnByColumnName x).
Proof. frame. Qed.

(** ** Header lookup *)

Lemma indexOf_range (l : list scalar) (x : scalar) :
  indexOf l x = -1 \/ 0 <= indexOf l x < Z.of_nat (length l).
Proof.
  induction l as [|y l IH]; simpl; [left; reflexivity|].
  destruct (decide (y = x)); [right; lia|].
  destruct (indexOf l x =? -1) eqn:E; [left; reflexivity|].
  apply Z.eqb_neq in E. right. lia.
Qed.

Lemma indexOf_absent (l : list scalar) (x : scalar) :
  indexOf l x = -1 <-> x ∉ l.
Proof.
  induction l as [|y l IH]; simpl.
  - split; [intros _; apply not_elem_of_nil | reflexivity].
  - destruct (decide (y = x)) as [->|Hne].
    + split; [lia | intros H; exfalso; apply H; left].
    + rewrite not_elem_of_cons.
      destruct (indexOf l x =? -1) eqn:E.
      * apply Z.eqb_eq in E. split; [intros _; split; [congruence | tauto] | reflexivity].
      * apply Z.eqb_neq in E. pose proof (indexOf_range l x) as Hr.
        split; [lia | intros [_ Hx]; tauto].
Qed.

Lemma indexOf_first (l : list scalar) (x : scalar) (i : Z) :
  0 <= i ->
  indexOf l x = i <->
  l !! Z.to_nat i = Some x /\ forall j, (j < Z.to_nat i)%nat -> l !! j <> Some x.
Proof.
  revert i. induction l as [|y l IH]; intros i Hi; simpl.
  - split; [lia | intros [H _]; discriminate].
  - destruct (decide (y = x)) as [->|Hne].
    + split.
      * intros <-. split; [reflexivity | intros j Hj; simpl in Hj; lia].
      * intros [H1 H2]. destruct (Z.to_nat i) as [|k] eqn:Ek; [lia|].
        exfalso. apply (H2 O); [lia | reflexivity].
    + pose proof (indexOf_range l x) as Hr.
      destruct (indexOf l x =? -1) eqn:E.
      * apply Z.eqb_eq in E. split; [lia|]. intros [H1 H2].
        destruct (Z.to_nat i) as [|k] eqn:Ek; simpl in H1; [congruence|].
        exfalso. apply indexOf_absent in E. apply E.
        eapply list_elem_of_lookup_2. exact H1.
      * apply Z.eqb_neq in E. split.
        -- intros <-. replace (Z.to_nat (indexOf l x + 1)) with (S (Z.to_nat (indexOf l x))) by lia.
           simpl. destruct (IH (indexOf l x)) as [IH1 _]; [lia|].
           destruct (IH1 eq_refl) as [H1 H2]. split; [exact H1|].
           intros [|j] Hj; simpl; [congruence | apply H2; lia].
        -- intros [H1 H2]. destruct (Z.to_nat i) as [|k] eqn:Ek; simpl in H1; [congruence|].
           assert (indexOf l x = i - 1) as ->; [|lia].
           apply IH; [lia|]. replace (Z.to_nat (i - 1)) with k by lia.
           split; [exact H1|]. intros j Hj. apply (H2 (S j)). lia.
Qed.

Lemma getHeaderArrayIndexByColumnName_eq (s : State) (header : list scalar) (x : scalar) :
  _header (ctl s) = Some header ->
  getHeaderArrayIndexByColumnName x s =
  (if indexOf header x =? -1 then Throw ColumnNotFoundError else Ok (indexOf header x), s).
Proof.
  intros H. unfold getHeaderArrayIndexByColumnName, bind, this. rewrite H.
  destruct (indexOf header x =? -1); reflexivity.
Qed.

(** C9: [getHeaderArrayIndexByColumnName] returns the 0-based position of the
    first element of the cached header strictly equal to the column name and
    throws the column-not-found error exactly when there is none;
    [getHeaderColumnByColumnName] adds the start column to that index; both
    leave the whole state (cache, resource and call log) as it was.  With the
    header Name, Age, City and start column 2, Age has index 1 and column 3,
    and Missing is not found. *)
Theorem header_lookup (s : State) (header : list scalar) (x : scalar) :
  _header (ctl s) = Some header ->
  (getHeaderArrayIndexByColumnName x s).2 = s /\
  (getHeaderColumnByColumnName x s).2 = s /\
  (forall i, (getHeaderArrayIndexByColumnName x s).1 = Ok i <->
             0 <= i /\ header !! Z.to_nat i = Some x /\
             forall j, (j < Z.to_nat i)%nat -> header !! j <> Some x) /\
  ((getHeaderArrayIndexByColumnName x s).1 = Throw ColumnNotFoundError <-> x ∉ header) /\
  (forall e, (getHeaderArrayIndexByColumnName x s).1 = Throw e -> e = ColumnNotFoundError) /\
  (getHeaderColumnByColumnName x s).1 =
    match (getHeaderArrayIndexByColumnName x s).1 with
    | Ok i => Ok (num_add (Some i) (_startColumn (ctl s)))
    | Throw e => Throw e
    end /\
  (header = [SStr "Name"; SStr "Age"; SStr "City"] ->
   _startColumn (ctl s) = Some 2 ->
   (getHeaderArrayIndexByColumnName (SStr "Age") s).1 = Ok 1 /\
   (getHeaderColumnByColumnName (SStr "Age") s).1 = Ok (Some 3) /\
   (getHeaderArrayIndexByColumnName (SStr "Missing") s).1 = Throw ColumnNotFoundError).
Proof.
  intros H.
  pose proof (getHeaderArrayIndexByColumnName_eq s header x H) as E.
  pose proof (indexOf_range header x) as Hr.
  split; [apply (getHeaderArrayIndexByColumnName_pure x s)|].
  split; [apply (getHeaderColumnByColumnName_pure x s)|].
  split; [|split; [|split; [|split]]].
  - intros i. rewrite E. simpl. destruct (indexOf header x =? -1) eqn:Ei.
    + apply Z.eqb_eq in Ei. split; [discriminate|]. intros (Hi & H1 & H2).
      exfalso. apply indexOf_absent in Ei. apply Ei.
      eapply list_elem_of_lookup_2. exact H1.
    + apply Z.eqb_neq in Ei. split.
      * intros [= <-]. split; [lia|]. apply indexOf_first; [lia | reflexivity].
      * intros (Hi & H12). f_equal. apply indexOf_first; assumption.
  - rewrite E. simpl. rewrite <- indexOf_absent.
    destruct (indexOf header x =? -1) eqn:Ei.
    + apply Z.eqb_eq in Ei. tauto.
    + apply Z.eqb_neq in Ei. split; [discriminate | tauto].
  - intros e. rewrite E. simpl. destruct (indexOf header x =? -1); congruence.
  - unfold getHeaderColumnByColumnName, bind. rewrite E.
    destruct (indexOf header x =? -1); reflexivity.
  - intros -> Hc.
    unfold getHeaderColumnByColumnName, bind.
    rewrite !(getHeaderArrayIndexByColumnName_eq s _ _ H). simpl.
    unfold this. simpl. rewrite Hc. repeat split.
Qed.

Lemma header_lookup_witness :
  _header (ctl lookup_state) = Some [SStr "Name"; SStr "Age"; SStr "City"] /\
  (getHeaderArrayIndexByColumnName (SStr "Age") lookup_state).1 = Ok 1 /\
  (getHeaderColumnByColumnName (SStr "Age") lookup_state).1 = Ok (Some 3) /\
  (getHeaderArrayIndexByColumnName (SStr "Missing") lookup_state).1
    = Throw ColumnNotFoundError.
Proof.
  split; [reflexivity|].
  apply (header_lookup lookup_state [SStr "Name"; SStr "Age"; SStr "City"] (SStr "Age"));
    reflexivity.
Defined.

(** ** Range requests *)

Lemma or_num_one_truthy (n : num) : truthy_num (or_num n (Some 1)) = true.
Proof. unfold or_num. destruct (truthy_num n) eqn:E; [exact E | reflexivity]. Qed.

Lemma or_num_one_falsy (n : num) :
  truthy_num n = false -> or_num n (Some 1) = Some 1.
Proof. unfold or_num. intros ->. reflexivity. Qed.

Lemma in_bounds_spec (sh : Sheet) (r c nr nc : Z) :
  in_bounds sh r c nr nc = true <->
  1 <= r /\ 1 <= c /\ 1 <= nr /\ 1 <= nc /\
  r + nr - 1 <= maxRows sh /\ c + nc - 1 <= maxColumns sh.
Proof.
  unfold in_bounds. rewrite !andb_true_iff, !Z.leb_le. tauto.
Qed.

(** What a successful [sheet.getRange] tells. *)
Lemma sheet_getRange_ok (o : option SheetRef) (r c nr nc : num) (s s' : State) (rg : Range) :
  sheet_getRange o r c nr nc s = (Ok rg, s') ->
  exists ref sh r' c' nr' nc',
    o = Some ref /\ find_sheet (world s) ref = Some sh /\
    r = Some r' /\ c = Some c' /\ nr = Some nr' /\ nc = Some nc' /\
    in_bounds sh r' c' nr' nc' = true /\
    rg = mkRange ref r' c' nr' nc' /\
    s' = mkState (add_log (EvGetRange ref r c nr nc) (world s)) (ctl s).
Proof.
  unfold sheet_getRange, the_sheet, bind, get_world, emit, ret, throw. simpl.
  destruct o as [ref|]; [|discriminate].
  destruct (find_sheet (world s) ref) as [sh|] eqn:Ef; [|discriminate]. simpl.
  destruct r as [r'|]; [|discriminate].
  destruct c as [c'|]; [|discriminate].
  destruct nr as [nr'|]; [|discriminate].
  destruct nc as [nc'|]; [|discriminate].
  destruct (in_bounds sh r' c' nr' nc') eqn:Eb; [|discriminate].
  intros [= <- <-]. exists ref, sh, r', c', nr', nc'. repeat split; assumption.
Qed.

(** The log after [sheet.getRange]: one request at most, with the arguments
    as passed. *)
Lemma sheet_getRange_log (o : option SheetRef) (r c nr nc : num) (s : State) :
  log (world (sheet_getRange o r c nr nc s).2) = log (world s) \/
  exists ref,
    log (world (sheet_getRange o r c nr nc s).2) = EvGetRange ref r c nr nc :: log (world s).
Proof.
  unfold sheet_getRange, the_sheet, bind, get_world, emit, ret, throw. simpl.
  destruct o as [ref|]; [|left; reflexivity].
  destruct (find_sheet (world s) ref) as [sh|]; [|left; reflexivity]. simpl.
  right. exists ref.
  destruct r, c, nr, nc; simpl; try reflexivity.
  destruct (in_bounds _ _ _ _ _); reflexivity.
Qed.

(** C10: in [getRange] a row or column count that is 0 or missing is
    replaced by 1, exactly as if the field were absent; the counts handed to
    the sheet are therefore never 0 and never missing, every range that comes
    back has at least one row and one column, and with a cached column count
    of 0 [getHeaderRange] asks for, and gets, a range one column wide. *)
Theorem getRange_defaults (param : RangeAddress.t) (s : State) :
  let without_rows :=
    RangeAddress.mk (RangeAddress.rangeName param) (RangeAddress.startRow param)
      (RangeAddress.startColumn param) None (RangeAddress.columnNum param) in
  let without_columns :=
    RangeAddress.mk (RangeAddress.rangeName param) (RangeAddress.startRow param)
      (RangeAddress.startColumn param) (RangeAddress.rowNum param) None in
  (truthy_num (RangeAddress.rowNum param) = false ->
   getRange param s = getRange without_rows s /\
   getRange param s =
     sheet_getRange (_sheet (ctl s)) (RangeAddress.startRow param)
       (RangeAddress.startColumn param) (Some 1)
       (or_num (RangeAddress.columnNum param) (Some 1)) s) /\
  (truthy_num (RangeAddress.columnNum param) = false ->
   getRange param s = getRange without_columns s /\
   getRange param s =
     sheet_getRange (_sheet (ctl s)) (RangeAddress.startRow param)
       (RangeAddress.startColumn param)
       (or_num (RangeAddress.rowNum param) (Some 1)) (Some 1) s) /\
  (log (world (getRange param s).2) = log (world s) \/
   exists ref nr nc,
     log (world (getRange param s).2) =
       EvGetRange ref (RangeAddress.startRow param) (RangeAddress.startColumn param)
         nr nc :: log (world s) /\
     truthy_num nr = true /\ truthy_num nc = true) /\
  (forall rg s', getRange param s = (Ok rg, s') ->
                 1 <= rg_rows rg /\ 1 <= rg_columns rg) /\
  (_columnNum (ctl s) = Some 0 ->
   getHeaderRange s =
     getRange (RangeAddress.mk None (_headerRow (ctl s)) (_startColumn (ctl s))
                 None (Some 1)) s /\
   forall rg s', getHeaderRange s = (Ok rg, s') ->
                 rg_rows rg = 1 /\ rg_columns rg = 1).
Proof.
  cbv zeta. split; [|split; [|split; [|split]]].
  - intros H. unfold getRange, bind, this. simpl.
    rewrite (or_num_one_falsy _ H). split; reflexivity.
  - intros H. unfold getRange, bind, this. simpl.
    rewrite (or_num_one_falsy _ H). split; reflexivity.
  - unfold getRange, bind, this. simpl.
    destruct (sheet_getRange_log (_sheet (ctl s)) (RangeAddress.startRow param)
                (RangeAddress.startColumn param)
                (or_num (RangeAddress.rowNum param) (Some 1))
                (or_num (RangeAddress.columnNum param) (Some 1)) s) as [E|[ref E]].
    + left. exact E.
    + right. exists ref. eexists. eexists. split; [exact E|].
      split; apply or_num_one_truthy.
  - intros rg s' H. unfold getRange, bind, this in H. simpl in H.
    apply sheet_getRange_ok in H.
    destruct H as (ref & sh & r' & c' & nr' & nc' & _ & _ & _ & _ & _ & _ & Hb & -> & _).
    apply in_bounds_spec in Hb. simpl. lia.
  - intros H0. unfold getHeaderRange, getRange, bind, this. simpl. rewrite H0. simpl.
    split; [reflexivity|]. intros rg s' H.
    apply sheet_getRange_ok in H.
    destruct H as (ref & sh & r' & c' & nr' & nc' & _ & _ & _ & _ & Hnr & Hnc & _ & -> & _).
    simpl. unfold or_num in Hnr, Hnc. simpl in Hnr, Hnc. split; congruence.
Qed.

Lemma getRange_defaults_witness :
  _columnNum (ctl zero_columns_state) = Some 0 /\
  (getHeaderRange zero_columns_state).1 = Ok (mkRange ("book", "S")%string 1 1 1 1) /\
  (forall rg s', getHeaderRange zero_columns_state = (Ok rg, s') ->
                 rg_rows rg = 1 /\ rg_columns rg = 1).
Proof.
  split; [reflexivity|]. split; [vm_compute; reflexivity|].
  apply (getRange_defaults (RangeAddress.mk None None None None None) zero_columns_state).
  reflexivity.
Defined.

(** ** The boundary scans *)

Lemma block_end_bounds (pop : nat -> bool) (d fuel : nat) :
  (d <= block_end pop d fuel <= d + fuel)%nat.
Proof.
  revert d. induction fuel as [|f IH]; intros d; simpl; [lia|].
  destruct (pop (S d)); [specialize (IH (S d)); lia | lia].
Qed.

Lemma next_pop_bounds (pop : nat -> bool) (d fuel : nat) :
  (d <= next_pop pop d fuel <= d + fuel)%nat.
Proof.
  revert d. induction fuel as [|f IH]; intros d; simpl; [lia|].
  destruct (pop d); [lia | specialize (IH (S d)); lia].
Qed.

Lemma jump_le (pop : nat -> bool) (D : nat) : (jump pop D <= D)%nat.
Proof.
  destruct D as [|D']; simpl; [lia|].
  destruct (pop 0%nat && pop 1%nat).
  - pose proof (block_end_bounds pop 1 D'). lia.
  - pose proof (next_pop_bounds pop 1 D'). lia.
Qed.

(** Inside a run that reaches the border the jump goes all the way. *)
Lemma block_end_full (pop : nat -> bool) (d fuel : nat) :
  (forall k, (d < k <= d + fuel)%nat -> pop k = true) ->
  block_end pop d fuel = (d + fuel)%nat.
Proof.
  revert d. induction fuel as [|f IH]; intros d H; simpl; [lia|].
  rewrite H by lia. rewrite IH; [lia|]. intros k Hk. apply H. lia.
Qed.

(** The end of the run is populated, and so is everything before it. *)
Lemma block_end_stops (pop : nat -> bool) (d fuel : nat) :
  (block_end pop d fuel < d + fuel)%nat ->
  pop (S (block_end pop d fuel)) = false.
Proof.
  revert d. induction fuel as [|f IH]; intros d; simpl; [lia|].
  destruct (pop (S d)) eqn:E; [|intros _; exact E].
  intros H. apply IH. lia.
Qed.

Lemma nextDataCell_next_bounds (sh : Sheet) (r c : Z) :
  c <= maxColumns sh ->
  (nextDataCell sh NEXT r c).1 = r /\
  c <= (nextDataCell sh NEXT r c).2 <= maxColumns sh.
Proof.
  intros H. simpl. split; [reflexivity|].
  pose proof (jump_le (fun k => populated (cells sh r (c + Z.of_nat k)))
                (Z.to_nat (maxColumns sh - c))). lia.
Qed.

Lemma nextDataCell_up_bounds (sh : Sheet) (r c : Z) :
  1 <= r ->
  (nextDataCell sh UP r c).2 = c /\
  1 <= (nextDataCell sh UP r c).1 <= r.
Proof.
  intros H. simpl. split; [reflexivity|].
  pose proof (jump_le (fun k => populated (cells sh (r - Z.of_nat k) c))
                (Z.to_nat (r - 1))). lia.
Qed.

Lemma find_sheet_add_log (e : Event) (w : World) (ref : SheetRef) :
  find_sheet (add_log e w) ref = find_sheet w ref.
Proof. reflexivity. Qed.

Lemma length_block_row (sh : Sheet) (r c : Z) (n : nat) :
  length (concat (block_values sh r c 1 n)) = n.
Proof.
  unfold block_values. simpl. rewrite app_nil_r, length_map, length_seq. reflexivity.
Qed.

Lemma getLastRow_ok (s s' : State) (lastRow : num) :
  getLastRow s = (Ok lastRow, s') ->
  exists ref sh k,
    _sheet (ctl s) = Some ref /\ find_sheet (world s) ref = Some sh /\
    _keyColumn (ctl s) = Some k /\
    in_bounds sh (maxRows sh) k 1 1 = true /\
    lastRow = Some (last_row_of sh k (_headerRow (ctl s))) /\
    ctl s' = ctl s /\
    books (world s') = books (world s) /\
    log (world s') =
      EvGetValue ref (maxRows sh) k
      :: EvNextDataCell ref UP (maxRows sh) k
      :: EvGetRange ref (Some (maxRows sh)) (Some k) (Some 1) (Some 1)
      :: EvGetMaxRows ref :: log (world s).
Proof.
  unfold getLastRow. unfold bind at 1. unfold this at 1.
  unfold bind at 1. unfold sheet_getMaxRows, the_sheet, bind, get_world, emit, ret, throw.
  simpl.
  destruct (_sheet (ctl s)) as [ref|] eqn:Es; [|discriminate].
  destruct (find_sheet (world s) ref) as [sh|] eqn:Ef; [|discriminate]. simpl.
  unfold sheet_getRange, the_sheet, bind, get_world, emit, ret, throw. simpl.
  rewrite find_sheet_add_log, Ef. simpl.
  destruct (_keyColumn (ctl s)) as [k|] eqn:Ek; [|discriminate].
  destruct (in_bounds sh (maxRows sh) k 1 1) eqn:Eb; [|discriminate].
  unfold range_getNextDataCell, range_getValue, the_sheet, bind, get_world, emit,
    ret, throw. simpl.
  rewrite !find_sheet_add_log, Ef. simpl.
  rewrite !find_sheet_add_log, Ef. simpl.
  unfold last_row_of, range_getRow. simpl.
  intros H. exists ref, sh, k.
  destruct (truthy (cells sh (maxRows sh) k) && _) eqn:Et;
    injection H as <- <-; simpl; rewrite ?Et; repeat split; try assumption; reflexivity.
Qed.

Lemma getLastColumn_ok (s s' : State) (lastColumn : num) :
  getLastColumn s = (Ok lastColumn, s') ->
  exists ref sh h c,
    _sheet (ctl s) = Some ref /\ find_sheet (world s) ref = Some sh /\
    _headerRow (ctl s) = Some h /\ _startColumn (ctl s) = Some c /\
    in_bounds sh h c 1 1 = true /\
    lastColumn = Some (nextDataCell sh NEXT h c).2 /\
    ctl s' = ctl s /\
    books (world s') = books (world s) /\
    log (world s') =
      EvNextDataCell ref NEXT h c
      :: EvGetRange ref (Some h) (Some c) (Some 1) (Some 1) :: log (world s).
Proof.
  unfold getLastColumn. unfold bind at 1. unfold this at 1.
  unfold bind at 1.
  unfold sheet_getRange, the_sheet, bind, get_world, emit, ret, throw. simpl.
  destruct (_sheet (ctl s)) as [ref|] eqn:Es; [|discriminate].
  destruct (find_sheet (world s) ref) as [sh|] eqn:Ef; [|discriminate]. simpl.
  destruct (_headerRow (ctl s)) as [h|] eqn:Eh; [|discriminate].
  destruct (_startColumn (ctl s)) as [c|] eqn:Ec; [|discriminate].
  destruct (in_bounds sh h c 1 1) eqn:Eb; [|discriminate].
  unfold range_getNextDataCell, the_sheet, bind, get_world, emit, ret, throw. simpl.
  rewrite !find_sheet_add_log, Ef. simpl.
  intros H. injection H as <- <-. exists ref, sh, h, c.
  repeat split; try assumption; reflexivity.
Qed.

Lemma find_sheet_books (w w' : World) (ref : SheetRef) :
  books w = books w' -> find_sheet w ref = find_sheet w' ref.
Proof. unfold find_sheet. intros ->. reflexivity. Qed.

Lemma truthy_num_pos (n : Z) : 1 <= n -> truthy_num (Some n) = true.
Proof. intros H. simpl. destruct (n =? 0) eqn:E; [apply Z.eqb_eq in E; lia | reflexivity]. Qed.

Lemma reflashLastRow_ok (s s' : State) :
  reflashLastRow s = (Ok tt, s') ->
  exists ref sh k,
    _sheet (ctl s) = Some ref /\ find_sheet (world s) ref = Some sh /\
    _keyColumn (ctl s) = Some k /\
    in_bounds sh (maxRows sh) k 1 1 = true /\
    ctl s' =
      set_rowNum (num_add (num_sub (Some (last_row_of sh k (_headerRow (ctl s))))
                             (_dataStartRow (ctl s))) (Some 1))
        (set_lastRow (Some (last_row_of sh k (_headerRow (ctl s)))) (ctl s)) /\
    books (world s') = books (world s) /\
    log (world s') =
      EvGetValue ref (maxRows sh) k
      :: EvNextDataCell ref UP (maxRows sh) k
      :: EvGetRange ref (Some (maxRows sh)) (Some k) (Some 1) (Some 1)
      :: EvGetMaxRows ref :: log (world s).
Proof.
  unfold reflashLastRow. unfold bind at 1.
  destruct (getLastRow s) as [[lr|e] s1] eqn:E; [|discriminate].
  apply getLastRow_ok in E.
  destruct E as (ref & sh & k & Hs & Hf & Hk & Hb & -> & Hc & Hbk & Hl).
  unfold bind, assign, this. simpl. intros [= <-]. simpl.
  exists ref, sh, k. rewrite Hc. repeat split; assumption.
Qed.

Lemma reflashLastColumn_ok (s s' : State) :
  reflashLastColumn s = (Ok tt, s') ->
  exists ref sh h c,
    _sheet (ctl s) = Some ref /\ find_sheet (world s) ref = Some sh /\
    _headerRow (ctl s) = Some h /\ _startColumn (ctl s) = Some c /\
    in_bounds sh h c 1 1 = true /\
    let lc := (nextDataCell sh NEXT h c).2 in
    ctl s' =
      set_header (Some (concat (block_values sh h c 1 (Z.to_nat (lc - c + 1)))))
        (set_columnNum (Some (lc - c + 1)) (set_lastColumn (Some lc) (ctl s))) /\
    books (world s') = books (world s) /\
    log (world s') =
      EvGetValues ref h c 1 (lc - c + 1)
      :: EvGetRange ref (Some h) (Some c) (Some 1) (Some (lc - c + 1))
      :: EvNextDataCell ref NEXT h c
      :: EvGetRange ref (Some h) (Some c) (Some 1) (Some 1) :: log (world s).
Proof.
  unfold reflashLastColumn. unfold bind at 1.
  destruct (getLastColumn s) as [[lc|e] s1] eqn:E; [|discriminate].
  apply getLastColumn_ok in E.
  destruct E as (ref & sh & h & c & Hs & Hf & Hh & Hc & Hb & -> & Hctl & Hbk & Hl).
  assert (Hf1 : find_sheet (world s1) ref = Some sh).
  { rewrite <- Hf. apply find_sheet_books. exact Hbk. }
  pose proof Hb as Hb'. apply in_bounds_spec in Hb'.
  destruct (nextDataCell_next_bounds sh h c) as [_ Hlc]; [lia|].
  set (lc := (nextDataCell sh NEXT h c).2) in *.
  assert (Hn : in_bounds sh h c 1 (lc - c + 1) = true) by (apply in_bounds_spec; lia).
  unfold bind, assign, this, getHeaderRange, getRange, bind, this,
    sheet_getRange, the_sheet, bind, get_world, emit, ret, throw. simpl.
  rewrite Hctl, Hs, Hh, Hc, Hf1. simpl.
  unfold or_num. rewrite truthy_num_pos by lia. simpl.
  rewrite Hn.
  unfold range_getValues, the_sheet, bind, get_world, emit, ret, throw, assign. simpl.
  rewrite find_sheet_add_log, Hf1. simpl.
  intros [= <-]. simpl. exists ref, sh, h, c.
  rewrite Hl, Hbk. repeat split; try assumption; reflexivity.
Qed.

Lemma reflashLastRow_run (s : State) (ref : SheetRef) (sh : Sheet) (k : Z) :
  _sheet (ctl s) = Some ref -> find_sheet (world s) ref = Some sh ->
  _keyColumn (ctl s) = Some k -> in_bounds sh (maxRows sh) k 1 1 = true ->
  exists s', reflashLastRow s = (Ok tt, s').
Proof.
  intros Hs Hf Hk Hb.
  unfold reflashLastRow, getLastRow, sheet_getMaxRows, sheet_getRange,
    range_getNextDataCell, range_getValue, the_sheet, bind, this, get_world, emit,
    ret, throw, assign. simpl.
  rewrite Hs, Hf. simpl. rewrite Hk. simpl.
  repeat (progress (rewrite ?find_sheet_add_log, ?Hf, ?Hb; simpl)).
  destruct (truthy _ && _); eexists; reflexivity.
Qed.

Lemma reflashLastColumn_run (s : State) (ref : SheetRef) (sh : Sheet) (h c : Z) :
  _sheet (ctl s) = Some ref -> find_sheet (world s) ref = Some sh ->
  _headerRow (ctl s) = Some h -> _startColumn (ctl s) = Some c ->
  in_bounds sh h c 1 1 = true ->
  exists s', reflashLastColumn s = (Ok tt, s').
Proof.
  intros Hs Hf Hh Hc Hb.
  pose proof Hb as Hb'. apply in_bounds_spec in Hb'.
  destruct (nextDataCell_next_bounds sh h c) as [_ Hlc]; [lia|].
  set (lc := (nextDataCell sh NEXT h c).2) in *.
  assert (Hn : in_bounds sh h c 1 (lc - c + 1) = true) by (apply in_bounds_spec; lia).
  unfold reflashLastColumn, getLastColumn, getHeaderRange, getRange, sheet_getRange,
    range_getNextDataCell, range_getValues, the_sheet, bind, this, get_world, emit,
    ret, throw, assign. simpl.
  rewrite Hs, Hf. simpl. rewrite Hh, Hc. simpl.
  repeat (progress (rewrite ?find_sheet_add_log, ?Hf, ?Hb, ?Hs, ?Hh, ?Hc; simpl)).
  unfold or_num. rewrite truthy_num_pos by (unfold lc in Hlc; simpl in Hlc; lia).
  unfold lc in Hn. simpl in Hn.
  repeat (progress (rewrite ?find_sheet_add_log, ?Hf, ?Hn; simpl)).
  eexists. reflexivity.
Qed.

(** ** Merging a configuration *)

Lemma update_headerRow_eq (param : SheetControllerParam) (s : State) :
  update_headerRow param s =
  (Ok (truthy_num (headerRow param) || negb (truthy_num (_headerRow (ctl s)))),
   if truthy_num (headerRow param) || negb (truthy_num (_headerRow (ctl s)))
   then
     let h := if truthy_num (headerRow param) then headerRow param else Some 1 in
     mkState (world s) (set_dataStartRow (num_add h (Some 1)) (set_headerRow h (ctl s)))
   else s).
Proof.
  unfold update_headerRow, bind, assign, this, ret.
  destruct (truthy_num (headerRow param)); simpl; [reflexivity|].
  destruct (truthy_num (_headerRow (ctl s))); simpl; [|reflexivity].
  destruct s; reflexivity.
Qed.

Lemma update_startColumn_eq (param : SheetControllerParam) (s : State) :
  update_startColumn param s =
  (Ok (truthy_num (startColumn param) || negb (truthy_num (_startColumn (ctl s)))),
   if truthy_num (startColumn param) || negb (truthy_num (_startColumn (ctl s)))
   then
     mkState (world s)
       (set_startColumn
          (if truthy_num (startColumn param) then startColumn param else Some 1) (ctl s))
   else s).
Proof.
  unfold update_startColumn, bind, assign, this, ret.
  destruct (truthy_num (startColumn param)); simpl; [reflexivity|].
  destruct (truthy_num (_startColumn (ctl s))); simpl; [|reflexivity].
  destruct s; reflexivity.
Qed.

Lemma update_keyColumn_eq (param : SheetControllerParam) (b : bool) (s : State) :
  update_keyColumn param b s =
  (Ok tt,
   if truthy_num (keyColumn param)
   then mkState (world s) (set_keyColumn (keyColumn param) (ctl s))
   else if b then mkState (world s) (set_keyColumn (_startColumn (ctl s)) (ctl s))
        else s).
Proof.
  unfold update_keyColumn, bind, assign, this, ret.
  destruct (truthy_num (keyColumn param)); simpl; [reflexivity|].
  destruct b; reflexivity.
Qed.

Lemma update_book_ok (param : SheetControllerParam) (s s' : State) (b : bool) :
  update_book param s = (Ok b, s') ->
  b = truthy_str (bookId param) || missing (_book (ctl s)) /\
  (b = false -> s' = s) /\
  _book (ctl s') <> None.
Proof.
  unfold update_book.
  destruct (truthy_str (bookId param)); simpl.
  - unfold bind, try_catch, assign, ret, throw.
    destruct (openById (bookId param) s) as [[i|e] s1]; [|discriminate].
    intros [= <- <-]. simpl. repeat split; [discriminate | discriminate].
  - unfold bind, this. simpl. destruct (_book (ctl s)) eqn:E; simpl.
    + intros [= <- <-]. rewrite E. repeat split. discriminate.
    + unfold getActiveSpreadsheet, bind, emit, get_world, ret, assign. simpl.
      intros [= <- <-]. simpl. repeat split; discriminate.
Qed.

Lemma bind_result {A B} (m : M A) (k : A -> M B) (P : B -> Prop) (s s' : State) (b : B) :
  (forall a s1, k a s1 = (Ok b, s') -> P b) ->
  bind m k s = (Ok b, s') -> P b.
Proof.
  intros Hk. unfold bind. destruct (m s) as [[a|e] s1]; [apply Hk | discriminate].
Qed.

Lemma update_sheet_ok (param : SheetControllerParam) (b0 : bool) (s s' : State) (b : bool) :
  update_sheet param b0 s = (Ok b, s') ->
  b = truthy_str (sheetName param) || b0 /\ (b = false -> s' = s).
Proof.
  unfold update_sheet.
  destruct (truthy_str (sheetName param) || b0); simpl.
  - intros H. assert (b = true) as ->; [|split; [reflexivity | discriminate]].
    revert H. repeat (apply (bind_result _ _ (fun b => b = true)); intros ? ?).
    unfold ret. congruence.
  - intros [= <- <-]. split; [reflexivity | reflexivity].
Qed.

(** What [setSheetControllerParam] has done by the time it tests its flags:
    the flags, and every field of the object, in terms of the parameter and
    of the state before the call. *)
Lemma configure_ok (param : SheetControllerParam) (s s' : State) (fl : Flags) :
  configure param s = (Ok fl, s') ->
  changeBookId fl = truthy_str (bookId param) || missing (_book (ctl s)) /\
  changeSheetName fl = truthy_str (sheetName param) || changeBookId fl /\
  changeHeaderRow fl = truthy_num (headerRow param) || negb (truthy_num (_headerRow (ctl s))) /\
  changeStartColumn fl =
    truthy_num (startColumn param) || negb (truthy_num (_startColumn (ctl s))) /\
  _headerRow (ctl s') =
    (if truthy_num (headerRow param) then headerRow param
     else if truthy_num (_headerRow (ctl s)) then _headerRow (ctl s) else Some 1) /\
  _dataStartRow (ctl s') =
    (if changeHeaderRow fl then num_add (_headerRow (ctl s')) (Some 1)
     else _dataStartRow (ctl s)) /\
  _startColumn (ctl s') =
    (if truthy_num (startColumn param) then startColumn param
     else if truthy_num (_startColumn (ctl s)) then _startColumn (ctl s) else Some 1) /\
  _keyColumn (ctl s') =
    (if truthy_num (keyColumn param) then keyColumn param
     else if changeStartColumn fl then _startColumn (ctl s') else _keyColumn (ctl s)) /\
  pairA s' = pairA s /\ pairB s' = pairB s /\
  _book (ctl s') <> None /\
  (changeBookId fl = false -> _book (ctl s') = _book (ctl s)) /\
  (changeSheetName fl = false -> binding_of s' = binding_of s /\ world s' = world s).
Proof.
  unfold configure. unfold bind at 1.
  destruct (update_book param s) as [[b1|e] s1] eqn:E1; [|discriminate].
  unfold bind at 1.
  destruct (update_sheet param b1 s1) as [[b2|e] s2] eqn:E2; [|discriminate].
  unfold bind at 1. rewrite update_headerRow_eq.
  unfold bind at 1. rewrite update_startColumn_eq.
  unfold bind at 1. rewrite update_keyColumn_eq.
  unfold ret. intros [= <- <-]. simpl.
  pose proof (update_book_frame param s) as F1. rewrite E1 in F1. simpl in F1.
  pose proof (update_sheet_frame param b1 s1) as F2. rewrite E2 in F2. simpl in F2.
  apply update_book_ok in E1. destruct E1 as (Hb1 & Hs1 & Hbook).
  apply update_sheet_ok in E2. destruct E2 as (Hb2 & Hs2).
  unfold numbers_of, pairA, pairB in F1, F2.
  injection F1 as F1a F1b F1c F1d F1e F1f F1g F1h F1i F1j.
  injection F2 as F2a F2b F2c F2d F2e F2f F2g F2h F2i F2j.
  assert (Hh : _headerRow (ctl s2) = _headerRow (ctl s)) by congruence.
  assert (Hd : _dataStartRow (ctl s2) = _dataStartRow (ctl s)) by congruence.
  assert (Hc : _startColumn (ctl s2) = _startColumn (ctl s)) by congruence.
  assert (Hk : _keyColumn (ctl s2) = _keyColumn (ctl s)) by congruence.
  assert (HA : pairA s2 = pairA s) by (unfold pairA; congruence).
  assert (HB : pairB s2 = pairB s) by (unfold pairB; congruence).
  assert (Hbk : _book (ctl s2) = _book (ctl s1)) by congruence.
  assert (G1 : b1 = false -> _book (ctl s2) = _book (ctl s)).
  { intros Hf. rewrite Hbk, (Hs1 Hf). reflexivity. }
  assert (G2 : b2 = false -> s2 = s).
  { intros Hf. rewrite Hf in Hb2. symmetry in Hb2.
    apply orb_false_iff in Hb2. destruct Hb2 as [_ Hb2].
    rewrite (Hs2 Hf). apply Hs1. exact Hb2. }
  assert (G3 : _book (ctl s2) <> None) by (rewrite Hbk; exact Hbook).
  unfold pairA, pairB in *.
  injection HA as HA1 HA2. injection HB as HB1 HB2 HB3.
  clear F1a F1b F1c F1d F1e F1f F1g F1h F1i F1j F2a F2b F2c F2d F2e F2f F2g F2h F2i F2j.
  clear Hs1 Hs2 Hbk Hbook.
  rewrite Hh.
  destruct (truthy_num (headerRow param)) eqn:Tp;
    destruct (truthy_num (_headerRow (ctl s))) eqn:Th; simpl; rewrite ?Hc;
    destruct (truthy_num (startColumn param)) eqn:Sp;
    destruct (truthy_num (_startColumn (ctl s))) eqn:Sc; simpl;
    destruct (truthy_num (keyColumn param)) eqn:Kp; simpl;
    rewrite ?Hh, ?Hd, ?Hc, ?Hk, ?HA1, ?HA2, ?HB1, ?HB2, ?HB3;
    (repeat split; try assumption; try reflexivity);
    try (match goal with Hf : b2 = false |- _ => rewrite (G2 Hf); reflexivity end).
Qed.

Lemma setSheetControllerParam_eq (param : SheetControllerParam) (s s1 : State) (fl : Flags) :
  configure param s = (Ok fl, s1) ->
  setSheetControllerParam param s =
  if any_change fl then (reflashLastRow ;; reflashLastColumn) s1 else (Ok tt, s1).
Proof.
  intros H. unfold setSheetControllerParam, bind at 1. rewrite H.
  unfold any_change. destruct (_ || _ || _ || _); reflexivity.
Qed.

Lemma setSheetControllerParam_ok (param : SheetControllerParam) (s s' : State) :
  setSheetControllerParam param s = (Ok tt, s') ->
  exists fl s1,
    configure param s = (Ok fl, s1) /\
    ((any_change fl = false /\ s' = s1) \/
     (any_change fl = true /\
      exists s2, reflashLastRow s1 = (Ok tt, s2) /\ reflashLastColumn s2 = (Ok tt, s'))).
Proof.
  intros H. destruct (configure param s) as [[fl|e] s1] eqn:E.
  - rewrite (setSheetControllerParam_eq _ _ _ _ E) in H.
    exists fl, s1. split; [reflexivity|].
    destruct (any_change fl).
    + right. split; [reflexivity|]. unfold bind in H.
      destruct (reflashLastRow s1) as [[[]|e] s2] eqn:E2; [|discriminate].
      exists s2. split; [reflexivity | exact H].
    + left. split; [reflexivity | congruence].
  - unfold setSheetControllerParam, bind at 1 in H. rewrite E in H. discriminate.
Qed.

(** A new object has no book yet, so its first configuration always sets the
    book flag. *)
Lemma constructor_ok (param : SheetControllerParam) (w : World) (s' : State) :
  constructor param w = (Ok tt, s') ->
  exists fl s1 s2,
    configure param (mkState w fresh) = (Ok fl, s1) /\
    reflashLastRow s1 = (Ok tt, s2) /\ reflashLastColumn s2 = (Ok tt, s').
Proof.
  intros H. apply setSheetControllerParam_ok in H.
  destruct H as (fl & s1 & Hc & H). exists fl, s1.
  destruct H as [[Hn _]|[_ (s2 & H1 & H2)]].
  - exfalso. apply configure_ok in Hc. destruct Hc as (Hb & _).
    simpl in Hb. rewrite orb_true_r in Hb.
    unfold any_change in Hn. rewrite Hb in Hn. discriminate.
  - exists s2. repeat split; assumption.
Qed.

(** ** The cached counts *)

Lemma reflashLastRow_rows (s s' : State) :
  reflashLastRow s = (Ok tt, s') -> rows_ok (ctl s').
Proof.
  intros H. apply reflashLastRow_ok in H.
  destruct H as (ref & sh & k & _ & _ & _ & _ & -> & _). reflexivity.
Qed.

Lemma reflashLastColumn_columns (s s' : State) :
  reflashLastColumn s = (Ok tt, s') -> columns_ok (ctl s') /\ header_ok (ctl s').
Proof.
  intros H. apply reflashLastColumn_ok in H.
  destruct H as (ref & sh & h & c & _ & _ & _ & Hc & Hb & -> & _).
  apply in_bounds_spec in Hb.
  destruct (nextDataCell_next_bounds sh h c) as [_ Hlc]; [lia|].
  split.
  - unfold columns_ok. simpl. rewrite Hc. reflexivity.
  - eexists. eexists. split; [reflexivity|]. split; [reflexivity|].
    rewrite length_block_row. lia.
Qed.

Lemma rows_ok_frame (c c' : Controller) :
  _lastRow c' = _lastRow c -> _rowNum c' = _rowNum c ->
  _dataStartRow c' = _dataStartRow c -> rows_ok c -> rows_ok c'.
Proof. unfold rows_ok. intros -> -> ->. trivial. Qed.

Lemma columns_ok_frame (c c' : Controller) :
  _lastColumn c' = _lastColumn c -> _columnNum c' = _columnNum c ->
  _startColumn c' = _startColumn c -> columns_ok c -> columns_ok c'.
Proof. unfold columns_ok. intros -> -> ->. trivial. Qed.

Lemma header_ok_frame (c c' : Controller) :
  _header c' = _header c -> _columnNum c' = _columnNum c -> header_ok c -> header_ok c'.
Proof. unfold header_ok. intros -> ->. trivial. Qed.

Lemma outputHeader_ok (headerArray : list scalar) (s s' : State) (rg : Range) :
  outputHeader headerArray s = (Ok rg, s') ->
  exists s1 s2,
    getRange (RangeAddress.mk None (_headerRow (ctl s)) (_startColumn (ctl s)) None
                (Some (Z.of_nat (length headerArray)))) s = (Ok rg, s1) /\
    range_setValues rg [headerArray] s1 = (Ok tt, s2) /\
    reflashLastColumn s2 = (Ok tt, s').
Proof.
  unfold outputHeader. unfold bind at 1, this at 1. unfold bind at 1.
  destruct (getRange _ s) as [[rg1|e] s1] eqn:E1; [|discriminate].
  unfold bind at 1.
  destruct (range_setValues rg1 [headerArray] s1) as [[[]|e] s2] eqn:E2; [|discriminate].
  unfold bind at 1.
  destruct (reflashLastColumn s2) as [[[]|e] s3] eqn:E3; [|discriminate].
  unfold ret. intros [= <- <-]. exists s1, s2. repeat split; assumption.
Qed.

Lemma outputDataArea_ok (rows : list (list scalar)) (s s' : State) (rg : Range) :
  outputDataArea rows s = (Ok rg, s') ->
  exists row0 rest s1 s2,
    rows = row0 :: rest /\
    getRange (RangeAddress.mk None (_dataStartRow (ctl s)) (_startColumn (ctl s))
                (Some (Z.of_nat (length rows)))
                (Some (Z.of_nat (length row0)))) s = (Ok rg, s1) /\
    range_setValues rg rows s1 = (Ok tt, s2) /\
    reflashLastRow s2 = (Ok tt, s').
Proof.
  unfold outputDataArea. unfold bind at 1, this at 1.
  destruct rows as [|row0 rest]; [discriminate|].
  unfold bind at 1.
  destruct (getRange _ s) as [[rg1|e] s1] eqn:E1; [|discriminate].
  unfold bind at 1.
  destruct (range_setValues rg1 (row0 :: rest) s1) as [[[]|e] s2] eqn:E2; [|discriminate].
  unfold bind at 1.
  destruct (reflashLastRow s2) as [[[]|e] s3] eqn:E3; [|discriminate].
  unfold ret. intros [= <- <-]. exists row0, rest, s1, s2. repeat split; assumption.
Qed.

Lemma range_setValues_ctl rg vals : preserves ctl (range_setValues rg vals).
Proof. frame. Qed.

(** After a successful call of [setSheetControllerParam] the three cache
    equations hold if the call refreshed, and also if they held before. *)
Lemma setSheetControllerParam_cache (param : SheetControllerParam) (s s' : State) :
  setSheetControllerParam param s = (Ok tt, s') ->
  (exists fl s1, configure param s = (Ok fl, s1) /\ any_change fl = true) \/
  (rows_ok (ctl s) /\ columns_ok (ctl s) /\ header_ok (ctl s)) ->
  rows_ok (ctl s') /\ columns_ok (ctl s') /\ header_ok (ctl s').
Proof.
  intros H Hpre. apply setSheetControllerParam_ok in H.
  destruct H as (fl & s1 & Hc & [[Hn ->]|[_ (s2 & H1 & H2)]]).
  - destruct Hpre as [(fl' & s1' & Hc' & Hy)|(Hr & Hco & Hh)]; [congruence|].
    apply configure_ok in Hc.
    destruct Hc as (_ & _ & HfH & HfC & HH & HD & HS & _ & HA & HB & _).
    unfold any_change in Hn. apply orb_false_iff in Hn. destruct Hn as [Hn HnC].
    apply orb_false_iff in Hn. destruct Hn as [_ HnH].
    rewrite HnH in HD. rewrite HnC in HfC. symmetry in HfC.
    apply orb_false_iff in HfC. destruct HfC as [Sp Sc].
    apply negb_false_iff in Sc. rewrite Sp, Sc in HS.
    unfold pairA in HA. unfold pairB in HB. injection HA as HA1 HA2.
    injection HB as HB1 HB2 HB3.
    split; [|split].
    + eapply rows_ok_frame; eassumption.
    + eapply columns_ok_frame; eassumption.
    + eapply header_ok_frame; eassumption.
  - pose proof (reflashLastColumn_frame s2) as F. rewrite H2 in F. simpl in F.
    injection F as F1 F2 F3 F4 F5 F6 F7 F8 F9 F10.
    destruct (reflashLastColumn_columns _ _ H2) as [Hco Hh].
    split; [|split; assumption].
    unfold pairA in *. 
    eapply rows_ok_frame; [| | |exact (reflashLastRow_rows _ _ H1)]; congruence.
Qed.

Lemma reachable_cache (s : State) :
  reachable s -> rows_ok (ctl s) /\ columns_ok (ctl s) /\ header_ok (ctl s).
Proof.
  induction 1 as [param w s' H | param s s' _ IH H | v s rg s' _ IH H
                 | rows s rg s' _ IH H | s w _ IH].
  - apply (setSheetControllerParam_cache param (mkState w fresh) s' H).
    left. apply constructor_ok in H. destruct H as (fl & s1 & s2 & Hc & _).
    exists fl, s1. split; [exact Hc|].
    apply configure_ok in Hc. destruct Hc as (Hb & _). simpl in Hb.
    rewrite orb_true_r in Hb. unfold any_change. rewrite Hb. reflexivity.
  - apply (setSheetControllerParam_cache param s s' H). right. exact IH.
  - destruct IH as (Hr & Hc & Hh).
    pose proof (outputHeader_frame v s) as F. rewrite H in F. simpl in F.
    unfold numbers_of, pairA in F. injection F as F1 F2 F3 F4 F5 F6 F7 F8 F9.
    apply outputHeader_ok in H. destruct H as (s1 & s2 & _ & _ & H).
    destruct (reflashLastColumn_columns _ _ H) as [Hco Hh'].
    split; [|split; assumption].
    eapply rows_ok_frame; eassumption.
  - destruct IH as (Hr & Hc & Hh).
    pose proof (outputDataArea_frame rows s) as F. rewrite H in F. simpl in F.
    unfold numbers_of, pairB in F. injection F as F1 F2 F3 F4 F5 F6 F7 F8 F9 F10.
    apply outputDataArea_ok in H. destruct H as (row0 & rest & s1 & s2 & _ & _ & _ & H).
    split; [exact (reflashLastRow_rows _ _ H)|].
    split; [eapply columns_ok_frame | eapply header_ok_frame]; eassumption.
  - exact IH.
Qed.

Lemma result_eta {A : Type} (x : Res A * State) (a : A) :
  x.1 = Ok a -> x = (Ok a, x.2).
Proof. destruct x as [r s]. simpl. intros ->. reflexivity. Defined.

Lemma reachable_after_read {A : Type} (m : M A) (s : State) :
  preserves ctl m -> reachable s -> reachable (m s).2.
Proof.
  intros Hm Hs. specialize (Hm s).
  destruct (m s) as [r [w c]]. simpl in *. subst c. apply reach_resource. exact Hs.
Qed.

Lemma demo_constructed : constructor demo_param demo_world = (Ok tt, demo_state).
Proof.
  unfold demo_state.
  apply (result_eta (constructor demo_param demo_world) tt).
  vm_compute. reflexivity.
Defined.

Lemma demo_reachable : reachable demo_state.
Proof. exact (reach_new demo_param demo_world demo_state demo_constructed). Defined.

(** C6 (invariant I2): whenever [reflashLastColumn] returns, and hence in
    every state reached through the constructor, [setSheetControllerParam]
    and [outputHeader], the cached header has as many entries as the cached
    column count says; that count is at least 1, the scan to the right never
    ending left of the start column. *)
Theorem header_length (s s' : State) :
  reflashLastColumn s = (Ok tt, s') \/ reachable s' ->
  exists header n,
    _header (ctl s') = Some header /\ _columnNum (ctl s') = Some n /\
    Z.of_nat (length header) = n /\ 1 <= n.
Proof.
  intros [H|H].
  - exact (proj2 (reflashLastColumn_columns _ _ H)).
  - exact (proj2 (proj2 (reachable_cache _ H))).
Qed.

Lemma header_length_witness :
  reachable demo_state /\
  exists header n,
    _header (ctl demo_state) = Some header /\ _columnNum (ctl demo_state) = Some n /\
    Z.of_nat (length header) = n /\ 1 <= n.
Proof.
  split; [exact demo_reachable|].
  apply (header_length demo_state demo_state). right. exact demo_reachable.
Defined.

(** ** Configuration updates *)

(** The refreshes at the end of [setSheetControllerParam] do not touch the
    configuration. *)
Lemma setSheetControllerParam_config (param : SheetControllerParam) (s s' : State) :
  setSheetControllerParam param s = (Ok tt, s') ->
  exists fl s1,
    configure param s = (Ok fl, s1) /\
    numbers_of s' = numbers_of s1 /\ binding_of s' = binding_of s1.
Proof.
  intros H. apply setSheetControllerParam_ok in H.
  destruct H as (fl & s1 & Hc & [[_ ->]|[_ (s2 & H1 & H2)]]).
  - exists fl, s1. repeat split; [exact Hc].
  - exists fl, s1. split; [exact Hc|].
    pose proof (preserves_run _ _ _ _ _ reflashLastRow_frame H1) as F1.
    pose proof (preserves_run _ _ _ _ _ reflashLastColumn_frame H2) as F2.
    cbv beta in F1, F2. split; congruence.
Qed.

Lemma reachable_initialized (s : State) : reachable s -> initialized (ctl s).
Proof.
  assert (Hcfg : forall param s s' fl, configure param s = (Ok fl, s') ->
                                       initialized (ctl s')).
  { intros param s0 s' fl Hc. apply configure_ok in Hc.
    destruct Hc as (_ & _ & _ & _ & HH & _ & HS & _ & _ & _ & Hb & _).
    split; [exact Hb|]. split.
    - rewrite HH. destruct (truthy_num (headerRow param)) eqn:E; [exact E|].
      destruct (truthy_num (_headerRow (ctl s0))) eqn:E'; [exact E' | reflexivity].
    - rewrite HS. destruct (truthy_num (startColumn param)) eqn:E; [exact E|].
      destruct (truthy_num (_startColumn (ctl s0))) eqn:E'; [exact E' | reflexivity]. }
  assert (Hupd : forall param s s', setSheetControllerParam param s = (Ok tt, s') ->
                                    initialized (ctl s')).
  { intros param s0 s' H. apply setSheetControllerParam_config in H.
    destruct H as (fl & s1 & Hc & Hn & Hb). apply Hcfg in Hc.
    unfold numbers_of in Hn. unfold binding_of in Hb.
    injection Hn as Hn1 Hn2 Hn3 Hn4. injection Hb as Hb1 Hb2 Hb3.
    unfold initialized in *. rewrite Hn1, Hn3, Hb1. exact Hc. }
  induction 1 as [param w s' H | param s s' _ IH H | v s rg s' _ IH H
                 | rows s rg s' _ IH H | s w _ IH].
  - exact (Hupd _ _ _ H).
  - exact (Hupd _ _ _ H).
  - pose proof (outputHeader_frame v s) as F. rewrite H in F. simpl in F.
    unfold numbers_of, binding_of in F. injection F as F1 F2 F3 F4 F5 F6 F7 _ _.
    unfold initialized in *. rewrite F1, F3, F5. exact IH.
  - pose proof (outputDataArea_frame rows s) as F. rewrite H in F. simpl in F.
    unfold numbers_of, binding_of in F. injection F as F1 F2 F3 F4 F5 F6 F7 _ _ _.
    unfold initialized in *. rewrite F1, F3, F5. exact IH.
  - exact IH.
Qed.

(** C4: after [setSheetControllerParam] (in the constructor or in an
    update) the key column is the one supplied, when a column number is
    supplied; otherwise it is the new start column when this call set or
    defaulted the start column, and it is left as it was when the start
    column was not touched.  So constructing with start column 3 and no key
    column gives key column 3, updating with start column 7 gives 7, and
    updating with header row 2 alone leaves 7. *)
Theorem key_column_tracking :
  (forall (param : SheetControllerParam) (s s' : State),
      setSheetControllerParam param s = (Ok tt, s') ->
      (forall k, keyColumn param = Some k -> 1 <= k -> _keyColumn (ctl s') = Some k) /\
      (keyColumn param = None ->
       truthy_num (startColumn param) = true \/ truthy_num (_startColumn (ctl s)) = false ->
       _keyColumn (ctl s') = _startColumn (ctl s')) /\
      (keyColumn param = None ->
       truthy_num (startColumn param) = false ->
       truthy_num (_startColumn (ctl s)) = true ->
       _keyColumn (ctl s') = _keyColumn (ctl s))) /\
  (forall (param : SheetControllerParam) (w : World) (s1 s2 s3 : State),
      startColumn param = Some 3 -> keyColumn param = None ->
      constructor param w = (Ok tt, s1) ->
      setSheetControllerParam (mkParam None None None (Some 7) None) s1 = (Ok tt, s2) ->
      setSheetControllerParam (mkParam None None (Some 2) None None) s2 = (Ok tt, s3) ->
      _keyColumn (ctl s1) = Some 3 /\ _keyColumn (ctl s2) = Some 7 /\
      _keyColumn (ctl s3) = Some 7).
Proof.
  assert (Hkey : forall param s s',
    setSheetControllerParam param s = (Ok tt, s') ->
    _startColumn (ctl s') =
      (if truthy_num (startColumn param) then startColumn param
       else if truthy_num (_startColumn (ctl s)) then _startColumn (ctl s) else Some 1) /\
    _keyColumn (ctl s') =
      (if truthy_num (keyColumn param) then keyColumn param
       else if truthy_num (startColumn param) || negb (truthy_num (_startColumn (ctl s)))
            then _startColumn (ctl s') else _keyColumn (ctl s))).
  { intros param s s' H. apply setSheetControllerParam_config in H.
    destruct H as (fl & s1 & Hc & Hn & _). apply configure_ok in Hc.
    destruct Hc as (_ & _ & _ & HfC & _ & _ & HS & HK & _).
    unfold numbers_of in Hn. injection Hn as _ _ Hn3 Hn4.
    rewrite Hn3, Hn4, HK, HfC, HS. split; reflexivity. }
  split.
  - intros param s s' H. destruct (Hkey _ _ _ H) as [HS HK].
    split; [|split].
    + intros k Hk Hpos. rewrite HK, Hk, truthy_num_pos by exact Hpos. reflexivity.
    + intros Hk Hch. rewrite HK, Hk. simpl.
      destruct Hch as [-> | ->]; [reflexivity | rewrite orb_true_r; reflexivity].
    + intros Hk Hp Hc. rewrite HK, Hk, Hp, Hc. reflexivity.
  - intros param w s1 s2 s3 Hp Hk H1 H2 H3.
    destruct (Hkey _ _ _ H1) as [HS1 HK1].
    destruct (Hkey _ _ _ H2) as [HS2 HK2].
    destruct (Hkey _ _ _ H3) as [HS3 HK3].
    rewrite Hp, Hk in *. simpl in *.
    rewrite HS1 in HK1. rewrite HS2 in HK2. rewrite HS2 in HS3. simpl in HS3.
    rewrite HS2 in HK3. simpl in HK3. rewrite HK2 in HK3.
    repeat split; assumption.
Qed.

Lemma key_column_tracking_witness :
  constructor tracking_param empty_world = (Ok tt, tracking_s1) /\
  setSheetControllerParam (mkParam None None None (Some 7) None) tracking_s1
    = (Ok tt, tracking_s2) /\
  setSheetControllerParam (mkParam None None (Some 2) None None) tracking_s2
    = (Ok tt, tracking_s3) /\
  _keyColumn (ctl tracking_s1) = Some 3 /\ _keyColumn (ctl tracking_s2) = Some 7 /\
  _keyColumn (ctl tracking_s3) = Some 7.
Proof.
  assert (H1 : constructor tracking_param empty_world = (Ok tt, tracking_s1)).
  { unfold tracking_s1.
    apply (result_eta (constructor tracking_param empty_world) tt).
    vm_compute. reflexivity. }
  assert (H2 : setSheetControllerParam (mkParam None None None (Some 7) None) tracking_s1
               = (Ok tt, tracking_s2)).
  { unfold tracking_s2.
    apply (result_eta
             (setSheetControllerParam (mkParam None None None (Some 7) None) tracking_s1) tt).
    vm_compute. reflexivity. }
  assert (H3 : setSheetControllerParam (mkParam None None (Some 2) None None) tracking_s2
               = (Ok tt, tracking_s3)).
  { unfold tracking_s3.
    apply (result_eta
             (setSheetControllerParam (mkParam None None (Some 2) None None) tracking_s2) tt).
    vm_compute. reflexivity. }
  split; [exact H1|]. split; [exact H2|]. split; [exact H3|].
  exact (proj2 key_column_tracking tracking_param empty_world
           tracking_s1 tracking_s2 tracking_s3 eq_refl eq_refl H1 H2 H3).
Defined.

(** The merged value of every configuration number, for a call that returns. *)
Lemma setSheetControllerParam_numbers (param : SheetControllerParam) (s s' : State) :
  setSheetControllerParam param s = (Ok tt, s') ->
  _headerRow (ctl s') =
    (if truthy_num (headerRow param) then headerRow param
     else if truthy_num (_headerRow (ctl s)) then _headerRow (ctl s) else Some 1) /\
  _dataStartRow (ctl s') =
    (if truthy_num (headerRow param) || negb (truthy_num (_headerRow (ctl s)))
     then num_add (_headerRow (ctl s')) (Some 1) else _dataStartRow (ctl s)) /\
  _startColumn (ctl s') =
    (if truthy_num (startColumn param) then startColumn param
     else if truthy_num (_startColumn (ctl s)) then _startColumn (ctl s) else Some 1) /\
  _keyColumn (ctl s') =
    (if truthy_num (keyColumn param) then keyColumn param
     else if truthy_num (startColumn param) || negb (truthy_num (_startColumn (ctl s)))
          then _startColumn (ctl s') else _keyColumn (ctl s)) /\
  (truthy_str (bookId param) || missing (_book (ctl s)) = false ->
   _book (ctl s') = _book (ctl s)) /\
  (truthy_str (sheetName param) || (truthy_str (bookId param) || missing (_book (ctl s)))
   = false -> binding_of s' = binding_of s).
Proof.
  intros H. apply setSheetControllerParam_config in H.
  destruct H as (fl & s1 & Hc & Hn & Hb). apply configure_ok in Hc.
  destruct Hc as (HfB & HfS & HfH & HfC & HH & HD & HS & HK & _ & _ & _ & HB1 & HB2).
  unfold numbers_of in Hn. injection Hn as Hn1 Hn2 Hn3 Hn4.
  rewrite Hn1, Hn2, Hn3, Hn4, HH, HD, HS, HK, HfH, HfC, HH, HS.
  repeat split; try reflexivity.
  - intros Hf. rewrite <- HfB in Hf. unfold binding_of in Hb.
    injection Hb as Hb1 _ _. rewrite Hb1. apply HB1. exact Hf.
  - intros Hf. rewrite <- HfB, <- HfS in Hf. rewrite Hb. apply HB2. exact Hf.
Qed.

Lemma rebind_run :
  setSheetControllerParam rebind_param rebind_before = (Ok tt, rebind_after).
Proof.
  unfold rebind_after.
  apply (result_eta (setSheetControllerParam rebind_param rebind_before) tt).
  vm_compute. reflexivity.
Defined.

(** C3, counterexample: a controller on sheet S with header row 2 and start
    column 3 is moved to sheet T by an update that names only the sheet; the
    start column is still 3 and the header row still 2. *)
Lemma rebinding_resets_defaults_fails : ~ rebinding_resets_defaults.
Proof.
  intros H.
  assert (Hi : initialized (ctl rebind_before)).
  { unfold initialized. split; [vm_compute; discriminate | split; vm_compute; reflexivity]. }
  assert (Hch : (truthy_str (bookId rebind_param) = true /\
                 bookId rebind_param <> _book (ctl rebind_before)) \/
                (truthy_str (sheetName rebind_param) = true /\
                 sheetName rebind_param <> _sheetName (ctl rebind_before))).
  { right. split; [reflexivity|]. vm_compute. discriminate. }
  destruct (H rebind_param rebind_before rebind_after Hi rebind_run Hch) as [Hc _].
  specialize (Hc eq_refl). vm_compute in Hc. discriminate.
Qed.

(** C3, amended: an update that leaves out the start column keeps the start
    column configured before, also when it changes the book or the sheet
    name; 1 is filled in only where no start column was set yet.  The header
    row behaves the same way. *)
Theorem rebinding_keeps_columns (param : SheetControllerParam) (s s' : State) :
  setSheetControllerParam param s = (Ok tt, s') ->
  (truthy_num (startColumn param) = false ->
   (truthy_num (_startColumn (ctl s)) = true ->
    _startColumn (ctl s') = _startColumn (ctl s)) /\
   (truthy_num (_startColumn (ctl s)) = false -> _startColumn (ctl s') = Some 1)) /\
  (truthy_num (headerRow param) = false ->
   (truthy_num (_headerRow (ctl s)) = true ->
    _headerRow (ctl s') = _headerRow (ctl s)) /\
   (truthy_num (_headerRow (ctl s)) = false -> _headerRow (ctl s') = Some 1)).
Proof.
  intros H. apply setSheetControllerParam_numbers in H.
  destruct H as (HH & _ & HS & _).
  split.
  - intros Hp. rewrite HS, Hp. split; intros ->; reflexivity.
  - intros Hp. rewrite HH, Hp. split; intros ->; reflexivity.
Qed.

Lemma rebinding_keeps_columns_witness :
  setSheetControllerParam rebind_param rebind_before = (Ok tt, rebind_after) /\
  _sheetName (ctl rebind_before) = Some "S"%string /\
  _sheetName (ctl rebind_after) = Some "T"%string /\
  _startColumn (ctl rebind_after) = Some 3 /\
  _headerRow (ctl rebind_after) = Some 2.
Proof.
  split; [exact rebind_run|].
  split; [vm_compute; reflexivity|]. split; [vm_compute; reflexivity|].
  destruct (rebinding_keeps_columns rebind_param rebind_before rebind_after rebind_run)
    as [Hc Hh].
  destruct (Hc eq_refl) as [Hc1 _]. destruct (Hh eq_refl) as [Hh1 _].
  split.
  - rewrite Hc1; vm_compute; reflexivity.
  - rewrite Hh1; vm_compute; reflexivity.
Defined.

Lemma merge_run :
  setSheetControllerParam merge_param merge_before = (Ok tt, merge_after).
Proof.
  unfold merge_after.
  apply (result_eta (setSheetControllerParam merge_param merge_before) tt).
  vm_compute. reflexivity.
Defined.

Lemma merge_before_initialized : initialized (ctl merge_before).
Proof.
  unfold initialized. split; [vm_compute; discriminate | split; vm_compute; reflexivity].
Defined.

(** C7, counterexample: with start column 3 and key column 5 configured, an
    update that supplies only start column 7 leaves the key column out, and
    yet the key column becomes 7. *)
Lemma omitted_fields_kept_fails : ~ omitted_fields_kept.
Proof.
  intros H.
  destruct (H merge_param merge_before merge_after merge_before_initialized
              merge_run eq_refl eq_refl) as (_ & _ & Hk).
  specialize (Hk eq_refl). vm_compute in Hk. discriminate.
Qed.

(** C7, amended: on an initialized controller, an update that names neither
    a book nor a sheet keeps the book, the sheet name and the sheet, keeps
    the header row (and the first data row) when it has no header row, keeps
    the start column when it has no start column, and keeps the key column
    when it has neither a key column nor a start column; with a start column
    and no key column, the key column follows the new start column.  An
    update with header row 5 alone changes the header row only. *)
Theorem merge_on_unset (param : SheetControllerParam) (s s' : State) :
  initialized (ctl s) ->
  setSheetControllerParam param s = (Ok tt, s') ->
  truthy_str (bookId param) = false -> truthy_str (sheetName param) = false ->
  binding_of s' = binding_of s /\
  (truthy_num (headerRow param) = false ->
   _headerRow (ctl s') = _headerRow (ctl s) /\
   _dataStartRow (ctl s') = _dataStartRow (ctl s)) /\
  (truthy_num (startColumn param) = false ->
   _startColumn (ctl s') = _startColumn (ctl s)) /\
  (truthy_num (keyColumn param) = false -> truthy_num (startColumn param) = false ->
   _keyColumn (ctl s') = _keyColumn (ctl s)) /\
  (truthy_num (keyColumn param) = false -> truthy_num (startColumn param) = true ->
   _keyColumn (ctl s') = startColumn param) /\
  (param = mkParam None None (Some 5) None None ->
   _headerRow (ctl s') = Some 5 /\
   _startColumn (ctl s') = _startColumn (ctl s) /\
   _keyColumn (ctl s') = _keyColumn (ctl s) /\
   binding_of s' = binding_of s).
Proof.
  intros (Hb & Hh & Hc) H Hpb Hps.
  apply setSheetControllerParam_numbers in H.
  destruct H as (HH & HD & HS & HK & _ & HB).
  rewrite Hpb, Hps, Hh, Hc in *.
  assert (Hm : missing (_book (ctl s)) = false) by (destruct (_book (ctl s)); [reflexivity | tauto]).
  rewrite Hm in HB. specialize (HB eq_refl).
  split; [exact HB|]. split; [|split; [|split; [|split]]].
  - intros Hp. rewrite Hp in HH, HD. simpl in HD. split; assumption.
  - intros Hp. rewrite Hp in HS. exact HS.
  - intros Hk Hp. rewrite Hk, Hp in HK. exact HK.
  - intros Hk Hp. rewrite Hk, Hp in HK. rewrite Hp in HS. simpl in HK. congruence.
  - intros ->. simpl in *. repeat split; assumption.
Qed.

Lemma merge_on_unset_witness :
  initialized (ctl merge_before) /\
  setSheetControllerParam header_only_param merge_before = (Ok tt, header_only_after) /\
  _headerRow (ctl header_only_after) = Some 5 /\
  _startColumn (ctl header_only_after) = _startColumn (ctl merge_before) /\
  _keyColumn (ctl header_only_after) = _keyColumn (ctl merge_before) /\
  binding_of header_only_after = binding_of merge_before.
Proof.
  assert (Hrun : setSheetControllerParam header_only_param merge_before
                 = (Ok tt, header_only_after)).
  { unfold header_only_after.
    apply (result_eta (setSheetControllerParam header_only_param merge_before) tt).
    vm_compute. reflexivity. }
  split; [exact merge_before_initialized|]. split; [exact Hrun|].
  exact (proj2 (proj2 (proj2 (proj2 (proj2
           (merge_on_unset header_only_param merge_before header_only_after
              merge_before_initialized Hrun eq_refl eq_refl))))) eq_refl).
Defined.

(** ** Which updates refresh the cache *)

(** Both refreshes in a row: what the cache holds afterwards, and what was
    asked of the sheet. *)
Lemma refresh_both (s1 s2 s' : State) :
  reflashLastRow s1 = (Ok tt, s2) -> reflashLastColumn s2 = (Ok tt, s') ->
  exists ref sh k h c,
    _sheet (ctl s') = Some ref /\ find_sheet (world s') ref = Some sh /\
    _keyColumn (ctl s') = Some k /\ _headerRow (ctl s') = Some h /\
    _startColumn (ctl s') = Some c /\
    _lastRow (ctl s') = Some (last_row_of sh k (Some h)) /\
    _rowNum (ctl s') = num_add (num_sub (_lastRow (ctl s')) (_dataStartRow (ctl s'))) (Some 1) /\
    let lc := (nextDataCell sh NEXT h c).2 in
    _lastColumn (ctl s') = Some lc /\
    _columnNum (ctl s') = Some (lc - c + 1) /\
    _header (ctl s') = Some (concat (block_values sh h c 1 (Z.to_nat (lc - c + 1)))) /\
    log (world s') =
      EvGetValues ref h c 1 (lc - c + 1)
      :: EvGetRange ref (Some h) (Some c) (Some 1) (Some (lc - c + 1))
      :: EvNextDataCell ref NEXT h c
      :: EvGetRange ref (Some h) (Some c) (Some 1) (Some 1)
      :: EvGetValue ref (maxRows sh) k
      :: EvNextDataCell ref UP (maxRows sh) k
      :: EvGetRange ref (Some (maxRows sh)) (Some k) (Some 1) (Some 1)
      :: EvGetMaxRows ref :: log (world s1).
Proof.
  intros H1 H2.
  apply reflashLastRow_ok in H1.
  destruct H1 as (ref & sh & k & Hs & Hf & Hk & _ & Hc2 & Hb2 & Hl2).
  apply reflashLastColumn_ok in H2.
  destruct H2 as (ref' & sh' & h & c & Hs' & Hf' & Hh & Hc & _ & Hc3 & Hb3 & Hl3).
  rewrite Hc2 in Hs', Hh, Hc. simpl in Hs', Hh, Hc.
  assert (ref' = ref) as -> by congruence.
  assert (sh' = sh) as ->.
  { rewrite (find_sheet_books _ _ ref Hb2) in Hf'. congruence. }
  exists ref, sh, k, h, c. cbv zeta in *.
  rewrite Hc3, Hc2, Hl3, Hl2. simpl. rewrite Hh.
  repeat split; try assumption; try reflexivity.
  rewrite <- Hf. apply find_sheet_books. congruence.
Qed.

(** C1: [setSheetControllerParam] refreshes both cached pairs when one of
    its four flags is set, and nothing otherwise.  On an initialized
    controller the flags say that a book, a sheet name (or a book), a header
    row, a start column was supplied.  With a flag set, the call is the
    configuration followed by [reflashLastRow] and [reflashLastColumn]: when
    it returns, last row and row count come from the upward scan of the key
    column, last column, column count and header from the rightward scan of
    the header row, and both scans are in the call log.  With no flag set,
    the call returns with both pairs and the resource, call log included, as
    they were. *)
Theorem update_refresh (param : SheetControllerParam) (s s1 : State) (fl : Flags) :
  configure param s = (Ok fl, s1) ->
  (initialized (ctl s) ->
   changeBookId fl = truthy_str (bookId param) /\
   changeSheetName fl = truthy_str (sheetName param) || truthy_str (bookId param) /\
   changeHeaderRow fl = truthy_num (headerRow param) /\
   changeStartColumn fl = truthy_num (startColumn param)) /\
  (any_change fl = true ->
   setSheetControllerParam param s = (reflashLastRow ;; reflashLastColumn) s1 /\
   forall s', setSheetControllerParam param s = (Ok tt, s') ->
     exists ref sh k h c,
       _sheet (ctl s') = Some ref /\ find_sheet (world s') ref = Some sh /\
       _keyColumn (ctl s') = Some k /\ _headerRow (ctl s') = Some h /\
       _startColumn (ctl s') = Some c /\
       _lastRow (ctl s') = Some (last_row_of sh k (Some h)) /\
       _rowNum (ctl s') =
         num_add (num_sub (_lastRow (ctl s')) (_dataStartRow (ctl s'))) (Some 1) /\
       let lc := (nextDataCell sh NEXT h c).2 in
       _lastColumn (ctl s') = Some lc /\
       _columnNum (ctl s') = Some (lc - c + 1) /\
       _header (ctl s') = Some (concat (block_values sh h c 1 (Z.to_nat (lc - c + 1)))) /\
       log (world s') =
         EvGetValues ref h c 1 (lc - c + 1)
         :: EvGetRange ref (Some h) (Some c) (Some 1) (Some (lc - c + 1))
         :: EvNextDataCell ref NEXT h c
         :: EvGetRange ref (Some h) (Some c) (Some 1) (Some 1)
         :: EvGetValue ref (maxRows sh) k
         :: EvNextDataCell ref UP (maxRows sh) k
         :: EvGetRange ref (Some (maxRows sh)) (Some k) (Some 1) (Some 1)
         :: EvGetMaxRows ref :: log (world s1)) /\
  (any_change fl = false ->
   setSheetControllerParam param s = (Ok tt, s1) /\
   pairA s1 = pairA s /\ pairB s1 = pairB s /\ world s1 = world s).
Proof.
  intros Hc. pose proof (setSheetControllerParam_eq _ _ _ _ Hc) as Heq.
  pose proof (configure_ok _ _ _ _ Hc) as
    (HfB & HfS & HfH & HfC & _ & _ & _ & _ & HA & HB & _ & _ & HW).
  split; [|split].
  - intros (Hb & Hh & Hcol).
    assert (Hm : missing (_book (ctl s)) = false)
      by (destruct (_book (ctl s)); [reflexivity | tauto]).
    rewrite Hm, orb_false_r in HfB. rewrite HfB in HfS.
    rewrite Hh, orb_false_r in HfH. rewrite Hcol, orb_false_r in HfC.
    repeat split; assumption.
  - intros Hany. rewrite Hany in Heq. split; [exact Heq|].
    intros s' H. rewrite Heq in H. unfold bind in H.
    destruct (reflashLastRow s1) as [[[]|e] s2] eqn:E1; [|discriminate].
    exact (refresh_both s1 s2 s' E1 H).
  - intros Hany. rewrite Hany in Heq. split; [exact Heq|].
    split; [exact HA|]. split; [exact HB|].
    apply HW. unfold any_change in Hany.
    apply orb_false_iff in Hany. destruct Hany as [Hany _].
    apply orb_false_iff in Hany. destruct Hany as [Hany _].
    apply orb_false_iff in Hany. destruct Hany as [_ Hany]. exact Hany.
Qed.

Lemma update_refresh_witness :
  configure key_only_param demo_state
    = (Ok (mkFlags false false false false), key_only_state) /\
  setSheetControllerParam key_only_param demo_state = (Ok tt, key_only_state) /\
  pairA key_only_state = pairA demo_state /\
  pairB key_only_state = pairB demo_state /\
  world key_only_state = world demo_state /\
  configure merge_param merge_before
    = (Ok (mkFlags false false false true), merge_configured) /\
  setSheetControllerParam merge_param merge_before
    = (reflashLastRow ;; reflashLastColumn) merge_configured.
Proof.
  assert (H1 : configure key_only_param demo_state
               = (Ok (mkFlags false false false false), key_only_state)).
  { unfold key_only_state.
    apply (result_eta (configure key_only_param demo_state)
             (mkFlags false false false false)).
    vm_compute. reflexivity. }
  assert (H2 : configure merge_param merge_before
               = (Ok (mkFlags false false false true), merge_configured)).
  { unfold merge_configured.
    apply (result_eta (configure merge_param merge_before)
             (mkFlags false false false true)).
    vm_compute. reflexivity. }
  split; [exact H1|].
  destruct (update_refresh key_only_param demo_state key_only_state
              (mkFlags false false false false) H1) as (_ & _ & Hno).
  destruct (Hno eq_refl) as (Ha & Hb & Hc & Hd).
  split; [exact Ha|]. split; [exact Hb|]. split; [exact Hc|]. split; [exact Hd|].
  split; [exact H2|].
  destruct (update_refresh merge_param merge_before merge_configured
              (mkFlags false false false true) H2) as (_ & Hyes & _).
  exact (proj1 (Hyes eq_refl)).
Defined.

(** ** Writing the header *)

Lemma find_sheet_put (w : World) (ref : SheetRef) (sh sh' : Sheet) :
  find_sheet w ref = Some sh -> find_sheet (put_sheet w ref sh') ref = Some sh'.
Proof.
  unfold find_sheet, put_sheet.
  destruct (books w !! ref.1) as [b|] eqn:E; [|discriminate].
  intros _. simpl. rewrite lookup_insert_eq. apply lookup_insert_eq.
Qed.

Lemma range_setValues_ok (rg : Range) (vals : list (list scalar)) (s s' : State) :
  range_setValues rg vals s = (Ok tt, s') ->
  exists sh,
    find_sheet (world s) (rg_sheet rg) = Some sh /\
    shape_ok vals (rg_rows rg) (rg_columns rg) = true /\
    ctl s' = ctl s /\
    find_sheet (world s') (rg_sheet rg) =
      Some (mkSheet (maxRows sh) (maxColumns sh)
              (write_block (cells sh) (rg_row rg) (rg_column rg) vals)).
Proof.
  unfold range_setValues, the_sheet, bind, get_world, set_world, emit, ret, throw. simpl.
  destruct (find_sheet (world s) (rg_sheet rg)) as [sh|] eqn:Ef; [|discriminate]. simpl.
  destruct (shape_ok vals (rg_rows rg) (rg_columns rg)) eqn:Es; [|discriminate].
  intros [= <-]. exists sh. simpl. repeat split.
  apply (find_sheet_put _ _ sh). rewrite find_sheet_add_log. exact Ef.
Qed.

Lemma range_setValues_run (rg : Range) (vals : list (list scalar)) (s : State) (sh : Sheet) :
  find_sheet (world s) (rg_sheet rg) = Some sh ->
  shape_ok vals (rg_rows rg) (rg_columns rg) = true ->
  exists s', range_setValues rg vals s = (Ok tt, s').
Proof.
  intros Hf Hs.
  unfold range_setValues, the_sheet, bind, get_world, set_world, emit, ret, throw. simpl.
  rewrite Hf. simpl. rewrite Hs. eexists. reflexivity.
Qed.

(** One written row: the cells of the row, and all the others. *)
Lemma write_row_inside (cs : Z -> Z -> scalar) (h c : Z) (row : list scalar)
  (i : nat) (v : scalar) :
  row !! i = Some v -> write_block cs h c [row] h (c + Z.of_nat i) = v.
Proof.
  intros H. unfold write_block.
  replace (h <=? h) with true by (symmetry; apply Z.leb_le; lia).
  replace (c <=? c + Z.of_nat i) with true by (symmetry; apply Z.leb_le; lia).
  simpl. replace (Z.to_nat (h - h)) with O by lia. simpl.
  replace (Z.to_nat (c + Z.of_nat i - c)) with i by lia. rewrite H. reflexivity.
Qed.

Lemma write_row_outside (cs : Z -> Z -> scalar) (h c : Z) (row : list scalar) (r j : Z) :
  ~ (r = h /\ c <= j < c + Z.of_nat (length row)) ->
  write_block cs h c [row] r j = cs r j.
Proof.
  intros H. unfold write_block.
  destruct (h <=? r) eqn:E1; [|reflexivity].
  destruct (c <=? j) eqn:E2; [|reflexivity]. simpl.
  apply Z.leb_le in E1, E2.
  destruct (Z.to_nat (r - h)) as [|n] eqn:En; simpl.
  - destruct (row !! Z.to_nat (j - c)) as [v|] eqn:El; [|reflexivity].
    exfalso. apply H. apply lookup_lt_Some in El. split; lia.
  - first [reflexivity | rewrite lookup_nil; reflexivity].
Qed.

Lemma shape_ok_row (row : list scalar) (nr nc : Z) :
  shape_ok [row] nr nc = true -> nr = 1 /\ nc = Z.of_nat (length row).
Proof.
  unfold shape_ok. cbn [forallb length]. rewrite !andb_true_iff, !Z.eqb_eq. lia.
Qed.

(** C8: [outputHeader] leaves the last row and the row count (and the
    configuration) as they were, whatever happens.  When it returns, it has
    written its values into the header row, from the start column on and one
    value per column, changing no other cell and not the size of the sheet,
    and the last column, the column count and the header are the ones
    [reflashLastColumn] reads from the sheet as written.  It does return when
    the values are not empty and their row lies on the sheet. *)
Theorem outputHeader_writes (headerArray : list scalar) (s : State) :
  pairA (outputHeader headerArray s).2 = pairA s /\
  numbers_of (outputHeader headerArray s).2 = numbers_of s /\
  binding_of (outputHeader headerArray s).2 = binding_of s /\
  (forall rg s', outputHeader headerArray s = (Ok rg, s') ->
     exists ref sh sh' h c,
       _sheet (ctl s) = Some ref /\ find_sheet (world s) ref = Some sh /\
       _headerRow (ctl s) = Some h /\ _startColumn (ctl s) = Some c /\
       rg = mkRange ref h c 1 (Z.of_nat (length headerArray)) /\
       find_sheet (world s') ref = Some sh' /\
       maxRows sh' = maxRows sh /\ maxColumns sh' = maxColumns sh /\
       (forall i v, headerArray !! i = Some v -> cells sh' h (c + Z.of_nat i) = v) /\
       (forall r j, ~ (r = h /\ c <= j < c + Z.of_nat (length headerArray)) ->
                    cells sh' r j = cells sh r j) /\
       let lc := (nextDataCell sh' NEXT h c).2 in
       _lastColumn (ctl s') = Some lc /\
       _columnNum (ctl s') = Some (lc - c + 1) /\
       _header (ctl s') =
         Some (concat (block_values sh' h c 1 (Z.to_nat (lc - c + 1))))) /\
  (forall ref sh h c,
     _sheet (ctl s) = Some ref -> find_sheet (world s) ref = Some sh ->
     _headerRow (ctl s) = Some h -> _startColumn (ctl s) = Some c ->
     headerArray <> [] ->
     in_bounds sh h c 1 (Z.of_nat (length headerArray)) = true ->
     exists rg s', outputHeader headerArray s = (Ok rg, s')).
Proof.
  pose proof (outputHeader_frame headerArray s) as F. cbv beta in F.
  split; [congruence|]. split; [congruence|]. split; [congruence|]. clear F.
  split.
  - intros rg s' H. apply outputHeader_ok in H.
    destruct H as (s1 & s2 & Hg & Hw & Hr).
    unfold getRange, bind, this in Hg. simpl in Hg.
    apply sheet_getRange_ok in Hg.
    destruct Hg as (ref & sh & h & c & nr & nc & Hs & Hf & Hh & Hc & Hnr & Hnc & Hb & -> & ->).
    apply range_setValues_ok in Hw. simpl in Hw.
    destruct Hw as (sh0 & Hf0 & Hshape & Hctl & Hf2).
    rewrite find_sheet_add_log, Hf in Hf0. injection Hf0 as <-.
    apply shape_ok_row in Hshape. destruct Hshape as [-> ->].
    apply reflashLastColumn_ok in Hr.
    destruct Hr as (ref' & sh' & h' & c' & Hs' & Hf' & Hh' & Hc' & _ & Hc3 & Hb3 & _).
    rewrite Hctl in Hs', Hh', Hc'. simpl in Hs', Hh', Hc'.
    assert (ref' = ref) as -> by congruence.
    assert (h' = h) as -> by congruence.
    assert (c' = c) as -> by congruence.
    rewrite Hf2 in Hf'. injection Hf' as <-.
    exists ref, sh,
      (mkSheet (maxRows sh) (maxColumns sh) (write_block (cells sh) h c [headerArray])),
      h, c.
    cbv zeta in *. rewrite Hc3.
    split; [exact Hs|]. split; [exact Hf|]. split; [exact Hh|]. split; [exact Hc|].
    split; [reflexivity|].
    split; [rewrite <- Hf2; apply find_sheet_books; exact Hb3|].
    split; [reflexivity|]. split; [reflexivity|].
    split; [intros i v Hi; apply write_row_inside; exact Hi|].
    split; [intros r j Hout; apply write_row_outside; exact Hout|].
    repeat split.
  - intros ref sh h c Hs Hf Hh Hc Hne Hb.
    assert (Hlen : 1 <= Z.of_nat (length headerArray)).
    { destruct headerArray; [congruence | simpl; lia]. }
    set (rg := mkRange ref h c 1 (Z.of_nat (length headerArray))).
    set (s1 := mkState (add_log (EvGetRange ref (Some h) (Some c) (Some 1)
                                   (Some (Z.of_nat (length headerArray)))) (world s)) (ctl s)).
    assert (Hg : getRange (RangeAddress.mk None (_headerRow (ctl s)) (_startColumn (ctl s))
                             None (Some (Z.of_nat (length headerArray)))) s = (Ok rg, s1)).
    { unfold getRange, bind, this, sheet_getRange, the_sheet, bind, get_world, emit,
        ret, throw. simpl. rewrite Hs, Hf. simpl. rewrite Hh, Hc.
      unfold or_num. rewrite truthy_num_pos by exact Hlen. simpl. rewrite Hb. reflexivity. }
    destruct (range_setValues_run rg [headerArray] s1 sh) as [s2 Hw].
    { exact Hf. }
    { unfold shape_ok. simpl. rewrite !Z.eqb_refl. reflexivity. }
    pose proof (range_setValues_ok _ _ _ _ Hw) as (sh0 & Hf0 & _ & Hctl & Hf2).
    unfold rg, s1 in Hf0, Hf2. cbn [rg_sheet rg_row rg_column world] in Hf0, Hf2.
    rewrite find_sheet_add_log, Hf in Hf0. injection Hf0 as <-.
    unfold s1 in Hctl. cbn [ctl] in Hctl.
    destruct (reflashLastColumn_run s2 ref
                (mkSheet (maxRows sh) (maxColumns sh)
                   (write_block (cells sh) h c [headerArray])) h c) as [s3 Hr].
    + rewrite Hctl. exact Hs.
    + exact Hf2.
    + rewrite Hctl. exact Hh.
    + rewrite Hctl. exact Hc.
    + apply in_bounds_spec in Hb. apply in_bounds_spec. simpl. lia.
    + exists rg, s3. unfold outputHeader, bind, this at 1. rewrite Hg, Hw, Hr. reflexivity.
Qed.

Lemma outputHeader_writes_witness :
  _sheet (ctl demo_state) = Some ("book", "S")%string /\
  find_sheet (world demo_state) ("book", "S")%string = Some three_by_two /\
  in_bounds three_by_two 1 1 1 (Z.of_nat (length header_values)) = true /\
  pairA (outputHeader header_values demo_state).2 = pairA demo_state /\
  exists rg s', outputHeader header_values demo_state = (Ok rg, s').
Proof.
  assert (H1 : _sheet (ctl demo_state) = Some ("book", "S")%string)
    by (vm_compute; reflexivity).
  assert (H2 : find_sheet (world demo_state) ("book", "S")%string = Some three_by_two)
    by (vm_compute; reflexivity).
  assert (H3 : in_bounds three_by_two 1 1 1 (Z.of_nat (length header_values)) = true)
    by (vm_compute; reflexivity).
  assert (H4 : _headerRow (ctl demo_state) = Some 1) by (vm_compute; reflexivity).
  assert (H5 : _startColumn (ctl demo_state) = Some 1) by (vm_compute; reflexivity).
  assert (H6 : header_values <> []) by discriminate.
  split; [exact H1|]. split; [exact H2|]. split; [exact H3|].
  destruct (outputHeader_writes header_values demo_state) as (HA & _ & _ & _ & Hrun).
  split; [exact HA|].
  exact (Hrun ("book", "S")%string three_by_two 1 1 H1 H2 H4 H5 H6 H3).
Defined.

(** ** The last row *)

Lemma block_end_ge (pop : nat -> bool) (d n fuel : nat) :
  (forall k, (d < k <= d + n)%nat -> pop k = true) -> (n <= fuel)%nat ->
  (d + n <= block_end pop d fuel)%nat.
Proof.
  revert d n. induction fuel as [|f IH]; intros d n H Hn; simpl; [lia|].
  destruct n as [|n]; [pose proof (block_end_bounds pop d (S f)) as B; simpl in B;
                       destruct (pop (S d)); lia|].
  rewrite H by lia.
  specialize (IH (S d) n). rewrite <- Nat.add_succ_comm. apply IH; [|lia].
  intros k Hk. apply H. lia.
Qed.

(** When the bottom cell of the key column is truthy and the column is
    populated from the header row down to the bottom of the sheet, the last
    row is the bottom row. *)
Lemma last_row_of_full_column (sh : Sheet) (k h : Z) :
  1 <= h <= maxRows sh ->
  (forall i, h <= i <= maxRows sh -> populated (cells sh i k) = true) ->
  truthy (cells sh (maxRows sh) k) = true ->
  last_row_of sh k (Some h) = maxRows sh.
Proof.
  intros Hh Hpop Ht.
  assert (Hr : (nextDataCell sh UP (maxRows sh) k).1 <= h).
  { destruct (Z.eq_dec h (maxRows sh)) as [->|Hne].
    - destruct (nextDataCell_up_bounds sh (maxRows sh) k); lia.
    - simpl. set (pop := fun n : nat => populated (cells sh (maxRows sh - Z.of_nat n) k)).
      destruct (Z.to_nat (maxRows sh - 1)) as [|D'] eqn:ED; [lia|]. simpl.
      assert (P0 : pop 0%nat = true) by (unfold pop; apply Hpop; lia).
      assert (P1 : pop 1%nat = true) by (unfold pop; apply Hpop; lia).
      rewrite P0, P1. simpl.
      pose proof (block_end_ge pop 1 (Z.to_nat (maxRows sh - h) - 1) D') as B.
      assert ((1 + (Z.to_nat (maxRows sh - h) - 1) <= block_end pop 1 D')%nat); [|lia].
      apply B; [|lia]. intros n Hn. unfold pop. apply Hpop. lia. }
  unfold last_row_of. cbv zeta. rewrite Ht. cbn [andb num_leb].
  apply Z.leb_le in Hr. rewrite Hr. reflexivity.
Qed.

(** C2, at the failing input: the key column of the sheet is populated from
    the header in row 1 down to the last physical row 3, the bottom cell
    holds the number 0, and the upward scan from it ends in row 1, at the
    header; [getLastRow] still answers 1, not 3, because it tests the bottom
    value for truthiness, and the constructed controller caches last row 1
    and row count 0. *)
Theorem getLastRow_zero_bottom_cell :
  (constructor demo_param (one_sheet_world "S" zero_key_sheet)).1 = Ok tt /\
  find_sheet (world zero_key_state) ("book", "S")%string = Some zero_key_sheet /\
  _keyColumn (ctl zero_key_state) = Some 1 /\
  _headerRow (ctl zero_key_state) = Some 1 /\
  maxRows zero_key_sheet = 3 /\
  (forall i, 1 <= i <= 3 -> populated (cells zero_key_sheet i 1) = true) /\
  cells zero_key_sheet 3 1 = SNum 0 /\
  (nextDataCell zero_key_sheet UP 3 1).1 = 1 /\
  (getLastRow zero_key_state).1 = Ok (Some 1) /\
  _lastRow (ctl zero_key_state) = Some 1 /\
  _rowNum (ctl zero_key_state) = Some 0.
Proof.
  repeat split; try (vm_compute; reflexivity).
  intros i Hi.
  assert (i = 1 \/ i = 2 \/ i = 3) as [->|[->| ->]] by lia; vm_compute; reflexivity.
Qed.

(** * Further properties *)

(** ** Identifiers out of URLs *)

Lemma match_atoms_self (p : string) (rest : jsstring) :
  forallb (fun c => negb (line_terminator c)) (units p) = true ->
  match_atoms (atoms_of p) (units p ++ rest) = Some rest.
Proof.
  induction p as [|a p IH]; simpl; [reflexivity|].
  rewrite andb_true_iff. intros [Ha Hp].
  destruct (Ascii.N_of_ascii a =? 46)%N eqn:E; simpl.
  - rewrite Ha. apply IH. exact Hp.
  - rewrite N.eqb_refl. apply IH. exact Hp.
Qed.

(** Where a pattern has a literal, a text it matches has that character. *)
Lemma match_atoms_literal (p : list atom) (s rest : jsstring) (i : nat) (x : N) :
  match_atoms p s = Some rest -> p !! i = Some (Lit x) -> s !! i = Some x.
Proof.
  revert s i. induction p as [|a p IH]; intros s i H Hi; [discriminate|].
  destruct s as [|c s]; [discriminate|]. simpl in H.
  destruct (atom_matches a c) eqn:E; [|discriminate].
  destruct i as [|i]; simpl in *.
  - injection Hi as ->. simpl in E. apply N.eqb_eq in E. congruence.
  - eapply IH; eassumption.
Qed.

Lemma match_group_end (id rest : jsstring) :
  id <> [] -> Forall (fun c => c <> 47%N) id ->
  rest = [] \/ head rest = Some 47%N ->
  match_group [] (id ++ rest) = Some id.
Proof.
  intros Hne Hid Hrest. induction Hid as [|c id Hc Hid IH]; [congruence|].
  simpl. apply N.eqb_neq in Hc. rewrite Hc.
  destruct id as [|c' id'].
  - simpl. destruct rest as [|r rest']; [reflexivity|].
    destruct Hrest as [?|Hr]; [discriminate|]. simpl in Hr. injection Hr as ->.
    reflexivity.
  - rewrite IH by discriminate. reflexivity.
Qed.

Lemma match_group_slash (id rest : jsstring) :
  id <> [] -> Forall (fun c => c <> 47%N) id ->
  match_group [Lit 47%N] (id ++ 47%N :: rest) = Some id.
Proof.
  intros Hne Hid. induction Hid as [|c id Hc Hid IH]; [congruence|].
  simpl. apply N.eqb_neq in Hc. rewrite Hc.
  destruct id as [|c' id'].
  - reflexivity.
  - rewrite IH by discriminate. reflexivity.
Qed.

Lemma match_group_no_slash (id : jsstring) :
  Forall (fun c => c <> 47%N) id -> match_group [Lit 47%N] id = None.
Proof.
  induction 1 as [|c id Hc Hid IH]; [reflexivity|].
  simpl. apply N.eqb_neq in Hc. rewrite Hc, IH.
  destruct Hid as [|c' id' Hc' _]; [reflexivity|].
  simpl. apply N.eqb_neq in Hc'. rewrite Hc'. reflexivity.
Qed.

Lemma regexp_match_hit (before after : list atom) (text rest capture : jsstring) :
  match_atoms before text = Some rest -> match_group after rest = Some capture ->
  regexp_match before after text = Some capture.
Proof. intros H1 H2. destruct text; simpl; rewrite H1, H2; reflexivity. Qed.

Lemma regexp_match_miss (before after : list atom) (c : N) (text : jsstring) :
  match_atoms before (c :: text) = None \/
  (exists rest, match_atoms before (c :: text) = Some rest /\
                match_group after rest = None) ->
  regexp_match before after (c :: text) = regexp_match before after text.
Proof.
  intros [H|(rest & H1 & H2)]; simpl regexp_match.
  - simpl in H. rewrite H. reflexivity.
  - simpl in H1. rewrite H1, H2. reflexivity.
Qed.

(** A text without a slash holds no match of a pattern with a literal slash. *)
Lemma regexp_match_no_slash (before after : list atom) (text : jsstring) (i : nat) :
  before !! i = Some (Lit 47%N) ->
  Forall (fun c => c <> 47%N) text ->
  regexp_match before after text = None.
Proof.
  intros Hi. induction 1 as [|c text Hc Htext IH].
  - simpl. destruct (match_atoms before []) as [rest|] eqn:E; [|reflexivity].
    apply (match_atoms_literal _ _ _ i 47%N) in E; [|exact Hi]. discriminate.
  - assert (Hno : match_atoms before (c :: text) = None).
    { destruct (match_atoms before (c :: text)) as [rest|] eqn:E; [|reflexivity].
      apply (match_atoms_literal _ _ _ i 47%N) in E; [|exact Hi].
      apply list_elem_of_lookup_2 in E. apply elem_of_cons in E.
      destruct E as [E|E]; [congruence|].
      rewrite Forall_forall in Htext. exfalso. apply (Htext _ E). reflexivity. }
    rewrite regexp_match_miss by (left; exact Hno). exact IH.
Qed.

(** X13: a folder URL gives its identifier back: after the address of the
    folders, the identifier runs up to the next slash or to the end. *)
Theorem extractFolderIdFromUrl_round_trip (id rest : jsstring) :
  id <> [] -> Forall (fun c => c <> 47%N) id ->
  rest = [] \/ head rest = Some 47%N ->
  extractFolderIdFromUrl
    (units "https://drive.google.com/drive/folders/" ++ id ++ rest) = Some id.
Proof.
  intros Hne Hid Hrest. unfold extractFolderIdFromUrl. cbv zeta.
  rewrite (regexp_match_hit _ _ _ (id ++ rest) id).
  - reflexivity.
  - apply match_atoms_self. vm_compute. reflexivity.
  - apply match_group_end; assumption.
Qed.

(** X14: a spreadsheet URL gives its identifier back when a slash follows
    the identifier; without that slash, as in a URL that ends with the
    identifier, nothing is recognised and the result is [undefined]. *)
Theorem extractBookIdFromUrl_needs_slash (id rest : jsstring) :
  Forall (fun c => c <> 47%N) id ->
  (id <> [] ->
   extractBookIdFromUrl
     (units "https://docs.google.com/spreadsheets/d/" ++ id ++ 47%N :: rest) = Some id) /\
  extractBookIdFromUrl (units "https://docs.google.com/spreadsheets/d/" ++ id) = None.
Proof.
  intros Hid. split.
  - intros Hne. unfold extractBookIdFromUrl. cbv zeta.
    rewrite (regexp_match_hit _ _ _ (id ++ 47%N :: rest) id).
    + reflexivity.
    + apply match_atoms_self. vm_compute. reflexivity.
    + apply match_group_slash; assumption.
  - unfold extractBookIdFromUrl. cbv zeta.
    assert (E : regexp_match (atoms_of "https://docs.google.com/spreadsheets/d/")
                  (atoms_of "/")
                  (units "https://docs.google.com/spreadsheets/d/" ++ id) = None);
      [|rewrite E; reflexivity].
    let t := eval vm_compute in (units "https://docs.google.com/spreadsheets/d/" ++ id) in
    change (units "https://docs.google.com/spreadsheets/d/" ++ id) with t.
    rewrite regexp_match_miss
      by (right; exists id; split; [reflexivity | apply match_group_no_slash; exact Hid]).
    repeat (rewrite regexp_match_miss by (left; reflexivity)).
    apply (regexp_match_no_slash _ _ _ 6); [reflexivity | exact Hid].
Qed.

Lemma extractBookIdFromUrl_needs_slash_witness :
  Forall (fun c => c <> 47%N) (units "abc123") /\
  extractBookIdFromUrl (units "https://docs.google.com/spreadsheets/d/abc123/edit")
    = Some (units "abc123") /\
  extractBookIdFromUrl (units "https://docs.google.com/spreadsheets/d/abc123") = None.
Proof.
  assert (H : Forall (fun c => c <> 47%N) (units "abc123")).
  { vm_compute. repeat constructor; discriminate. }
  split; [exact H|].
  destruct (extractBookIdFromUrl_needs_slash (units "abc123") (units "edit") H) as [H1 H2].
  split; [apply H1; discriminate | exact H2].
Defined.

Lemma extractFolderIdFromUrl_round_trip_witness :
  units "Fld9" <> [] /\ Forall (fun c => c <> 47%N) (units "Fld9") /\
  extractFolderIdFromUrl (units "https://drive.google.com/drive/folders/Fld9/sub")
    = Some (units "Fld9").
Proof.
  assert (H : Forall (fun c => c <> 47%N) (units "Fld9")).
  { vm_compute. repeat constructor; discriminate. }
  split; [discriminate|]. split; [exact H|].
  apply (extractFolderIdFromUrl_round_trip (units "Fld9") (units "/sub"));
    [discriminate | exact H | right; reflexivity].
Defined.

(** ** Template names *)

Lemma strip_prefix_app (p after : jsstring) : strip_prefix p (p ++ after) = Some after.
Proof. induction p as [|x p IH]; simpl; [reflexivity|]. rewrite N.eqb_refl. exact IH. Qed.

Lemma split_first_absent (x : N) (p s : jsstring) :
  Forall (fun c => c <> x) s -> split_first (x :: p) s = None.
Proof.
  induction 1 as [|c s Hc Hs IH]; [reflexivity|].
  simpl. apply N.eqb_neq in Hc. rewrite Hc. simpl in IH. rewrite IH. reflexivity.
Qed.

Lemma split_first_found (x : N) (p before after : jsstring) :
  Forall (fun c => c <> x) before ->
  split_first (x :: p) (before ++ (x :: p) ++ after) = Some (before, after).
Proof.
  induction 1 as [|c s Hc Hs IH].
  - simpl. rewrite N.eqb_refl, strip_prefix_app. reflexivity.
  - simpl. apply N.eqb_neq in Hc. rewrite Hc. simpl in IH. rewrite IH. reflexivity.
Qed.

Lemma substitution_plain (matched before after r : jsstring) :
  Forall (fun c => c <> 36%N) r -> substitution matched before after r = r.
Proof.
  induction 1 as [|c r Hc Hr IH]; [reflexivity|].
  simpl. apply N.eqb_neq in Hc. rewrite Hc, IH. reflexivity.
Qed.

Lemma js_replace_absent (x : N) (p s r : jsstring) :
  Forall (fun c => c <> x) s -> js_replace s (x :: p) r = s.
Proof. intros H. unfold js_replace. rewrite (split_first_absent x p s H). reflexivity. Qed.

Lemma js_replace_found (x : N) (p before after r : jsstring) :
  Forall (fun c => c <> x) before -> Forall (fun c => c <> 36%N) r ->
  js_replace (before ++ (x :: p) ++ after) (x :: p) r = before ++ r ++ after.
Proof.
  intros Hb Hr. unfold js_replace.
  rewrite (split_first_found x p before after Hb), substitution_plain by exact Hr.
  reflexivity.
Qed.

(** X16: a name without the opening bracket of the markers has nothing
    replaced: it comes back as it is, followed by an underscore and the
    suffix when a suffix is given. *)
Theorem getRenameTemplateBookName_plain (name : jsstring)
  (renameParam : option renameTemplateBookNameParam) :
  Forall (fun c => c <> 12304%N) name ->
  getRenameTemplateBookName name renameParam =
  match renameParam with
  | Some p => if truthy_js (suffix p) then name ++ 95%N :: text_of (suffix p) else name
  | None => name
  end.
Proof.
  intros H. unfold getRenameTemplateBookName. cbv zeta.
  unfold template_marker, yyyy_marker, mm_marker, dd_marker.
  rewrite (js_replace_absent _ _ name _ H).
  destruct renameParam as [p|]; [|reflexivity].
  destruct (truthy_js (yyyy p)); rewrite ?(js_replace_absent _ _ name _ H);
    destruct (truthy_js (mm p)); rewrite ?(js_replace_absent _ _ name _ H);
    destruct (truthy_js (dd p)); rewrite ?(js_replace_absent _ _ name _ H);
    reflexivity.
Qed.

Lemma getRenameTemplateBookName_plain_witness :
  Forall (fun c => c <> 12304%N) (units "report") /\
  getRenameTemplateBookName (units "report")
    (Some (mkRename (Some (units "2024")) None None (Some (units "v2"))))
  = units "report_v2".
Proof.
  assert (H : Forall (fun c => c <> 12304%N) (units "report")).
  { vm_compute. repeat constructor; discriminate. }
  split; [exact H|].
  exact (getRenameTemplateBookName_plain (units "report")
           (Some (mkRename (Some (units "2024")) None None (Some (units "v2")))) H).
Defined.

(** X15: in a name that holds the template marker and then the year, month
    and day markers, in this order and each for the first time, the template
    marker is dropped and the three others are replaced by the values given
    (values without a dollar sign and without the opening bracket); what
    follows the day marker, further markers included, is kept, and the
    suffix is appended behind an underscore. *)
Theorem getRenameTemplateBookName_expands
  (a b c d e y m dy : jsstring) (sfx : option jsstring) :
  Forall (fun u => u <> 12304%N) (a ++ b ++ y ++ c ++ m ++ d) ->
  Forall (fun u => u <> 36%N) (y ++ m ++ dy) ->
  y <> [] -> m <> [] -> dy <> [] ->
  getRenameTemplateBookName
    (a ++ template_marker ++ b ++ yyyy_marker ++ c ++ mm_marker ++ d ++ dd_marker ++ e)
    (Some (mkRename (Some y) (Some m) (Some dy) sfx))
  = a ++ b ++ y ++ c ++ m ++ d ++ dy ++ e
      ++ (if truthy_js sfx then 95%N :: text_of sfx else []).
Proof.
  intros Hb Hd Hy Hm Hdy.
  rewrite !Forall_app in Hb. destruct Hb as (Ha & Hb & Hyb & Hc & Hmb & Hdb).
  rewrite !Forall_app in Hd. destruct Hd as (Hyd & Hmd & Hdd).
  assert (R : forall x p before after r s,
             s = before ++ (x :: p) ++ after ->
             Forall (fun u => u <> x) before -> Forall (fun u => u <> 36%N) r ->
             js_replace s (x :: p) r = before ++ r ++ after).
  { intros x p before after r s ->. apply js_replace_found. }
  assert (E1 : js_replace
                 (a ++ template_marker ++ b ++ yyyy_marker ++ c ++ mm_marker ++ d
                    ++ dd_marker ++ e) template_marker []
               = (a ++ b) ++ yyyy_marker ++ c ++ mm_marker ++ d ++ dd_marker ++ e).
  { etransitivity;
      [apply (R 12304%N _ a (b ++ yyyy_marker ++ c ++ mm_marker ++ d ++ dd_marker ++ e) []);
       [reflexivity | exact Ha | constructor]
      | rewrite <- !app_assoc; reflexivity]. }
  assert (E2 : js_replace
                 ((a ++ b) ++ yyyy_marker ++ c ++ mm_marker ++ d ++ dd_marker ++ e)
                 yyyy_marker y
               = (a ++ b ++ y ++ c) ++ mm_marker ++ d ++ dd_marker ++ e).
  { etransitivity;
      [apply (R 12304%N _ (a ++ b) (c ++ mm_marker ++ d ++ dd_marker ++ e) y);
       [reflexivity | rewrite Forall_app; split; assumption | exact Hyd]
      | rewrite <- !app_assoc; reflexivity]. }
  assert (E3 : js_replace ((a ++ b ++ y ++ c) ++ mm_marker ++ d ++ dd_marker ++ e)
                 mm_marker m
               = (a ++ b ++ y ++ c ++ m ++ d) ++ dd_marker ++ e).
  { etransitivity;
      [apply (R 12304%N _ (a ++ b ++ y ++ c) (d ++ dd_marker ++ e) m);
       [reflexivity | rewrite !Forall_app; repeat split; assumption | exact Hmd]
      | rewrite <- !app_assoc; reflexivity]. }
  assert (E4 : js_replace ((a ++ b ++ y ++ c ++ m ++ d) ++ dd_marker ++ e) dd_marker dy
               = a ++ b ++ y ++ c ++ m ++ d ++ dy ++ e).
  { etransitivity;
      [apply (R 12304%N _ (a ++ b ++ y ++ c ++ m ++ d) e dy);
       [reflexivity | rewrite !Forall_app; repeat split; assumption | exact Hdd]
      | rewrite <- !app_assoc; reflexivity]. }
  assert (Ty : truthy_js (Some y) = true) by (destruct y; [congruence | reflexivity]).
  assert (Tm : truthy_js (Some m) = true) by (destruct m; [congruence | reflexivity]).
  assert (Td : truthy_js (Some dy) = true) by (destruct dy; [congruence | reflexivity]).
  unfold getRenameTemplateBookName. cbv zeta.
  cbn [yyyy mm dd suffix]. rewrite Ty, Tm, Td. cbn [text_of].
  rewrite E1, E2, E3, E4.
  destruct (truthy_js sfx); rewrite <- ?app_assoc; [reflexivity|].
  rewrite app_nil_r. reflexivity.
Qed.

Lemma getRenameTemplateBookName_expands_witness :
  getRenameTemplateBookName template_name
    (Some (mkRename (Some (units "2024")) (Some (units "01")) (Some (units "05"))
             (Some (units "v2"))))
  = units "report_2024-01-05" ++ yyyy_marker ++ units "_v2".
Proof.
  assert (H1 : Forall (fun u => u <> 12304%N)
                 ([] ++ units "report_" ++ units "2024" ++ units "-" ++ units "01"
                    ++ units "-")).
  { vm_compute. repeat constructor; discriminate. }
  assert (H2 : Forall (fun u => u <> 36%N) (units "2024" ++ units "01" ++ units "05")).
  { vm_compute. repeat constructor; discriminate. }
  exact (getRenameTemplateBookName_expands [] (units "report_") (units "-") (units "-")
           yyyy_marker (units "2024") (units "01") (units "05") (Some (units "v2"))
           H1 H2 ltac:(discriminate) ltac:(discriminate) ltac:(discriminate)).
Defined.

(** ** Errors of the configuration *)

Section Avoids.
Context (e : Error).

Lemma avoids_ret {A} (a : A) : avoids e (ret a).
Proof. intros s. discriminate. Qed.

Lemma avoids_throw {A} (e' : Error) : e' <> e -> avoids e (@throw A e').
Proof. intros H s. simpl. congruence. Qed.

Lemma avoids_bind {A B} (m : M A) (k : A -> M B) :
  avoids e m -> (forall a, avoids e (k a)) -> avoids e (bind m k).
Proof.
  intros Hm Hk s. unfold bind. specialize (Hm s).
  destruct (m s) as [[a|e'] s1]; simpl in *; [apply Hk | congruence].
Qed.

Lemma avoids_state {A} (f : State -> A * State) :
  avoids e (fun s => (Ok (f s).1, (f s).2)).
Proof. intros s. discriminate. Qed.
End Avoids.

Ltac avoids_step :=
  lazymatch goal with
  | |- avoids _ (bind _ _) => apply avoids_bind; [| intros ?]
  | |- avoids _ (ret _) => apply avoids_ret
  | |- avoids _ (throw _) => apply avoids_throw; discriminate
  | |- avoids _ this => intros ?; discriminate
  | |- avoids _ get_world => intros ?; discriminate
  | |- avoids _ (assign _) => intros ?; discriminate
  | |- avoids _ (emit _) => intros ?; discriminate
  | |- avoids _ (set_world _) => intros ?; discriminate
  | |- avoids _ (if ?b then _ else _) => destruct b
  | |- avoids _ (match ?x with _ => _ end) => destruct x
  | |- avoids _ _ => progress (autounfold with methods; cbv zeta)
  end.

Ltac avoids_all := repeat avoids_step.

Lemma update_sheet_avoids param b : avoids ResourceOpenError (update_sheet param b).
Proof. avoids_all. Qed.

Lemma reflashLastRow_avoids : avoids ResourceOpenError reflashLastRow.
Proof. avoids_all. Qed.

Lemma reflashLastColumn_avoids : avoids ResourceOpenError reflashLastColumn.
Proof. avoids_all. Qed.

Lemma setSheetControllerParam_after_book (param : SheetControllerParam) (s : State) :
  setSheetControllerParam param s =
  match update_book param s with
  | (Ok b, s1) => after_book param b s1
  | (Throw e, s1) => (Throw e, s1)
  end.
Proof.
  unfold setSheetControllerParam, configure, after_book. unfold bind at 1 2.
  destruct (update_book param s) as [[b|e] s1]; [|reflexivity].
  unfold bind.
  destruct (update_sheet param b s1) as [[b2|e] s2]; [|reflexivity].
  destruct (update_headerRow param s2) as [[b3|e] s3]; [|reflexivity].
  destruct (update_startColumn param s3) as [[b4|e] s4]; [|reflexivity].
  destruct (update_keyColumn param b4 s4) as [[[]|e] s5]; [|reflexivity].
  reflexivity.
Qed.

Lemma after_book_avoids param b : avoids ResourceOpenError (after_book param b).
Proof. unfold after_book. avoids_all. Qed.

Lemma truthy_str_spec (o : option string) :
  truthy_str o = true <-> exists id, o = Some id /\ id <> EmptyString.
Proof.
  destruct o as [id|]; simpl.
  - rewrite negb_true_iff. split.
    + intros H. apply String.eqb_neq in H. eauto.
    + intros (id' & [= <-] & H). apply String.eqb_neq. exact H.
  - split; [discriminate | intros (id & [=] & _)].
Qed.

(** The first block of [setSheetControllerParam], outcome by outcome. *)
Lemma update_book_result (param : SheetControllerParam) (s : State) :
  update_book param s =
  if truthy_str (bookId param) then
    match bookId param with
    | Some id =>
        match books (world s) !! id with
        | Some _ =>
            (Ok true, mkState (add_log (EvOpenById (bookId param)) (world s))
                        (set_book (Some id) (ctl s)))
        | None =>
            (Throw ResourceOpenError,
             mkState (add_log (EvOpenById (bookId param)) (world s)) (ctl s))
        end
    | None => (Throw ResourceOpenError,
               mkState (add_log (EvOpenById (bookId param)) (world s)) (ctl s))
    end
  else
    match _book (ctl s) with
    | Some _ => (Ok false, s)
    | None =>
        (Ok true, mkState (add_log EvGetActive (world s))
                    (set_book (Some (active (world s))) (ctl s)))
    end.
Proof.
  unfold update_book. destruct (truthy_str (bookId param)).
  - unfold bind, try_catch, openById, bind, emit, get_world, ret, throw, assign. simpl.
    destruct (bookId param) as [id|]; [|reflexivity].
    destruct (books (world s) !! id) as [bk|] eqn:El.
    + rewrite bool_decide_true by eauto. reflexivity.
    + rewrite bool_decide_false by (intros [x Hx]; discriminate). reflexivity.
  - unfold bind, this, getActiveSpreadsheet, bind, emit, get_world, assign, ret. simpl.
    destruct (_book (ctl s)); reflexivity.
Qed.

(** X1: [setSheetControllerParam] throws the error of a book that cannot be
    opened exactly when a book identifier is given and no book has it; the
    object is then as before the call, and so is every sheet: only the
    attempt is in the call log. *)
Theorem setSheetControllerParam_open_failure (param : SheetControllerParam) (s : State) :
  ((setSheetControllerParam param s).1 = Throw ResourceOpenError <->
   exists id, bookId param = Some id /\ id <> EmptyString /\
              books (world s) !! id = None) /\
  ((setSheetControllerParam param s).1 = Throw ResourceOpenError ->
   (setSheetControllerParam param s).2 =
     mkState (add_log (EvOpenById (bookId param)) (world s)) (ctl s)).
Proof.
  rewrite setSheetControllerParam_after_book, update_book_result.
  pose proof (truthy_str_spec (bookId param)) as T.
  assert (Hno : forall b s1, (after_book param b s1).1 <> Throw ResourceOpenError)
    by (intros b s1; apply after_book_avoids).
  destruct (truthy_str (bookId param)).
  - destruct (proj1 T eq_refl) as (id & Eb & Hne). rewrite Eb.
    destruct (books (world s) !! id) as [bk|] eqn:El.
    + split; [split|]; try (intros H; exfalso; exact (Hno _ _ H)).
      intros (id' & [= <-] & _ & Hnone). congruence.
    + split; [split|]; try reflexivity.
      intros _. exists id. repeat split; assumption.
  - assert (Hf : ~ exists id, bookId param = Some id /\ id <> EmptyString /\
                              books (world s) !! id = None).
    { intros (id & Eb & Hne & _). assert (false = true); [|discriminate].
      apply T. eauto. }
    destruct (_book (ctl s)); (split; [split|]);
      try (intros H; exfalso; exact (Hno _ _ H)); intros H; exfalso; exact (Hf H).
Qed.

Lemma ctl_of_state (w : World) (c : Controller) : ctl (mkState w c) = c.
Proof. reflexivity. Qed.

Lemma setSheetControllerParam_open_failure_witness :
  (setSheetControllerParam lost_book_param demo_state).1 = Throw ResourceOpenError /\
  ctl (setSheetControllerParam lost_book_param demo_state).2 = ctl demo_state.
Proof.
  pose proof (setSheetControllerParam_open_failure lost_book_param demo_state)
    as [[_ Hback] Hstate].
  assert (Hex : exists id, bookId lost_book_param = Some id /\ id <> EmptyString /\
                           books (world demo_state) !! id = None).
  { exists "nowhere"%string. split; [reflexivity|]. split; [discriminate|].
    vm_compute. reflexivity. }
  pose proof (Hback Hex) as H.
  split; [exact H|].
  rewrite (Hstate H). exact (ctl_of_state _ _).
Defined.

(** ** The configuration of a constructed controller *)

Lemma truthy_num_spec (n : num) :
  truthy_num n = true <-> exists z, n = Some z /\ z <> 0.
Proof.
  destruct n as [z|]; simpl.
  - rewrite negb_true_iff, Z.eqb_neq. split; [eauto | intros (z' & [= <-] & H); exact H].
  - split; [discriminate | intros (z & [=] & _)].
Qed.

Lemma setSheetControllerParam_configured (param : SheetControllerParam) (s s' : State) :
  setSheetControllerParam param s = (Ok tt, s') ->
  ctl s = fresh \/ configured (ctl s) ->
  configured (ctl s').
Proof.
  intros H Hpre.
  pose proof (setSheetControllerParam_numbers _ _ _ H) as (HH & HD & HS & HK & _ & HBi).
  apply setSheetControllerParam_ok in H.
  destruct H as (fl & s1 & Hc & [[Hn ->]|[_ (s2 & H1 & H2)]]).
  - (* no flag: nothing but the key column can have changed *)
    pose proof (configure_ok _ _ _ _ Hc) as (HfB & HfS & HfH & HfC & _).
    unfold any_change in Hn. rewrite !orb_false_iff in Hn.
    destruct Hn as (((Hn1 & Hn2) & Hn3) & Hn4).
    rewrite Hn1 in HfB. rewrite Hn2, Hn1 in HfS. rewrite Hn3 in HfH. rewrite Hn4 in HfC.
    symmetry in HfB, HfS, HfH, HfC. rewrite orb_false_iff in HfB, HfS, HfH, HfC.
    destruct HfB as [Tb Mb]. destruct HfS as [Ts _].
    destruct HfH as [Th Thc]. destruct HfC as [Tc Tcc].
    destruct Hpre as [Hf|(h & col & k & ref & E1 & E2 & E3 & E4 & E5 & E6 & E7 & E8 & E9)].
    { rewrite Hf in Mb. discriminate. }
    rewrite negb_false_iff in Thc, Tcc.
    rewrite Th, Thc in HH. rewrite Th, Thc in HD. rewrite Tc, Tcc in HS.
    rewrite Tc, Tcc in HK. simpl in HD, HK.
    rewrite Ts, Tb, Mb in HBi. specialize (HBi eq_refl).
    unfold binding_of in HBi. injection HBi as B1 B2 B3.
    destruct (truthy_num (keyColumn param)) eqn:Tk.
    + apply truthy_num_spec in Tk. destruct Tk as (k' & Ek & Hk').
      exists h, col, k', ref. rewrite HH, HD, HS, HK, B1, B3, Ek.
      repeat split; assumption.
    + exists h, col, k, ref. rewrite HH, HD, HS, HK, B1, B3.
      repeat split; assumption.
  - (* a flag: both scans went through, so the numbers lie on the sheet *)
    pose proof (preserves_run _ _ _ _ _ reflashLastRow_frame H1) as F1.
    pose proof (preserves_run _ _ _ _ _ reflashLastColumn_frame H2) as F2.
    cbv beta in F1, F2.
    apply reflashLastRow_ok in H1.
    destruct H1 as (ref & sh & k & Hs1 & _ & Hk1 & Hb1 & _).
    apply reflashLastColumn_ok in H2.
    destruct H2 as (ref' & sh' & h & col & Hs2 & _ & Hh2 & Hc2 & Hb2 & _).
    apply in_bounds_spec in Hb1, Hb2.
    assert (N1 : numbers_of s' = numbers_of s1) by congruence.
    assert (N2 : numbers_of s2 = numbers_of s1) by congruence.
    assert (B1 : binding_of s' = binding_of s1) by congruence.
    unfold numbers_of in N1, N2. unfold binding_of in B1.
    injection N1 as N1a N1b N1c N1d. injection N2 as N2a N2b N2c N2d.
    injection B1 as B1a B1b B1c.
    pose proof (configure_ok _ _ _ _ Hc) as (_ & _ & HfH & _ & _ & HD1 & _ & _ & _ & _ & Hbk & _).
    assert (Eh : _headerRow (ctl s') = Some h) by congruence.
    assert (Ed : _dataStartRow (ctl s') = Some (h + 1)).
    { rewrite HD, Eh.
      destruct (truthy_num (headerRow param) || negb (truthy_num (_headerRow (ctl s))))
        eqn:Ech; [reflexivity|].
      rewrite orb_false_iff, negb_false_iff in Ech. destruct Ech as [Tp To].
      rewrite Tp, To in HH.
      destruct Hpre as [Hf|(h0 & col0 & k0 & ref0 & E1 & E2 & E3 & _)].
      - rewrite Hf in To. discriminate.
      - rewrite E3. f_equal. congruence. }
    exists h, col, k, ref. rewrite Eh, Ed, N1c, N1d, B1a, B1c.
    repeat split; try congruence; try lia.
Qed.

Lemma reachable_is_configured (s : State) : reachable s -> configured (ctl s).
Proof.
  induction 1 as [param w s' H | param s s' _ IH H | v s rg s' _ IH H
                 | rows s rg s' _ IH H | s w _ IH].
  - apply (setSheetControllerParam_configured param (mkState w fresh) s' H).
    left. reflexivity.
  - apply (setSheetControllerParam_configured param s s' H). right. exact IH.
  - pose proof (preserves_run _ _ _ _ _ (outputHeader_frame v) H) as F. cbv beta in F.
    unfold numbers_of, binding_of in F. injection F as F1 F2 F3 F4 F5 F6 F7 _ _.
    destruct IH as (h & col & k & ref & E). exists h, col, k, ref.
    rewrite F1, F2, F3, F4, F5, F7. exact E.
  - pose proof (preserves_run _ _ _ _ _ (outputDataArea_frame rows) H) as F.
    cbv beta in F.
    unfold numbers_of, binding_of in F. injection F as F1 F2 F3 F4 F5 F6 F7 _ _ _.
    destruct IH as (h & col & k & ref & E). exists h, col, k, ref.
    rewrite F1, F2, F3, F4, F5, F7. exact E.
  - exact IH.
Qed.

(** X2: in every state a controller reaches, the configuration is complete:
    header row and start column are at least 1, the first data row is the
    header row plus 1, a key column is set, and the object holds a book and
    a sheet. *)
Theorem reachable_configured (s : State) : reachable s -> configured (ctl s).
Proof. exact (reachable_is_configured s). Qed.

Lemma reachable_configured_witness :
  reachable demo_state /\ configured (ctl demo_state).
Proof.
  split; [exact demo_reachable|].
  exact (reachable_configured demo_state demo_reachable).
Defined.

(** ** Where the scans end *)

Lemma next_pop_first (pop : nat -> bool) (d fuel d0 : nat) :
  (d <= d0 <= d + fuel)%nat -> pop d0 = true ->
  (forall j, (d <= j < d0)%nat -> pop j = false) ->
  next_pop pop d fuel = d0.
Proof.
  revert d. induction fuel as [|f IH]; intros d Hd H1 H0; simpl; [lia|].
  destruct (Nat.eq_dec d d0) as [->|Hne]; [rewrite H1; reflexivity|].
  rewrite H0 by lia. apply IH; [lia | exact H1 | intros j Hj; apply H0; lia].
Qed.

Lemma next_pop_none (pop : nat -> bool) (d fuel : nat) :
  (forall j, (d <= j < d + fuel)%nat -> pop j = false) ->
  next_pop pop d fuel = (d + fuel)%nat.
Proof.
  revert d. induction fuel as [|f IH]; intros d H0; simpl; [lia|].
  rewrite H0 by lia. rewrite IH; [lia | intros j Hj; apply H0; lia].
Qed.

Lemma block_end_exact (pop : nat -> bool) (d n fuel : nat) :
  (forall k, (d < k <= d + n)%nat -> pop k = true) ->
  (n <= fuel)%nat -> (n = fuel \/ pop (S (d + n)) = false) ->
  block_end pop d fuel = (d + n)%nat.
Proof.
  revert d n. induction fuel as [|f IH]; intros d n H Hn Hend; simpl; [lia|].
  destruct n as [|n].
  - destruct Hend as [?|Hend]; [lia|]. rewrite Nat.add_0_r in Hend. rewrite Hend. lia.
  - rewrite H by lia. rewrite (IH (S d) n); [lia | | lia |].
    + intros k Hk. apply H. lia.
    + destruct Hend as [?|Hend]; [left; lia | right].
      replace (S (S d + n)) with (S (d + S n)) by lia. exact Hend.
Qed.

Lemma populated_blank : populated blank = false.
Proof. reflexivity. Qed.

Lemma truthy_blank : truthy blank = false.
Proof. reflexivity. Qed.

Lemma getLastRow_run (s : State) (ref : SheetRef) (sh : Sheet) (k : Z) :
  _sheet (ctl s) = Some ref -> find_sheet (world s) ref = Some sh ->
  _keyColumn (ctl s) = Some k -> in_bounds sh (maxRows sh) k 1 1 = true ->
  (getLastRow s).1 = Ok (Some (last_row_of sh k (_headerRow (ctl s)))).
Proof.
  intros Hs Hf Hk Hb.
  destruct (reflashLastRow_run s ref sh k Hs Hf Hk Hb) as [s' H].
  unfold reflashLastRow, bind at 1 in H.
  destruct (getLastRow s) as [[lr|e] s1] eqn:E; [|discriminate].
  apply getLastRow_ok in E.
  destruct E as (ref' & sh' & k' & Hs' & Hf' & Hk' & _ & -> & _).
  assert (ref' = ref) as -> by congruence.
  assert (sh' = sh) as -> by congruence.
  assert (k' = k) as -> by congruence.
  reflexivity.
Qed.

(** The upward scan from a blank bottom cell ends on the lowest populated
    cell of the column, and in row 1 when there is none. *)
Lemma last_row_of_blank_bottom (sh : Sheet) (k : Z) (h : num) (r0 : Z) :
  1 <= r0 < maxRows sh ->
  populated (cells sh r0 k) = true ->
  (forall i, r0 < i <= maxRows sh -> cells sh i k = blank) ->
  last_row_of sh k h = r0.
Proof.
  intros Hr Hp Hblank. unfold last_row_of. cbv zeta.
  rewrite (Hblank (maxRows sh)) by lia. rewrite truthy_blank. cbn [andb].
  cbn [nextDataCell fst].
  set (pop := fun n : nat => populated (cells sh (maxRows sh - Z.of_nat n) k)).
  destruct (Z.to_nat (maxRows sh - 1)) as [|D'] eqn:ED; [lia|]. cbn [jump].
  assert (P0 : pop 0%nat = false).
  { unfold pop. rewrite Hblank by lia. reflexivity. }
  rewrite P0. cbn [andb].
  rewrite (next_pop_first pop 1 D' (Z.to_nat (maxRows sh - r0))); [lia|lia| |].
  - unfold pop. replace (maxRows sh - Z.of_nat (Z.to_nat (maxRows sh - r0))) with r0 by lia.
    exact Hp.
  - intros j Hj. unfold pop. rewrite Hblank by lia. reflexivity.
Qed.

Lemma last_row_of_blank_column (sh : Sheet) (k : Z) (h : num) :
  1 <= maxRows sh ->
  (forall i, 1 <= i <= maxRows sh -> cells sh i k = blank) ->
  last_row_of sh k h = 1.
Proof.
  intros Hr Hblank. unfold last_row_of. cbv zeta.
  rewrite (Hblank (maxRows sh)) by lia. rewrite truthy_blank. cbn [andb].
  cbn [nextDataCell fst].
  set (pop := fun n : nat => populated (cells sh (maxRows sh - Z.of_nat n) k)).
  destruct (Z.to_nat (maxRows sh - 1)) as [|D'] eqn:ED; cbn [jump]; [lia|].
  assert (P0 : pop 0%nat = false).
  { unfold pop. rewrite Hblank by lia. reflexivity. }
  rewrite P0. cbn [andb].
  rewrite next_pop_none; [lia|].
  intros j Hj. unfold pop. rewrite Hblank by lia. reflexivity.
Qed.

(** X5: when the bottom cell of the key column is empty, [getLastRow]
    returns the row of the lowest populated cell of that column, whatever
    the header row is, and row 1 when the whole column is empty. *)
Theorem getLastRow_blank_bottom (s : State) (ref : SheetRef) (sh : Sheet) (k : Z) :
  _sheet (ctl s) = Some ref -> find_sheet (world s) ref = Some sh ->
  _keyColumn (ctl s) = Some k -> 1 <= k <= maxColumns sh ->
  (forall r0, 1 <= r0 < maxRows sh -> populated (cells sh r0 k) = true ->
              (forall i, r0 < i <= maxRows sh -> cells sh i k = blank) ->
              (getLastRow s).1 = Ok (Some r0)) /\
  (1 <= maxRows sh ->
   (forall i, 1 <= i <= maxRows sh -> cells sh i k = blank) ->
   (getLastRow s).1 = Ok (Some 1)).
Proof.
  intros Hs Hf Hk Hkb. split.
  - intros r0 Hr Hp Hblank.
    rewrite (getLastRow_run s ref sh k Hs Hf Hk) by (apply in_bounds_spec; lia).
    rewrite (last_row_of_blank_bottom sh k _ r0 Hr Hp Hblank). reflexivity.
  - intros Hr Hblank.
    rewrite (getLastRow_run s ref sh k Hs Hf Hk) by (apply in_bounds_spec; lia).
    rewrite (last_row_of_blank_column sh k _ Hr Hblank). reflexivity.
Qed.

(** X6: when the key column is populated from the header row down to the
    last row of the sheet and its bottom cell holds a truthy value,
    [getLastRow] returns the last row of the sheet. *)
Theorem getLastRow_full_column (s : State) (ref : SheetRef) (sh : Sheet) (k h : Z) :
  _sheet (ctl s) = Some ref -> find_sheet (world s) ref = Some sh ->
  _keyColumn (ctl s) = Some k -> 1 <= k <= maxColumns sh ->
  _headerRow (ctl s) = Some h -> 1 <= h <= maxRows sh ->
  (forall i, h <= i <= maxRows sh -> populated (cells sh i k) = true) ->
  truthy (cells sh (maxRows sh) k) = true ->
  (getLastRow s).1 = Ok (Some (maxRows sh)).
Proof.
  intros Hs Hf Hk Hkb Hh Hhb Hpop Ht.
  rewrite (getLastRow_run s ref sh k Hs Hf Hk) by (apply in_bounds_spec; lia).
  rewrite Hh, (last_row_of_full_column sh k h Hhb Hpop Ht). reflexivity.
Qed.

(** ** Writing the data area *)

Lemma shape_ok_spec (vals : list (list scalar)) (nr nc : Z) :
  shape_ok vals nr nc = true <->
  Z.of_nat (length vals) = nr /\ Forall (fun row => Z.of_nat (length row) = nc) vals.
Proof.
  unfold shape_ok. rewrite andb_true_iff, Z.eqb_eq, forallb_forall, Forall_forall.
  split; intros [H1 H2]; (split; [exact H1|]); intros row Hrow.
  - apply Z.eqb_eq. apply H2. apply list_elem_of_In. exact Hrow.
  - apply Z.eqb_eq. apply H2. apply list_elem_of_In. exact Hrow.
Qed.

Lemma write_block_inside (cs : Z -> Z -> scalar) (d c : Z) (rows : list (list scalar))
  (i j : nat) (row : list scalar) (v : scalar) :
  rows !! i = Some row -> row !! j = Some v ->
  write_block cs d c rows (d + Z.of_nat i) (c + Z.of_nat j) = v.
Proof.
  intros Hi Hj. unfold write_block.
  replace (d <=? d + Z.of_nat i) with true by (symmetry; apply Z.leb_le; lia).
  replace (c <=? c + Z.of_nat j) with true by (symmetry; apply Z.leb_le; lia).
  cbn [andb].
  replace (Z.to_nat (d + Z.of_nat i - d)) with i by lia.
  replace (Z.to_nat (c + Z.of_nat j - c)) with j by lia.
  rewrite Hi, Hj. reflexivity.
Qed.

Lemma write_block_outside (cs : Z -> Z -> scalar) (d c nc : Z) (rows : list (list scalar))
  (r j : Z) :
  Forall (fun row => Z.of_nat (length row) = nc) rows ->
  ~ (d <= r < d + Z.of_nat (length rows) /\ c <= j < c + nc) ->
  write_block cs d c rows r j = cs r j.
Proof.
  intros Hshape Hout. unfold write_block.
  destruct (d <=? r) eqn:E1; [|reflexivity].
  destruct (c <=? j) eqn:E2; [|reflexivity]. cbn [andb].
  apply Z.leb_le in E1, E2.
  destruct (rows !! Z.to_nat (r - d)) as [row|] eqn:Er; [|reflexivity].
  destruct (row !! Z.to_nat (j - c)) as [v|] eqn:Ej; [|reflexivity].
  exfalso. apply Hout.
  pose proof (lookup_lt_Some _ _ _ Er) as L1.
  pose proof (lookup_lt_Some _ _ _ Ej) as L2.
  rewrite Forall_forall in Hshape.
  assert (Hrow : Z.of_nat (length row) = nc).
  { apply Hshape. eapply list_elem_of_lookup_2. exact Er. }
  lia.
Qed.

(** What a call of [outputDataArea] that returns has done. *)
Lemma outputDataArea_inv (rows : list (list scalar)) (s s' : State) (rg : Range) :
  outputDataArea rows s = (Ok rg, s') ->
  exists ref sh d c k nc,
    _sheet (ctl s) = Some ref /\ find_sheet (world s) ref = Some sh /\
    _dataStartRow (ctl s) = Some d /\ _startColumn (ctl s) = Some c /\
    _keyColumn (ctl s) = Some k /\
    in_bounds sh d c (Z.of_nat (length rows)) nc = true /\
    Forall (fun row => Z.of_nat (length row) = nc) rows /\
    rg = mkRange ref d c (Z.of_nat (length rows)) nc /\
    find_sheet (world s') ref =
      Some (mkSheet (maxRows sh) (maxColumns sh) (write_block (cells sh) d c rows)) /\
    ctl s' =
      set_rowNum
        (num_add (num_sub
           (Some (last_row_of
                    (mkSheet (maxRows sh) (maxColumns sh) (write_block (cells sh) d c rows))
                    k (_headerRow (ctl s))))
           (Some d)) (Some 1))
        (set_lastRow
           (Some (last_row_of
                    (mkSheet (maxRows sh) (maxColumns sh) (write_block (cells sh) d c rows))
                    k (_headerRow (ctl s))))
           (ctl s)).
Proof.
  intros H. apply outputDataArea_ok in H.
  destruct H as (row0 & rest & s1 & s2 & -> & Hg & Hw & Hr).
  unfold getRange, bind, this in Hg. cbn [fst snd] in Hg.
  apply sheet_getRange_ok in Hg.
  destruct Hg as (ref & sh & d & c & nr & nc & Hs & Hf & Hd & Hc & Hnr & Hnc & Hb & -> & ->).
  apply range_setValues_ok in Hw. cbn [rg_sheet rg_row rg_column rg_rows rg_columns world ctl] in Hw.
  destruct Hw as (sh0 & Hf0 & Hshape & Hctl & Hf2).
  rewrite find_sheet_add_log, Hf in Hf0. injection Hf0 as <-.
  apply shape_ok_spec in Hshape. destruct Hshape as [Hlen Hall].
  apply reflashLastRow_ok in Hr.
  destruct Hr as (ref' & sh' & k & Hs' & Hf' & Hk & _ & Hc3 & Hb3 & _).
  rewrite Hctl in Hs', Hk, Hc3.
  assert (ref' = ref) as -> by congruence.
  rewrite Hf2 in Hf'. injection Hf' as <-.
  exists ref, sh, d, c, k, nc. rewrite <- Hlen in *.
  rewrite Hc3. cbn [RangeAddress.startRow] in Hd.
  split; [exact Hs|]. split; [exact Hf|]. split; [exact Hd|].
  split; [exact Hc|]. split; [exact Hk|]. split; [exact Hb|]. split; [exact Hall|].
  split; [reflexivity|].
  split; [rewrite <- Hf2; apply find_sheet_books; exact Hb3|].
  rewrite Hd. reflexivity.
Qed.

Lemma map_seq_eq {A : Type} (f : nat -> A) (l : list A) (start : nat) :
  (forall i x, l !! i = Some x -> f (start + i)%nat = x) ->
  map f (seq start (length l)) = l.
Proof.
  revert start. induction l as [|x l IH]; intros start H; [reflexivity|].
  simpl. f_equal.
  - rewrite <- (H O x eq_refl). f_equal. lia.
  - apply IH. intros i y Hi. rewrite <- (H (S i) y Hi). f_equal. lia.
Qed.

Lemma block_values_written (sh : Sheet) (d c nc : Z) (rows : list (list scalar)) :
  Forall (fun row => Z.of_nat (length row) = nc) rows ->
  (forall (i j : nat) row v, rows !! i = Some row -> row !! j = Some v ->
                             cells sh (d + Z.of_nat i) (c + Z.of_nat j) = v) ->
  block_values sh d c (length rows) (Z.to_nat nc) = rows.
Proof.
  intros Hshape Hcells. unfold block_values.
  apply map_seq_eq. intros i row Hi.
  rewrite Forall_forall in Hshape.
  assert (Hlen : Z.to_nat nc = length row).
  { rewrite <- (Hshape row); [lia | eapply list_elem_of_lookup_2; exact Hi]. }
  rewrite Hlen. apply map_seq_eq. intros j v Hj. simpl. eapply Hcells; eassumption.
Qed.

(** X7: [outputDataArea] leaves the last column, the column count, the
    header and the configuration as they were, whatever happens, and throws
    on an empty array before it has touched anything.  When it returns, the
    rows all have the same, non-zero length, they stand in the sheet from
    the first data row and the start column on, no other cell and not the
    size of the sheet has changed, reading the returned range gives the rows
    back, and last row and row count are the ones the upward scan of the key
    column finds in the sheet as written. *)
Theorem outputDataArea_writes (rows : list (list scalar)) (s : State) :
  pairB (outputDataArea rows s).2 = pairB s /\
  numbers_of (outputDataArea rows s).2 = numbers_of s /\
  binding_of (outputDataArea rows s).2 = binding_of s /\
  (rows = [] -> outputDataArea rows s = (Throw PlatformError, s)) /\
  (forall rg s', outputDataArea rows s = (Ok rg, s') ->
     exists ref sh sh' d c k nc,
       _sheet (ctl s) = Some ref /\ find_sheet (world s) ref = Some sh /\
       _dataStartRow (ctl s) = Some d /\ _startColumn (ctl s) = Some c /\
       _keyColumn (ctl s) = Some k /\
       1 <= nc /\ Forall (fun row => Z.of_nat (length row) = nc) rows /\
       rg = mkRange ref d c (Z.of_nat (length rows)) nc /\
       find_sheet (world s') ref = Some sh' /\
       maxRows sh' = maxRows sh /\ maxColumns sh' = maxColumns sh /\
       (forall (i j : nat) row v, rows !! i = Some row -> row !! j = Some v ->
                                  cells sh' (d + Z.of_nat i) (c + Z.of_nat j) = v) /\
       (forall r j, ~ (d <= r < d + Z.of_nat (length rows) /\ c <= j < c + nc) ->
                    cells sh' r j = cells sh r j) /\
       (range_getValues rg s').1 = Ok rows /\
       _lastRow (ctl s') = Some (last_row_of sh' k (_headerRow (ctl s))) /\
       _rowNum (ctl s') =
         num_add (num_sub (_lastRow (ctl s')) (_dataStartRow (ctl s'))) (Some 1)).
Proof.
  pose proof (outputDataArea_frame rows s) as F. cbv beta in F.
  split; [congruence|]. split; [congruence|]. split; [congruence|]. clear F.
  split; [intros ->; reflexivity|].
  intros rg s' H. apply outputDataArea_inv in H.
  destruct H as (ref & sh & d & c & k & nc & Hs & Hf & Hd & Hc & Hk & Hb & Hall & -> & Hf' & Hctl).
  set (sh' := mkSheet (maxRows sh) (maxColumns sh) (write_block (cells sh) d c rows)) in *.
  assert (Hin : forall (i j : nat) row v, rows !! i = Some row -> row !! j = Some v ->
                  cells sh' (d + Z.of_nat i) (c + Z.of_nat j) = v).
  { intros i j row v Hi Hj. apply (write_block_inside _ _ _ _ _ _ row); assumption. }
  exists ref, sh, sh', d, c, k, nc.
  apply in_bounds_spec in Hb.
  split; [exact Hs|]. split; [exact Hf|]. split; [exact Hd|]. split; [exact Hc|].
  split; [exact Hk|]. split; [lia|]. split; [exact Hall|]. split; [reflexivity|].
  split; [exact Hf'|]. split; [reflexivity|]. split; [reflexivity|].
  split; [exact Hin|].
  split; [intros r j Hout; apply (write_block_outside _ _ _ nc); assumption|].
  split.
  - unfold range_getValues, the_sheet, bind, get_world, emit, ret, throw.
    cbn [rg_sheet rg_row rg_column rg_rows rg_columns fst snd].
    rewrite Hf'. cbn [fst snd]. f_equal.
    rewrite Nat2Z.id. apply block_values_written; assumption.
  - rewrite Hctl. cbn [_lastRow _rowNum _dataStartRow set_rowNum set_lastRow].
    rewrite Hd. split; reflexivity.
Qed.

(** X8: when the rows written by [outputDataArea] cover the key column, the
    key cell of the last one is not empty, the block ends above the bottom
    of the sheet and the key column was empty from there down, the last row
    is the last row written and the row count is the number of rows. *)
Theorem outputDataArea_row_count (rows : list (list scalar)) (s s' : State) (rg : Range)
  (sh : Sheet) (ref : SheetRef) (d c k : Z) (row : list scalar) (v : scalar) :
  outputDataArea rows s = (Ok rg, s') ->
  _sheet (ctl s) = Some ref -> find_sheet (world s) ref = Some sh ->
  _dataStartRow (ctl s) = Some d -> _startColumn (ctl s) = Some c ->
  _keyColumn (ctl s) = Some k ->
  last rows = Some row -> c <= k -> row !! Z.to_nat (k - c) = Some v ->
  populated v = true ->
  d + Z.of_nat (length rows) - 1 < maxRows sh ->
  (forall i, d + Z.of_nat (length rows) <= i <= maxRows sh -> cells sh i k = blank) ->
  _lastRow (ctl s') = Some (d + Z.of_nat (length rows) - 1) /\
  _rowNum (ctl s') = Some (Z.of_nat (length rows)).
Proof.
  intros H Hs Hf Hd Hc Hk Hlast Hck Hv Hp Hroom Hblank.
  apply outputDataArea_inv in H.
  destruct H as (ref' & sh0 & d' & c' & k' & nc & Hs' & Hf' & Hd' & Hc' & Hk' & Hb & Hall & _ & _ & Hctl).
  assert (ref' = ref) as -> by congruence.
  assert (sh0 = sh) as -> by congruence.
  assert (d' = d) as -> by congruence.
  assert (c' = c) as -> by congruence.
  assert (k' = k) as -> by congruence.
  apply in_bounds_spec in Hb.
  assert (Hn : (0 < length rows)%nat) by (destruct rows; [discriminate | simpl; lia]).
  rewrite last_lookup in Hlast.
  set (sh' := mkSheet (maxRows sh) (maxColumns sh) (write_block (cells sh) d c rows)) in *.
  assert (Hrow : last_row_of sh' k (_headerRow (ctl s)) = d + Z.of_nat (length rows) - 1).
  { apply last_row_of_blank_bottom.
    - cbn [sh' maxRows]. lia.
    - cbn [sh' cells].
      replace (d + Z.of_nat (length rows) - 1) with (d + Z.of_nat (pred (length rows))) by lia.
      replace k with (c + Z.of_nat (Z.to_nat (k - c))) at 1 by lia.
      rewrite (write_block_inside _ _ _ _ _ _ row v Hlast Hv). exact Hp.
    - intros i Hi. cbn [sh' cells maxRows] in *.
      rewrite (write_block_outside _ _ _ nc) by (try exact Hall; lia).
      apply Hblank. lia. }
  rewrite Hctl. cbn [_lastRow _rowNum set_rowNum set_lastRow]. rewrite Hrow.
  split; [reflexivity|]. cbn [num_sub num_add]. f_equal. lia.
Qed.

(** ** Writing the header and finding the columns again *)

(** What a call of [outputHeader] that returns has done. *)
Lemma outputHeader_inv (headerArray : list scalar) (s s' : State) (rg : Range) :
  outputHeader headerArray s = (Ok rg, s') ->
  exists ref sh h c,
    _sheet (ctl s) = Some ref /\ find_sheet (world s) ref = Some sh /\
    _headerRow (ctl s) = Some h /\ _startColumn (ctl s) = Some c /\
    in_bounds sh h c 1 (Z.of_nat (length headerArray)) = true /\
    let sh' := mkSheet (maxRows sh) (maxColumns sh)
                 (write_block (cells sh) h c [headerArray]) in
    let lc := (nextDataCell sh' NEXT h c).2 in
    find_sheet (world s') ref = Some sh' /\
    ctl s' =
      set_header (Some (concat (block_values sh' h c 1 (Z.to_nat (lc - c + 1)))))
        (set_columnNum (Some (lc - c + 1)) (set_lastColumn (Some lc) (ctl s))).
Proof.
  intros H. apply outputHeader_ok in H.
  destruct H as (s1 & s2 & Hg & Hw & Hr).
  unfold getRange, bind, this in Hg. cbn [fst snd] in Hg.
  apply sheet_getRange_ok in Hg.
  destruct Hg as (ref & sh & h & c & nr & nc & Hs & Hf & Hh & Hc & Hnr & Hnc & Hb & -> & ->).
  apply range_setValues_ok in Hw.
  cbn [rg_sheet rg_row rg_column rg_rows rg_columns world ctl] in Hw.
  destruct Hw as (sh0 & Hf0 & Hshape & Hctl & Hf2).
  rewrite find_sheet_add_log, Hf in Hf0. injection Hf0 as <-.
  apply shape_ok_row in Hshape. destruct Hshape as [-> ->].
  apply reflashLastColumn_ok in Hr.
  destruct Hr as (ref' & sh' & h' & c' & Hs' & Hf' & Hh' & Hc' & _ & Hc3 & Hb3 & _).
  rewrite Hctl in Hs', Hh', Hc', Hc3.
  assert (ref' = ref) as -> by congruence.
  cbn [RangeAddress.startRow RangeAddress.startColumn] in Hh, Hc.
  assert (h' = h) as -> by congruence.
  assert (c' = c) as -> by congruence.
  rewrite Hf2 in Hf'. injection Hf' as <-.
  exists ref, sh, h, c. cbv zeta in *.
  split; [exact Hs|]. split; [exact Hf|]. split; [exact Hh|]. split; [exact Hc|].
  split; [exact Hb|].
  split; [rewrite <- Hf2; apply find_sheet_books; exact Hb3 | exact Hc3].
Qed.

Lemma jump_run (pop : nat -> bool) (n D : nat) :
  (1 <= n <= D)%nat -> pop 0%nat = true ->
  (forall k, (1 <= k <= n)%nat -> pop k = true) ->
  (n <= jump pop D)%nat.
Proof.
  intros Hn H0 Hrun. destruct D as [|D']; [lia|]. simpl.
  rewrite H0, (Hrun 1%nat) by lia. simpl.
  pose proof (block_end_ge pop 1 (n - 1) D') as B.
  assert ((1 + (n - 1) <= block_end pop 1 D')%nat); [|lia].
  apply B; [|lia]. intros k Hk. apply Hrun. lia.
Qed.

Lemma jump_run_exact (pop : nat -> bool) (n D : nat) :
  (1 <= n <= D)%nat -> pop 0%nat = true ->
  (forall k, (1 <= k <= n)%nat -> pop k = true) ->
  n = D \/ pop (S n) = false ->
  jump pop D = n.
Proof.
  intros Hn H0 Hrun Hend. destruct D as [|D']; [lia|]. simpl.
  rewrite H0, (Hrun 1%nat) by lia. simpl.
  rewrite (block_end_exact pop 1 (n - 1) D'); [lia | | lia |].
  - intros k Hk. apply Hrun. lia.
  - destruct Hend as [?|Hend]; [left; lia | right].
    replace (S (1 + (n - 1))) with (S n) by lia. exact Hend.
Qed.

Lemma header_row_read (sh : Sheet) (h c : Z) (values : list scalar) (m : nat) :
  (forall (i : nat) v, values !! i = Some v -> cells sh h (c + Z.of_nat i) = v) ->
  (length values <= m)%nat ->
  exists extra, concat (block_values sh h c 1 m) = values ++ extra.
Proof.
  intros Hcells Hm. unfold block_values. simpl. rewrite app_nil_r.
  replace m with (length values + (m - length values))%nat by lia.
  rewrite seq_app, map_app. eexists. f_equal.
  apply map_seq_eq. intros i v Hi. cbn [Nat.add].
  replace (h + Z.of_nat 0) with h by lia. apply Hcells. exact Hi.
Qed.

(** X9: a header of at least two names, none of them empty, written by
    [outputHeader] where the cell to the right of the last name is empty or
    beyond the sheet, is the cached header afterwards, name by name; the
    column count is the number of names and the last column is the column
    of the last name. *)
Theorem outputHeader_round_trip (headerArray : list scalar) (s s' : State) (rg : Range)
  (ref : SheetRef) (sh : Sheet) (h c : Z) :
  outputHeader headerArray s = (Ok rg, s') ->
  _sheet (ctl s) = Some ref -> find_sheet (world s) ref = Some sh ->
  _headerRow (ctl s) = Some h -> _startColumn (ctl s) = Some c ->
  (2 <= length headerArray)%nat ->
  Forall (fun v => populated v = true) headerArray ->
  c + Z.of_nat (length headerArray) - 1 = maxColumns sh \/
  cells sh h (c + Z.of_nat (length headerArray)) = blank ->
  _header (ctl s') = Some headerArray /\
  _columnNum (ctl s') = Some (Z.of_nat (length headerArray)) /\
  _lastColumn (ctl s') = Some (c + Z.of_nat (length headerArray) - 1).
Proof.
  intros H Hs Hf Hh Hc Hlen Hpop Hright.
  apply outputHeader_inv in H.
  destruct H as (ref' & sh0 & h' & c' & Hs' & Hf' & Hh' & Hc' & Hb & H).
  assert (ref' = ref) as -> by congruence.
  assert (sh0 = sh) as -> by congruence.
  assert (h' = h) as -> by congruence.
  assert (c' = c) as -> by congruence.
  cbv zeta in H. destruct H as [_ Hctl].
  apply in_bounds_spec in Hb.
  set (n := length headerArray) in *.
  set (sh' := mkSheet (maxRows sh) (maxColumns sh)
                (write_block (cells sh) h c [headerArray])) in *.
  assert (Hin : forall (i : nat) v, headerArray !! i = Some v ->
                                    cells sh' h (c + Z.of_nat i) = v).
  { intros i v Hi. apply write_row_inside. exact Hi. }
  assert (Hpopk : forall k, (k < n)%nat ->
                            populated (cells sh' h (c + Z.of_nat k)) = true).
  { intros k Hk. destruct (lookup_lt_is_Some_2 headerArray k Hk) as [v Hv].
    rewrite (Hin k v Hv). rewrite Forall_forall in Hpop. apply Hpop.
    eapply list_elem_of_lookup_2. exact Hv. }
  assert (Hlc : (nextDataCell sh' NEXT h c).2 = c + Z.of_nat n - 1).
  { cbn [nextDataCell snd].
    rewrite (jump_run_exact _ (n - 1)).
    - lia.
    - cbn [sh' maxColumns]. lia.
    - replace (c + Z.of_nat 0) with (c + Z.of_nat 0%nat) by reflexivity.
      apply Hpopk. lia.
    - intros k Hk. apply Hpopk. lia.
    - cbn [sh' maxColumns]. destruct Hright as [Hedge|Hblank]; [left; lia | right].
      cbn [sh' cells]. rewrite write_row_outside by (fold n; lia).
      replace (c + Z.of_nat (S (n - 1))) with (c + Z.of_nat n) by lia.
      rewrite Hblank. reflexivity. }
  rewrite Hctl, Hlc. cbn [_header _columnNum _lastColumn set_header set_columnNum set_lastColumn].
  replace (c + Z.of_nat n - 1 - c + 1) with (Z.of_nat n) by lia.
  split; [|split; reflexivity].
  f_equal. rewrite Nat2Z.id.
  change 1%nat with (length [headerArray]).
  replace n with (Z.to_nat (Z.of_nat n)) by lia.
  rewrite (block_values_written sh' h c (Z.of_nat n) [headerArray]).
  - simpl. apply app_nil_r.
  - constructor; [reflexivity | constructor].
  - intros i j row v Hi Hj. destruct i as [|i]; [|destruct i; discriminate].
    injection Hi as <-. replace (h + Z.of_nat 0) with h by lia. apply Hin. exact Hj.
Qed.

(** X10: after [outputHeader] has written names none of which is empty,
    looking a name up gives the place of its first occurrence among them:
    [getHeaderArrayIndexByColumnName] its position and
    [getHeaderColumnByColumnName] the start column plus that position, which
    is the column of the sheet where the name now stands. *)
Theorem outputHeader_then_lookup (headerArray : list scalar) (s s' : State) (rg : Range)
  (x : scalar) (i : nat) :
  outputHeader headerArray s = (Ok rg, s') ->
  Forall (fun v => populated v = true) headerArray ->
  headerArray !! i = Some x ->
  (forall j, (j < i)%nat -> headerArray !! j <> Some x) ->
  exists ref sh' h c,
    _sheet (ctl s') = Some ref /\ find_sheet (world s') ref = Some sh' /\
    _headerRow (ctl s') = Some h /\ _startColumn (ctl s') = Some c /\
    (getHeaderArrayIndexByColumnName x s').1 = Ok (Z.of_nat i) /\
    (getHeaderColumnByColumnName x s').1 = Ok (Some (Z.of_nat i + c)) /\
    cells sh' h (c + Z.of_nat i) = x.
Proof.
  intros H Hpop Hi Hfirst.
  apply outputHeader_inv in H.
  destruct H as (ref & sh & h & c & Hs & Hf & Hh & Hc & Hb & H).
  cbv zeta in H. destruct H as [Hf' Hctl].
  apply in_bounds_spec in Hb.
  set (n := length headerArray) in *.
  set (sh' := mkSheet (maxRows sh) (maxColumns sh)
                (write_block (cells sh) h c [headerArray])) in *.
  assert (Hin : forall (i : nat) v, headerArray !! i = Some v ->
                                    cells sh' h (c + Z.of_nat i) = v).
  { intros k v Hk. apply write_row_inside. exact Hk. }
  assert (Hpopk : forall k, (k < n)%nat ->
                            populated (cells sh' h (c + Z.of_nat k)) = true).
  { intros k Hk. destruct (lookup_lt_is_Some_2 headerArray k Hk) as [v Hv].
    rewrite (Hin k v Hv). rewrite Forall_forall in Hpop. apply Hpop.
    eapply list_elem_of_lookup_2. exact Hv. }
  assert (Hlc : c + Z.of_nat n - 1 <= (nextDataCell sh' NEXT h c).2).
  { destruct (Nat.eq_dec n 1%nat) as [E1|Hn1].
    - destruct (nextDataCell_next_bounds sh' h c); [cbn [sh' maxColumns]; lia | lia].
    - cbn [nextDataCell snd].
      pose proof (jump_run (fun k => populated (cells sh' h (c + Z.of_nat k))) (n - 1)
                    (Z.to_nat (maxColumns sh' - c))) as J.
      assert ((n - 1 <= jump (fun k => populated (cells sh' h (c + Z.of_nat k)))
                          (Z.to_nat (maxColumns sh' - c)))%nat); [|lia].
      apply J.
      + cbn [sh' maxColumns]. lia.
      + apply (Hpopk 0%nat). lia.
      + intros k Hk. apply Hpopk. lia. }
  destruct (header_row_read sh' h c headerArray
              (Z.to_nat ((nextDataCell sh' NEXT h c).2 - c + 1)) Hin) as [extra Hex];
    [fold n; lia|].
  assert (Hhdr : _header (ctl s') = Some (headerArray ++ extra)).
  { rewrite Hctl. cbn [_header set_header]. rewrite Hex. reflexivity. }
  assert (Hidx : indexOf (headerArray ++ extra) x = Z.of_nat i).
  { apply indexOf_first; [lia|]. rewrite Nat2Z.id. split.
    - rewrite lookup_app_l by (eapply lookup_lt_Some; exact Hi). exact Hi.
    - intros j Hj. rewrite lookup_app_l.
      + apply Hfirst. exact Hj.
      + apply lookup_lt_Some in Hi. lia. }
  assert (Hne : (Z.of_nat i =? -1) = false) by (apply Z.eqb_neq; lia).
  exists ref, sh', h, c.
  assert (Hs' : _sheet (ctl s') = Some ref) by (rewrite Hctl; exact Hs).
  assert (Hh' : _headerRow (ctl s') = Some h) by (rewrite Hctl; exact Hh).
  assert (Hc' : _startColumn (ctl s') = Some c) by (rewrite Hctl; exact Hc).
  split; [exact Hs'|]. split; [exact Hf'|]. split; [exact Hh'|]. split; [exact Hc'|].
  split; [|split].
  - rewrite (getHeaderArrayIndexByColumnName_eq s' _ x Hhdr), Hidx, Hne. reflexivity.
  - unfold getHeaderColumnByColumnName, bind.
    rewrite (getHeaderArrayIndexByColumnName_eq s' _ x Hhdr), Hidx, Hne.
    unfold this, ret. cbn [fst snd]. rewrite Hc'. reflexivity.
  - apply Hin. exact Hi.
Qed.

(** ** Sheets that a configuration leaves alone *)

Lemma sheets_kept_refl (w : World) : sheets_kept w w.
Proof. intros ref sh H. exact H. Qed.

Lemma sheets_kept_trans (w1 w2 w3 : World) :
  sheets_kept w1 w2 -> sheets_kept w2 w3 -> sheets_kept w1 w3.
Proof. intros H1 H2 ref sh H. apply H2, H1, H. Qed.

Lemma keeps_sheets_bind {A B} (m : M A) (k : A -> M B) :
  keeps_sheets m -> (forall a, keeps_sheets (k a)) -> keeps_sheets (bind m k).
Proof.
  intros Hm Hk s. unfold bind. specialize (Hm s).
  destruct (m s) as [[a|e] s1]; simpl in *; [|exact Hm].
  eapply sheets_kept_trans; [exact Hm | apply Hk].
Qed.

Lemma keeps_sheets_reads {A} (m : M A) : preserves sheets_of m -> keeps_sheets m.
Proof.
  intros H s ref sh Hf. rewrite <- Hf. apply find_sheet_books. apply (H s).
Qed.

(** A sheet is only inserted under a name that is free. *)
Lemma book_insertSheet_keeps (o name : option string) :
  keeps_sheets (book_insertSheet o name).
Proof.
  intros s ref sh Hf.
  unfold book_insertSheet, the_book, bind, get_world, set_world, emit, ret, throw.
  cbn [fst snd world].
  destruct o as [b|]; [|exact Hf].
  destruct (books (world s) !! b) as [sheets|] eqn:Eb; [|exact Hf].
  cbn [fst snd world]. destruct name as [n|]; [|exact Hf].
  cbn [fst snd]. destruct (bool_decide (is_Some (sheets !! n))) eqn:Ex; [exact Hf|].
  cbn [fst snd world ctl]. apply bool_decide_eq_false in Ex.
  unfold find_sheet in *. cbn [books add_log].
  destruct (decide (b = ref.1)) as [->|Hne].
  - rewrite lookup_insert_eq. rewrite Eb in Hf.
    destruct (decide (n = ref.2)) as [->|Hne2].
    + exfalso. apply Ex. eauto.
    + rewrite lookup_insert_ne by exact Hne2. exact Hf.
  - rewrite lookup_insert_ne by exact Hne. exact Hf.
Qed.

Lemma update_sheet_keeps param b : keeps_sheets (update_sheet param b).
Proof.
  unfold update_sheet.
  destruct (truthy_str (sheetName param) || b);
    [|apply keeps_sheets_reads; frame].
  apply keeps_sheets_bind; [apply keeps_sheets_reads; frame | intros c].
  apply keeps_sheets_bind; [apply keeps_sheets_reads; frame | intros _].
  apply keeps_sheets_bind; [apply keeps_sheets_reads; frame | intros c'].
  apply keeps_sheets_bind; [apply keeps_sheets_reads; frame | intros names].
  apply keeps_sheets_bind; [|intros _; apply keeps_sheets_reads; frame].
  destruct (includes names (_sheetName c')).
  - apply keeps_sheets_reads. frame.
  - apply keeps_sheets_bind; [apply book_insertSheet_keeps|].
    intros sh. apply keeps_sheets_reads. frame.
Qed.

Lemma after_book_keeps param b : keeps_sheets (after_book param b).
Proof.
  unfold after_book.
  apply keeps_sheets_bind; [apply update_sheet_keeps | intros b2].
  apply keeps_sheets_reads. frame.
Qed.

Lemma update_sheet_adds (param : SheetControllerParam) (b : bool) (s : State) :
  books (world (update_sheet param b s).2) = books (world s) \/
  exists bk n shs,
    or_str (sheetName param) (_sheetName (ctl s)) = Some n /\
    books (world s) !! bk = Some shs /\ shs !! n = None /\
    books (world (update_sheet param b s).2)
    = <[bk := <[n := blank_sheet (world s)]> shs]> (books (world s)).
Proof.
  unfold update_sheet.
  destruct (truthy_str (sheetName param) || b); [|left; reflexivity].
  unfold bind, this, assign, book_getSheetNames, book_getSheetByName, book_insertSheet,
    the_book, bind, get_world, set_world, emit, ret, throw.
  cbn [fst snd world ctl _book _sheetName set_sheetName].
  destruct (_book (ctl s)) as [bk|]; [|left; reflexivity].
  cbn [fst snd world ctl books add_log].
  destruct (books (world s) !! bk) as [shs|] eqn:Eb; [|left; reflexivity].
  cbn [fst snd world ctl books add_log].
  destruct (includes (map fst (map_to_list shs))
              (or_str (sheetName param) (_sheetName (ctl s)))).
  - cbn [fst snd world ctl books add_log]. rewrite ?Eb.
    cbn [fst snd world ctl books add_log].
    destruct (or_str (sheetName param) (_sheetName (ctl s))); left; reflexivity.
  - cbn [fst snd world ctl books add_log]. rewrite ?Eb.
    cbn [fst snd world ctl books add_log].
    destruct (or_str (sheetName param) (_sheetName (ctl s))) as [n|]; [|left; reflexivity].
    destruct (bool_decide (is_Some (shs !! n))) eqn:Ex; [left; reflexivity|].
    apply bool_decide_eq_false in Ex.
    right. exists bk, n, shs. split; [reflexivity|]. split; [exact Eb|].
    split; [|reflexivity].
    destruct (shs !! n) eqn:En; [exfalso; apply Ex; eauto | reflexivity].
Qed.

Lemma after_book_books (param : SheetControllerParam) (b : bool) (s : State) :
  books (world (after_book param b s).2) = books (world (update_sheet param b s).2).
Proof.
  unfold after_book. unfold bind at 1.
  destruct (update_sheet param b s) as [[x|e] s1]; cbn [snd]; [|reflexivity].
  match goal with
  | |- context [world (?m s1).2] =>
      assert (P : preserves sheets_of m) by frame;
      specialize (P s1); unfold sheets_of in P; exact P
  end.
Qed.

Lemma after_book_adds (param : SheetControllerParam) (b : bool) (s : State) :
  books (world (after_book param b s).2) = books (world s) \/
  exists bk n shs,
    or_str (sheetName param) (_sheetName (ctl s)) = Some n /\
    books (world s) !! bk = Some shs /\ shs !! n = None /\
    books (world (after_book param b s).2)
    = <[bk := <[n := blank_sheet (world s)]> shs]> (books (world s)).
Proof. rewrite after_book_books. apply update_sheet_adds. Qed.

(** X3: [setSheetControllerParam] never changes a sheet that exists: each
    one is there afterwards with the size and the cells it had, whether the
    call returns or throws.  All it may add is one sheet, empty and of the
    size of a new sheet, under a name that was free in its book: the sheet
    name asked for, or the current one when none is given. *)
Theorem setSheetControllerParam_keeps_sheets (param : SheetControllerParam) (s : State) :
  (forall ref sh, find_sheet (world s) ref = Some sh ->
     find_sheet (world (setSheetControllerParam param s).2) ref = Some sh) /\
  (books (world (setSheetControllerParam param s).2) = books (world s) \/
   exists bk n shs,
     or_str (sheetName param) (_sheetName (ctl s)) = Some n /\
     books (world s) !! bk = Some shs /\ shs !! n = None /\
     books (world (setSheetControllerParam param s).2)
     = <[bk := <[n := blank_sheet (world s)]> shs]> (books (world s))).
Proof.
  split.
  - intros ref sh Hf. rewrite setSheetControllerParam_after_book.
    pose proof (preserves_run sheets_of (update_book param) s) as Hb.
    destruct (update_book param s) as [[b|e] s1] eqn:E.
    + apply (after_book_keeps param b s1).
      rewrite <- Hf. apply find_sheet_books.
      apply (Hb s1 (Ok b)); [frame | reflexivity].
    + cbn [snd]. rewrite <- Hf. apply find_sheet_books.
      apply (Hb s1 (Throw e)); [frame | reflexivity].
  - rewrite setSheetControllerParam_after_book.
    assert (P : preserves (fun s => (sheets_of s, _sheetName (ctl s),
                                     newRows (world s), newColumns (world s)))
                  (update_book param)) by frame.
    specialize (P s). cbv beta in P.
    destruct (update_book param s) as [[b|e] s1]; cbn [snd] in P.
    + assert (Eb : books (world s1) = books (world s)) by (unfold sheets_of in P; congruence).
      assert (En : _sheetName (ctl s1) = _sheetName (ctl s)) by congruence.
      assert (Ew : blank_sheet (world s1) = blank_sheet (world s)).
      { unfold blank_sheet.
        assert (newRows (world s1) = newRows (world s)) as -> by congruence.
        assert (newColumns (world s1) = newColumns (world s)) as -> by congruence.
        reflexivity. }
      pose proof (after_book_adds param b s1) as H.
      rewrite Eb, En, Ew in H. exact H.
    + left. cbn [snd]. unfold sheets_of in P. congruence.
Qed.

(** ** The data area *)

Lemma reachable_bounds (s : State) :
  reachable s ->
  (exists lr, _lastRow (ctl s) = Some lr) /\ (exists lc, _lastColumn (ctl s) = Some lc).
Proof.
  assert (Hupd : forall param s s',
             setSheetControllerParam param s = (Ok tt, s') ->
             ctl s = fresh \/
             ((exists lr, _lastRow (ctl s) = Some lr) /\
              (exists lc, _lastColumn (ctl s) = Some lc)) ->
             (exists lr, _lastRow (ctl s') = Some lr) /\
             (exists lc, _lastColumn (ctl s') = Some lc)).
  { intros param s0 s' H Hpre. apply setSheetControllerParam_ok in H.
    destruct H as (fl & s1 & Hc & [[Hn ->]|[_ (s2 & H1 & H2)]]).
    - pose proof (configure_ok _ _ _ _ Hc) as (HfB & _ & _ & _ & _ & _ & _ & _ & HA & HB & _).
      destruct Hpre as [Hf|Hpre].
      + exfalso. rewrite Hf in HfB. cbn in HfB. rewrite orb_true_r in HfB.
        unfold any_change in Hn. rewrite HfB in Hn. discriminate.
      + unfold pairA in HA. unfold pairB in HB. injection HA as HA1 _.
        injection HB as HB1 _ _. rewrite HA1, HB1. exact Hpre.
    - destruct (refresh_both _ _ _ H1 H2) as (ref & sh & k & h & c & _ & _ & _ & _ & _ & HL & _ & HC).
      cbv zeta in HC. destruct HC as (HC & _). split; eauto. }
  induction 1 as [param w s' H | param s s' _ IH H | v s rg s' _ IH H
                 | rows s rg s' _ IH H | s w _ IH].
  - apply (Hupd _ _ _ H). left. reflexivity.
  - apply (Hupd _ _ _ H). right. exact IH.
  - pose proof (preserves_run _ _ _ _ _ (outputHeader_frame v) H) as F. cbv beta in F.
    assert (F1 : _lastRow (ctl s') = _lastRow (ctl s)) by (unfold pairA in F; congruence).
    apply outputHeader_inv in H. destruct H as (ref & sh & h & c & _ & _ & _ & _ & _ & H).
    cbv zeta in H. destruct H as [_ Hctl].
    split; [rewrite F1; exact (proj1 IH) | rewrite Hctl; eauto].
  - pose proof (preserves_run _ _ _ _ _ (outputDataArea_frame rows) H) as F.
    cbv beta in F.
    assert (F1 : _lastColumn (ctl s') = _lastColumn (ctl s))
      by (unfold pairB in F; congruence).
    apply outputDataArea_inv in H.
    destruct H as (ref & sh & d & c & k & nc & _ & _ & _ & _ & _ & _ & _ & _ & _ & Hctl).
    split; [rewrite Hctl; eauto | rewrite F1; exact (proj2 IH)].
  - exact IH.
Qed.

Lemma getDataAreaRange_inv (s s' : State) (rg : Range) :
  getDataAreaRange s = (Ok rg, s') ->
  exists d c,
    _dataStartRow (ctl s) = Some d /\ _startColumn (ctl s) = Some c /\
    rg_row rg = d /\ rg_column rg = c /\
    Some (rg_rows rg) = or_num (_rowNum (ctl s)) (Some 1) /\
    Some (rg_columns rg) = or_num (_columnNum (ctl s)) (Some 1) /\
    1 <= rg_rows rg /\ 1 <= rg_columns rg.
Proof.
  intros H.
  unfold getDataAreaRange, getRange, bind, this in H. cbn [fst snd] in H.
  apply sheet_getRange_ok in H.
  destruct H as (ref' & sh & d & c & nr & nc & _ & _ & Hd & Hc & Hnr & Hnc & Hb & -> & _).
  cbn [RangeAddress.startRow RangeAddress.startColumn RangeAddress.rowNum
       RangeAddress.columnNum] in *.
  apply in_bounds_spec in Hb.
  exists d, c. cbn [rg_row rg_column rg_rows rg_columns].
  split; [exact Hd|]. split; [exact Hc|]. split; [reflexivity|]. split; [reflexivity|].
  split; [symmetry; exact Hnr|]. split; [symmetry; exact Hnc|]. lia.
Qed.

(** X11: the range that [getDataAreaRange] returns starts at the first data
    row and the start column and has the cached row count and column count
    as its size, each replaced by 1 when it is 0; this holds in every state,
    also after a call that threw.  In the states reached through the
    constructor and returning calls of [setSheetControllerParam],
    [outputHeader] and [outputDataArea] only, the range moreover ends at the
    last column; with at least one data row it ends at the last row, and
    with none (row count 0) it is still one row high, the row under the
    header; and it is returned only for a row count that is not negative.
    (After an update that threw, the cached counts can be out of step with
    the start column, and the range need not end at the last column.) *)
Theorem getDataAreaRange_geometry (s s' : State) (rg : Range) :
  getDataAreaRange s = (Ok rg, s') ->
  (exists d c,
     _dataStartRow (ctl s) = Some d /\ _startColumn (ctl s) = Some c /\
     rg_row rg = d /\ rg_column rg = c /\
     Some (rg_rows rg) = or_num (_rowNum (ctl s)) (Some 1) /\
     Some (rg_columns rg) = or_num (_columnNum (ctl s)) (Some 1) /\
     1 <= rg_rows rg /\ 1 <= rg_columns rg) /\
  (reachable s ->
   exists h c lr lc rn,
     _headerRow (ctl s) = Some h /\ _startColumn (ctl s) = Some c /\
     _lastRow (ctl s) = Some lr /\ _lastColumn (ctl s) = Some lc /\
     _rowNum (ctl s) = Some rn /\ 0 <= rn /\
     rg_row rg = h + 1 /\ rg_column rg = c /\
     rg_column rg + rg_columns rg - 1 = lc /\
     (1 <= rn -> rg_row rg + rg_rows rg - 1 = lr) /\
     (rn = 0 -> rg_rows rg = 1 /\ lr = h)).
Proof.
  intros H. pose proof (getDataAreaRange_inv s s' rg H) as Hinv.
  split; [exact Hinv|]. intros Hr.
  destruct Hinv as (d & c0 & Hd & Hc0 & Erow & Ecol & Erows & Ecols & Brows & Bcols).
  destruct (reachable_is_configured s Hr)
    as (h & c & k & ref & Eh & Hh & Ed & Ec & Hc & _).
  destruct (reachable_cache s Hr) as (Hrows & Hcols & (hdr & n & _ & En & _ & Hn)).
  destruct (reachable_bounds s Hr) as [[lr El] [lc Elc]].
  unfold rows_ok in Hrows. unfold columns_ok in Hcols.
  rewrite El, Ed in Hrows. rewrite Elc, Ec, En in Hcols.
  cbn [num_sub num_add] in Hrows, Hcols. injection Hcols as Hcols.
  rewrite Ed in Hd. injection Hd as <-. rewrite Ec in Hc0. injection Hc0 as <-.
  rewrite En in Ecols. unfold or_num in Ecols. rewrite truthy_num_pos in Ecols by exact Hn.
  injection Ecols as Ecols.
  rewrite Hrows in Erows. unfold or_num in Erows. cbn [truthy_num] in Erows.
  exists h, c, lr, lc, (lr - (h + 1) + 1).
  split; [exact Eh|]. split; [exact Ec|]. split; [exact El|]. split; [exact Elc|].
  split; [exact Hrows|].
  destruct (lr - (h + 1) + 1 =? 0) eqn:E0; cbn [negb] in Erows; injection Erows as Erows.
  - apply Z.eqb_eq in E0. repeat split; lia.
  - apply Z.eqb_neq in E0. repeat split; lia.
Qed.

(** ** Checked rows *)

(** X12: [getCheckedDataAreaRowArray] never returns.  It asks the sheet
    controller for [getSheetControllerParam], which the class
    [SheetController] does not define: once the check-box column has been
    obtained, the call ends in that error of the platform, before any row is
    collected; when the column range itself is refused, that earlier error is
    the one thrown.  Nothing is changed in the object nor in the sheets. *)
Theorem getCheckedDataAreaRowArray_never_returns (s : State) :
  (forall rows s', getCheckedDataAreaRowArray s <> (Ok rows, s')) /\
  (forall rg s1, getColumnRange CHECKBOX_COLUMN (Some 1) false s = (Ok rg, s1) ->
     (getCheckedDataAreaRowArray s).1 = Throw PlatformError) /\
  ctl (getCheckedDataAreaRowArray s).2 = ctl s /\
  books (world (getCheckedDataAreaRowArray s).2) = books (world s).
Proof.
  assert (F : preserves (fun s => (ctl s, sheets_of s)) getCheckedDataAreaRowArray).
  { unfold getCheckedDataAreaRowArray, getSheetControllerParam. frame. }
  specialize (F s). cbv beta in F. unfold sheets_of in F.
  split; [|split; [|split; congruence]].
  - intros rows s' H.
    unfold getCheckedDataAreaRowArray, getSheetControllerParam in H.
    unfold bind at 1 in H.
    destruct (getColumnRange CHECKBOX_COLUMN (Some 1) false s) as [[rg|e] s1];
      [|discriminate].
    unfold bind at 1 in H.
    destruct (range_getValues rg s1) as [[values|e] s2]; [|discriminate].
    unfold bind, throw in H. discriminate.
  - intros rg s1 H.
    unfold getCheckedDataAreaRowArray, getSheetControllerParam.
    unfold bind at 1. rewrite H.
    unfold bind at 1. unfold range_getValues, the_sheet, bind, get_world, emit, ret, throw.
    cbn [fst snd].
    destruct (find_sheet (world s1) (rg_sheet rg)); reflexivity.
Qed.

(** ** A controller on a sheet that did not exist *)

Lemma includes_In (l : list string) (n : string) :
  includes l (Some n) = true <-> In n l.
Proof.
  induction l as [|y l IH]; simpl; [split; [discriminate | tauto]|].
  rewrite orb_true_iff, String.eqb_eq, IH. tauto.
Qed.

Lemma includes_lookup (m : gmap string Sheet) (n : string) :
  includes (map fst (map_to_list m)) (Some n) = true <-> is_Some (m !! n).
Proof.
  rewrite includes_In, in_map_iff. split.
  - intros ([n' sh] & Hn & Hin). simpl in Hn. subst n'.
    apply list_elem_of_In, elem_of_map_to_list in Hin. eauto.
  - intros [sh Hsh]. exists (n, sh). split; [reflexivity|].
    apply list_elem_of_In, elem_of_map_to_list. exact Hsh.
Qed.

Lemma update_sheet_creates (param : SheetControllerParam) (changed : bool) (s : State)
  (bk n : string) (b : gmap string Sheet) :
  sheetName param = Some n -> n <> EmptyString ->
  _book (ctl s) = Some bk -> books (world s) !! bk = Some b -> b !! n = None ->
  exists s',
    update_sheet param changed s = (Ok true, s') /\
    ctl s' = set_sheet (Some (bk, n)) (set_sheetName (Some n) (ctl s)) /\
    find_sheet (world s') (bk, n) = Some (blank_sheet (world s)) /\
    newColumns (world s') = newColumns (world s) /\
    newRows (world s') = newRows (world s).
Proof.
  intros Hn Hne Hbk Hb Hfree.
  assert (Ht : truthy_str (Some n) = true).
  { apply truthy_str_spec. eauto. }
  assert (Hinc : includes (map fst (map_to_list b)) (Some n) = false).
  { destruct (includes (map fst (map_to_list b)) (Some n)) eqn:E; [|reflexivity].
    apply includes_lookup in E. destruct E as [x Hx]. congruence. }
  unfold update_sheet. rewrite Hn, Ht. cbn [orb].
  unfold bind, this, assign, book_getSheetNames, book_insertSheet, the_book, bind,
    get_world, set_world, emit, ret, throw, or_str.
  cbn [fst snd world ctl]. rewrite Ht.
  cbn [_book _sheetName set_sheetName]. rewrite Hbk.
  cbn [books add_log]. rewrite Hb. cbn [fst snd world ctl books add_log].
  cbn [_book _sheetName set_sheetName]. rewrite Hinc, ?Hbk.
  cbn [fst snd world ctl books add_log]. rewrite ?Hb.
  cbn [fst snd world ctl books add_log].
  rewrite bool_decide_false by (rewrite Hfree; intros [x Hx]; discriminate).
  cbn [fst snd world ctl books add_log].
  eexists. split; [reflexivity|]. cbn [ctl world].
  split; [reflexivity|]. split; [|split; reflexivity].
  unfold find_sheet. cbn [books fst snd]. rewrite lookup_insert_eq, lookup_insert_eq.
  reflexivity.
Qed.

Lemma jump_blank (pop : nat -> bool) (D : nat) :
  (forall k, pop k = false) -> jump pop D = D.
Proof.
  intros H. destruct D as [|D']; [reflexivity|]. simpl. rewrite H. simpl.
  rewrite next_pop_none; [lia | intros; apply H].
Qed.

Lemma blank_row_read (w : World) (h c : Z) (m : nat) :
  concat (block_values (blank_sheet w) h c 1 m) = repeat blank m.
Proof.
  unfold block_values. simpl. rewrite app_nil_r.
  generalize 0%nat. induction m as [|m IH]; intros start; [reflexivity|].
  simpl. f_equal. apply IH.
Qed.

Lemma constructor_creates_sheet (param : SheetControllerParam) (w : World)
  (n : string) (b : gmap string Sheet) (h c k : Z) :
  truthy_str (bookId param) = false ->
  sheetName param = Some n -> n <> EmptyString ->
  books w !! active w = Some b -> b !! n = None ->
  (if truthy_num (headerRow param) then headerRow param else Some 1) = Some h ->
  (if truthy_num (startColumn param) then startColumn param else Some 1) = Some c ->
  (if truthy_num (keyColumn param) then keyColumn param else Some c) = Some k ->
  1 <= h <= newRows w -> 1 <= c <= newColumns w -> 1 <= k <= newColumns w ->
  exists s',
    constructor param w = (Ok tt, s') /\
    find_sheet (world s') (active w, n) = Some (blank_sheet w) /\
    _sheet (ctl s') = Some (active w, n) /\
    _headerRow (ctl s') = Some h /\ _dataStartRow (ctl s') = Some (h + 1) /\
    _startColumn (ctl s') = Some c /\ _keyColumn (ctl s') = Some k /\
    _lastRow (ctl s') = Some 1 /\ _rowNum (ctl s') = Some (1 - h) /\
    _lastColumn (ctl s') = Some (newColumns w) /\
    _columnNum (ctl s') = Some (newColumns w - c + 1) /\
    _header (ctl s') = Some (repeat blank (Z.to_nat (newColumns w - c + 1))).
Proof.
  intros Hbid Hn Hne Hb Hfree Hh Hc Hk Bh Bc Bk.
  unfold constructor. rewrite setSheetControllerParam_after_book, update_book_result.
  rewrite Hbid. cbn [ctl fresh _book world].
  set (s1 := mkState (add_log EvGetActive w) (set_book (Some (active w)) fresh)).
  destruct (update_sheet_creates param true s1 (active w) n b Hn Hne eq_refl Hb Hfree)
    as (s2 & E2 & C2 & F2 & NC2 & NR2).
  unfold after_book. unfold bind at 1. rewrite E2.
  unfold bind at 1. rewrite update_headerRow_eq.
  unfold bind at 1. rewrite update_startColumn_eq.
  unfold bind at 1. rewrite update_keyColumn_eq.
  cbn [orb].
  assert (Th : truthy_num (_headerRow (ctl s2)) = false) by (rewrite C2; reflexivity).
  rewrite Th, orb_true_r. cbv zeta.
  set (s3 := mkState (world s2) _).
  assert (Tc : truthy_num (_startColumn (ctl s3)) = false)
    by (unfold s3; cbn [ctl]; rewrite C2; reflexivity).
  rewrite Tc, orb_true_r.
  set (s4 := mkState (world s3) _).
  set (s5 := if truthy_num (keyColumn param) then _ else _).
  assert (W5 : world s5 = world s2) by (unfold s5; destruct (truthy_num (keyColumn param)); reflexivity).
  assert (C5 : ctl s5 =
               set_keyColumn (Some k)
                 (set_startColumn (Some c)
                    (set_dataStartRow (Some (h + 1)) (set_headerRow (Some h) (ctl s2))))).
  { unfold s5, s4, s3. cbn [ctl world _startColumn set_startColumn].
    destruct (truthy_num (keyColumn param)); cbn [ctl];
      destruct (truthy_num (headerRow param)); destruct (truthy_num (startColumn param));
      simplify_eq; rewrite ?Hh, ?Hc, ?Hk; reflexivity. }
  clearbody s5. clear s4 s3 Tc Th.
  assert (F5 : find_sheet (world s5) (active w, n) = Some (blank_sheet w))
    by (rewrite W5; exact F2).
  assert (S5 : _sheet (ctl s5) = Some (active w, n)) by (rewrite C5, C2; reflexivity).
  assert (K5 : _keyColumn (ctl s5) = Some k) by (rewrite C5; reflexivity).
  assert (H5 : _headerRow (ctl s5) = Some h) by (rewrite C5; reflexivity).
  assert (D5 : _dataStartRow (ctl s5) = Some (h + 1)) by (rewrite C5; reflexivity).
  assert (St5 : _startColumn (ctl s5) = Some c) by (rewrite C5; reflexivity).
  assert (Bk5 : in_bounds (blank_sheet w) (maxRows (blank_sheet w)) k 1 1 = true)
    by (apply in_bounds_spec; cbn [blank_sheet maxRows maxColumns]; lia).
  destruct (reflashLastRow_run s5 _ _ k S5 F5 K5 Bk5) as [s6 E6].
  pose proof (reflashLastRow_ok _ _ E6)
    as (ref6 & sh6 & k6 & S6 & F6 & K6 & _ & C6 & B6 & _).
  assert (ref6 = (active w, n)) as -> by congruence.
  assert (sh6 = blank_sheet w) as -> by congruence.
  assert (k6 = k) as -> by congruence.
  assert (F6' : find_sheet (world s6) (active w, n) = Some (blank_sheet w))
    by (rewrite <- F5; apply find_sheet_books; exact B6).
  assert (Bh6 : in_bounds (blank_sheet w) h c 1 1 = true)
    by (apply in_bounds_spec; cbn [blank_sheet maxRows maxColumns]; lia).
  destruct (reflashLastColumn_run s6 (active w, n) (blank_sheet w) h c) as [s7 E7];
    try (rewrite C6; assumption); try assumption.
  pose proof (reflashLastColumn_ok _ _ E7)
    as (ref7 & sh7 & h7 & c7 & S7 & F7 & H7 & St7 & _ & C7 & B7 & _).
  rewrite C6 in S7, H7, St7. cbn [_sheet _headerRow _startColumn set_rowNum set_lastRow] in S7, H7, St7.
  assert (ref7 = (active w, n)) as -> by congruence.
  assert (sh7 = blank_sheet w) as -> by congruence.
  assert (h7 = h) as -> by congruence.
  assert (c7 = c) as -> by congruence.
  cbv zeta in C7.
  assert (Lr : last_row_of (blank_sheet w) k (_headerRow (ctl s5)) = 1).
  { apply last_row_of_blank_column; [cbn [blank_sheet maxRows]; lia | reflexivity]. }
  assert (Lc : (nextDataCell (blank_sheet w) NEXT h c).2 = newColumns w).
  { cbn [nextDataCell snd]. rewrite jump_blank by reflexivity.
    cbn [blank_sheet maxColumns]. lia. }
  rewrite Lr in C6. rewrite Lc in C7.
  exists s7. split.
  - unfold bind. rewrite E6, E7. reflexivity.
  - split; [rewrite <- F6'; apply find_sheet_books; exact B7|].
    rewrite C7, C6. cbn [_sheet _headerRow _dataStartRow _startColumn _keyColumn _lastRow
                         _rowNum _lastColumn _columnNum _header set_header set_columnNum
                         set_lastColumn set_rowNum set_lastRow].
    rewrite S5, H5, D5, St5, K5, blank_row_read. cbn [num_sub num_add].
    repeat split; f_equal; lia.
Qed.

(** X4: constructing a controller on a sheet name that the active book does
    not have creates that sheet, empty and of the size of a new sheet, when
    header row, start column and key column (each the given value, else 1,
    the key column else the start column) lie on it.  The controller then
    has last row 1 and row count 1 minus the header row, so no data row; its
    last column is the last column of the sheet and its header one empty
    value for every column from the start column on. *)
Theorem constructor_on_new_sheet (param : SheetControllerParam) (w : World)
  (n : string) (b : gmap string Sheet) (h c k : Z) :
  truthy_str (bookId param) = false ->
  sheetName param = Some n -> n <> EmptyString ->
  books w !! active w = Some b -> b !! n = None ->
  (if truthy_num (headerRow param) then headerRow param else Some 1) = Some h ->
  (if truthy_num (startColumn param) then startColumn param else Some 1) = Some c ->
  (if truthy_num (keyColumn param) then keyColumn param else Some c) = Some k ->
  1 <= h <= newRows w -> 1 <= c <= newColumns w -> 1 <= k <= newColumns w ->
  exists s',
    constructor param w = (Ok tt, s') /\
    find_sheet (world s') (active w, n) = Some (blank_sheet w) /\
    _sheet (ctl s') = Some (active w, n) /\
    _headerRow (ctl s') = Some h /\ _dataStartRow (ctl s') = Some (h + 1) /\
    _startColumn (ctl s') = Some c /\ _keyColumn (ctl s') = Some k /\
    _lastRow (ctl s') = Some 1 /\ _rowNum (ctl s') = Some (1 - h) /\
    _lastColumn (ctl s') = Some (newColumns w) /\
    _columnNum (ctl s') = Some (newColumns w - c + 1) /\
    _header (ctl s') = Some (repeat blank (Z.to_nat (newColumns w - c + 1))).
Proof. exact (constructor_creates_sheet param w n b h c k). Qed.

(** ** Rows and columns as ranges *)

Lemma getRowRange_inv (s s' : State) (rg : Range) (startRow rowNum : num)
  (allColumn : bool) :
  getRowRange startRow rowNum allColumn s = (Ok rg, s') ->
  exists ref sh r,
    _sheet (ctl s) = Some ref /\ find_sheet (world s) ref = Some sh /\
    startRow = Some r /\ rg_sheet rg = ref /\ rg_row rg = r /\
    Some (rg_rows rg) = or_num rowNum (Some 1) /\
    1 <= rg_rows rg /\ 1 <= rg_columns rg /\
    (allColumn = false ->
     Some (rg_column rg) = _startColumn (ctl s) /\
     Some (rg_columns rg) = or_num (_columnNum (ctl s)) (Some 1)) /\
    (allColumn = true -> rg_column rg = 1 /\ rg_columns rg = maxColumns sh).
Proof.
  intros H.
  unfold getRowRange, bind at 1, this at 1 in H. cbn [fst snd] in H.
  destruct allColumn.
  - unfold sheet_getMaxColumns, the_sheet, bind, get_world, emit, ret, throw in H.
    cbn [fst snd world ctl] in H.
    destruct (_sheet (ctl s)) as [ref|] eqn:Es; [|discriminate].
    destruct (find_sheet (world s) ref) as [sh|] eqn:Ef; [|discriminate].
    cbn [fst snd world ctl] in H.
    unfold getRange, this in H. cbn [fst snd world ctl] in H.
    apply sheet_getRange_ok in H.
    destruct H as (ref' & sh' & r' & c' & nr & nc & Hs' & Hf' & Hr' & Hc' & Hnr & Hnc & Hb & -> & _).
    cbn [RangeAddress.startRow RangeAddress.startColumn RangeAddress.rowNum
         RangeAddress.columnNum world ctl] in *.
    rewrite Es in Hs'. injection Hs' as <-.
    rewrite find_sheet_add_log, Ef in Hf'. injection Hf' as <-.
    injection Hc' as <-.
    apply in_bounds_spec in Hb.
    assert (Hw : maxColumns sh = nc).
    { unfold or_num in Hnc. destruct (truthy_num (Some (maxColumns sh))) eqn:Et.
      - congruence.
      - cbn [truthy_num] in Et. apply negb_false_iff, Z.eqb_eq in Et.
        injection Hnc as <-. lia. }
    exists ref, sh, r'. cbn [rg_sheet rg_row rg_column rg_rows rg_columns].
    split; [reflexivity|]. split; [exact Ef|]. split; [exact Hr'|].
    split; [reflexivity|]. split; [reflexivity|]. split; [symmetry; exact Hnr|].
    split; [lia|]. split; [lia|]. split; [discriminate|].
    intros _. split; [reflexivity | symmetry; exact Hw].
  - unfold ret, bind at 1 in H. cbn [fst snd] in H.
    unfold getRange, bind, this in H. cbn [fst snd world ctl] in H.
    apply sheet_getRange_ok in H.
    destruct H as (ref' & sh' & r' & c' & nr & nc & Hs' & Hf' & Hr' & Hc' & Hnr & Hnc & Hb & -> & _).
    cbn [RangeAddress.startRow RangeAddress.startColumn RangeAddress.rowNum
         RangeAddress.columnNum world ctl] in *.
    apply in_bounds_spec in Hb.
    exists ref', sh', r'. cbn [rg_sheet rg_row rg_column rg_rows rg_columns].
    split; [exact Hs'|]. split; [exact Hf'|]. split; [exact Hr'|].
    split; [reflexivity|]. split; [reflexivity|]. split; [symmetry; exact Hnr|].
    split; [lia|]. split; [lia|]. split; [|discriminate].
    intros _. split; symmetry; assumption.
Qed.

(** X17: the range that [getRowRange] returns starts in the row asked for
    and is as many rows high as asked for, one row when the count is left
    out or 0.  With [allColumn] it runs from column 1 over every column of
    the sheet, whatever the controller's columns are; without it, it starts
    at the start column and is as wide as the cached column count, 1 when
    that is 0.  The call changes nothing in the object nor in the sheets.
    All this holds in every state, also after a call that threw.  In the
    states reached through the constructor and returning calls of
    [setSheetControllerParam], [outputHeader] and [outputDataArea] only, the
    range without [allColumn] moreover ends at the last column.  (After an
    update that threw it need not: the column count can be out of step with
    the start column.) *)
Theorem getRowRange_columns (s s' : State) (rg : Range) (startRow rowNum : num)
  (allColumn : bool) :
  getRowRange startRow rowNum allColumn s = (Ok rg, s') ->
  (exists ref sh r,
     _sheet (ctl s) = Some ref /\ find_sheet (world s) ref = Some sh /\
     startRow = Some r /\ rg_sheet rg = ref /\ rg_row rg = r /\
     Some (rg_rows rg) = or_num rowNum (Some 1) /\
     1 <= rg_rows rg /\ 1 <= rg_columns rg /\
     (allColumn = false ->
      Some (rg_column rg) = _startColumn (ctl s) /\
      Some (rg_columns rg) = or_num (_columnNum (ctl s)) (Some 1)) /\
     (allColumn = true -> rg_column rg = 1 /\ rg_columns rg = maxColumns sh)) /\
  ctl s' = ctl s /\ books (world s') = books (world s) /\
  (reachable s -> allColumn = false ->
   exists c lc,
     _startColumn (ctl s) = Some c /\ _lastColumn (ctl s) = Some lc /\
     rg_column rg = c /\ rg_column rg + rg_columns rg - 1 = lc).
Proof.
  intros H. pose proof (getRowRange_inv s s' rg startRow rowNum allColumn H) as Hinv.
  split; [exact Hinv|].
  assert (E : (ctl s', sheets_of s') = (ctl s, sheets_of s)).
  { apply (preserves_run (fun s => (ctl s, sheets_of s))
             (getRowRange startRow rowNum allColumn) s s' (Ok rg)); [|exact H].
    unfold getRowRange. frame. }
  unfold sheets_of in E.
  split; [congruence|]. split; [congruence|].
  intros Hr Hall.
  destruct Hinv as (ref & sh & r & _ & _ & _ & _ & _ & _ & _ & _ & Hplain & _).
  destruct (Hplain Hall) as [Hcol Hwid].
  destruct (reachable_is_configured s Hr) as (h & c & k & ref' & _ & _ & _ & Ec & _).
  destruct (reachable_cache s Hr) as (_ & Hcols & (hdr & n & _ & En & _ & Hn)).
  destruct (reachable_bounds s Hr) as [_ [lc Elc]].
  unfold columns_ok in Hcols. rewrite Elc, Ec, En in Hcols.
  cbn [num_sub num_add] in Hcols. injection Hcols as Hcols.
  rewrite Ec in Hcol. injection Hcol as Hcol.
  rewrite En in Hwid. unfold or_num in Hwid. rewrite truthy_num_pos in Hwid by exact Hn.
  injection Hwid as Hwid.
  exists c, lc. split; [exact Ec|]. split; [exact Elc|]. split; [exact Hcol | lia].
Qed.

(** ** The data area of a sheet that was just created *)

Lemma negative_rows_refused (s : State) (ref : SheetRef) (sh : Sheet) (d rn col : Z)
  (columnNum : num) :
  _sheet (ctl s) = Some ref -> find_sheet (world s) ref = Some sh ->
  _dataStartRow (ctl s) = Some d -> _rowNum (ctl s) = Some rn -> rn < 0 ->
  (getColumnRange (Some col) columnNum false s).1 = Throw ResourceBoundsError.
Proof.
  intros Hs Hf Hd Hn Hneg.
  assert (Ht : truthy_num (Some rn) = true).
  { cbn [truthy_num]. apply negb_true_iff, Z.eqb_neq. lia. }
  assert (Hb : forall nc, in_bounds sh d col rn nc = false).
  { intros nc. destruct (in_bounds sh d col rn nc) eqn:E; [|reflexivity].
    apply in_bounds_spec in E. lia. }
  unfold getColumnRange, getRange, sheet_getRange, the_sheet, bind, this, get_world,
    emit, ret, throw, or_num.
  cbn [fst snd world ctl RangeAddress.startRow RangeAddress.startColumn
       RangeAddress.rowNum RangeAddress.columnNum].
  rewrite Hs, Hf, Hd, Hn, Ht. cbn [fst snd world ctl].
  destruct columnNum as [nc|]; cbn [truthy_num];
    [destruct (negb (nc =? 0))|]; cbn [fst snd]; rewrite ?Hb; reflexivity.
Qed.

(** X18: a controller constructed on a sheet name that the active book does
    not have, with a header row of 2 or more, has a negative row count, and
    its data area cannot be read: [getDataAreaRange] and
    [getCheckedDataAreaRowArray] both fail with the bounds error of the
    resource, until rows are written. *)
Theorem new_sheet_data_area (param : SheetControllerParam) (w : World)
  (n : string) (b : gmap string Sheet) (h c k : Z) :
  truthy_str (bookId param) = false ->
  sheetName param = Some n -> n <> EmptyString ->
  books w !! active w = Some b -> b !! n = None ->
  (if truthy_num (headerRow param) then headerRow param else Some 1) = Some h ->
  (if truthy_num (startColumn param) then startColumn param else Some 1) = Some c ->
  (if truthy_num (keyColumn param) then keyColumn param else Some c) = Some k ->
  2 <= h <= newRows w -> 1 <= c <= newColumns w -> 1 <= k <= newColumns w ->
  exists s',
    constructor param w = (Ok tt, s') /\
    _rowNum (ctl s') = Some (1 - h) /\
    (getDataAreaRange s').1 = Throw ResourceBoundsError /\
    (getCheckedDataAreaRowArray s').1 = Throw ResourceBoundsError.
Proof.
  intros Hbid Hn Hne Hb Hfree Hh Hc Hk Bh Bc Bk.
  destruct (constructor_creates_sheet param w n b h c k Hbid Hn Hne Hb Hfree Hh Hc Hk)
    as (s' & E & Hf & Hs & _ & Hd & Hst & _ & _ & Hrn & _ & Hcn & _); try lia.
  exists s'. split; [exact E|]. split; [exact Hrn|].
  assert (Ht : truthy_num (Some (1 - h)) = true).
  { cbn [truthy_num]. apply negb_true_iff, Z.eqb_neq. lia. }
  assert (Hbd : forall col nc, in_bounds (blank_sheet w) (h + 1) col (1 - h) nc = false).
  { intros col nc. destruct (in_bounds (blank_sheet w) (h + 1) col (1 - h) nc) eqn:Eb;
      [|reflexivity].
    apply in_bounds_spec in Eb. lia. }
  split.
  - unfold getDataAreaRange, getRange, sheet_getRange, the_sheet, bind, this, get_world,
      emit, ret, throw, or_num.
    cbn [fst snd world ctl RangeAddress.startRow RangeAddress.startColumn
         RangeAddress.rowNum RangeAddress.columnNum].
    rewrite Hs, Hf, Hd, Hst, Hrn, Hcn, Ht. cbn [fst snd world ctl].
    destruct (truthy_num (Some (newColumns w - c + 1))); cbn [fst snd];
      rewrite Hbd; reflexivity.
  - pose proof (negative_rows_refused s' _ _ (h + 1) (1 - h) 1 (Some 1) Hs Hf Hd Hrn) as Hg.
    unfold getCheckedDataAreaRowArray, CHECKBOX_COLUMN. unfold bind at 1.
    destruct (getColumnRange (Some 1) (Some 1) false s') as [[rg|e] s1];
      cbn [fst] in Hg; [|cbn [fst]].
    + exfalso. assert (1 - h < 0) as Hneg by lia. specialize (Hg Hneg). discriminate.
    + assert (1 - h < 0) as Hneg by lia. specialize (Hg Hneg). congruence.
Qed.

(** ** The properties on the sample sheets *)

Lemma checkbox_constructed :
  constructor (mkParam None (Some "S"%string) None None (Some 2))
    (one_sheet_world "S" checkbox_sheet) = (Ok tt, checkbox_state).
Proof.
  unfold checkbox_state.
  apply (result_eta (constructor (mkParam None (Some "S"%string) None None (Some 2))
                       (one_sheet_world "S" checkbox_sheet)) tt).
  vm_compute. reflexivity.
Defined.

Lemma roomy_constructed :
  constructor demo_param (one_sheet_world "S" roomy_sheet) = (Ok tt, roomy_state).
Proof.
  unfold roomy_state.
  apply (result_eta (constructor demo_param (one_sheet_world "S" roomy_sheet)) tt).
  vm_compute. reflexivity.
Defined.

Lemma setSheetControllerParam_keeps_sheets_witness :
  find_sheet (world demo_state) ("book", "S")%string = Some three_by_two /\
  find_sheet (world (setSheetControllerParam new_sheet_param demo_state).2)
    ("book", "S")%string = Some three_by_two.
Proof.
  assert (H : find_sheet (world demo_state) ("book", "S")%string = Some three_by_two)
    by (vm_compute; reflexivity).
  split; [exact H|].
  exact (proj1 (setSheetControllerParam_keeps_sheets new_sheet_param demo_state)
           ("book", "S")%string three_by_two H).
Defined.

Lemma constructor_on_new_sheet_witness :
  exists s', constructor new_sheet_param empty_world = (Ok tt, s') /\
             _lastRow (ctl s') = Some 1 /\ _rowNum (ctl s') = Some (-1) /\
             _columnNum (ctl s') = Some 24.
Proof.
  assert (H1 : truthy_str (bookId new_sheet_param) = false) by reflexivity.
  assert (H2 : sheetName new_sheet_param = Some "New"%string) by reflexivity.
  assert (H3 : "New"%string <> EmptyString) by discriminate.
  assert (H4 : books empty_world !! active empty_world = Some (∅ : gmap string Sheet))
    by (vm_compute; reflexivity).
  assert (H5 : (∅ : gmap string Sheet) !! "New"%string = None) by reflexivity.
  assert (H6 : (if truthy_num (headerRow new_sheet_param)
                then headerRow new_sheet_param else Some 1) = Some 2) by reflexivity.
  assert (H7 : (if truthy_num (startColumn new_sheet_param)
                then startColumn new_sheet_param else Some 1) = Some 3) by reflexivity.
  assert (H8 : (if truthy_num (keyColumn new_sheet_param)
                then keyColumn new_sheet_param else Some 3) = Some 3) by reflexivity.
  assert (H9 : 1 <= 2 <= newRows empty_world) by (simpl; lia).
  assert (H10 : 1 <= 3 <= newColumns empty_world) by (simpl; lia).
  destruct (constructor_on_new_sheet new_sheet_param empty_world "New" ∅ 2 3 3
              H1 H2 H3 H4 H5 H6 H7 H8 H9 H10 H10)
    as (s' & E & _ & _ & _ & _ & _ & _ & Hl & Hr & _ & Hc & _).
  exists s'. split; [exact E|]. split; [exact Hl|]. split; [exact Hr | exact Hc].
Defined.

Lemma getLastRow_blank_bottom_witness :
  (getLastRow checkbox_state).1 = Ok (Some 4).
Proof.
  assert (H1 : _sheet (ctl checkbox_state) = Some ("book", "S")%string)
    by (vm_compute; reflexivity).
  assert (H2 : find_sheet (world checkbox_state) ("book", "S")%string = Some checkbox_sheet)
    by (vm_compute; reflexivity).
  assert (H3 : _keyColumn (ctl checkbox_state) = Some 2) by (vm_compute; reflexivity).
  assert (H4 : 1 <= 2 <= maxColumns checkbox_sheet) by (simpl; lia).
  assert (H5 : 1 <= 4 < maxRows checkbox_sheet) by (simpl; lia).
  assert (H6 : populated (cells checkbox_sheet 4 2) = true) by reflexivity.
  assert (H7 : forall i, 4 < i <= maxRows checkbox_sheet -> cells checkbox_sheet i 2 = blank).
  { intros i Hi. assert (i = 5) as -> by (simpl in Hi; lia). reflexivity. }
  exact (proj1 (getLastRow_blank_bottom checkbox_state ("book", "S")%string
                  checkbox_sheet 2 H1 H2 H3 H4) 4 H5 H6 H7).
Defined.

Lemma getLastRow_full_column_witness :
  (getLastRow demo_state).1 = Ok (Some (maxRows three_by_two)).
Proof.
  assert (H1 : _sheet (ctl demo_state) = Some ("book", "S")%string)
    by (vm_compute; reflexivity).
  assert (H2 : find_sheet (world demo_state) ("book", "S")%string = Some three_by_two)
    by (vm_compute; reflexivity).
  assert (H3 : _keyColumn (ctl demo_state) = Some 1) by (vm_compute; reflexivity).
  assert (H4 : 1 <= 1 <= maxColumns three_by_two) by (simpl; lia).
  assert (H5 : _headerRow (ctl demo_state) = Some 1) by (vm_compute; reflexivity).
  assert (H6 : 1 <= 1 <= maxRows three_by_two) by (simpl; lia).
  assert (H7 : forall i, 1 <= i <= maxRows three_by_two ->
                         populated (cells three_by_two i 1) = true).
  { intros i Hi. assert (i = 1 \/ i = 2 \/ i = 3) as [->|[->| ->]] by (simpl in Hi; lia);
      reflexivity. }
  assert (H8 : truthy (cells three_by_two (maxRows three_by_two) 1) = true) by reflexivity.
  exact (getLastRow_full_column demo_state ("book", "S")%string three_by_two 1 1
           H1 H2 H3 H4 H5 H6 H7 H8).
Defined.

Lemma data_rows_written :
  outputDataArea data_rows roomy_state
  = (Ok (mkRange ("book", "S")%string 2 1 2 2), (outputDataArea data_rows roomy_state).2).
Proof.
  apply (result_eta (outputDataArea data_rows roomy_state)
           (mkRange ("book", "S")%string 2 1 2 2)).
  vm_compute. reflexivity.
Defined.

Lemma outputDataArea_writes_witness :
  (range_getValues (mkRange ("book", "S")%string 2 1 2 2)
     (outputDataArea data_rows roomy_state).2).1 = Ok data_rows.
Proof.
  destruct (outputDataArea_writes data_rows roomy_state) as (_ & _ & _ & _ & Hrun).
  destruct (Hrun _ _ data_rows_written)
    as (ref & sh & sh' & d & c & k & nc & _ & _ & _ & _ & _ & _ & _ & _ & _ & _ & _ & _
        & _ & Hread & _).
  exact Hread.
Defined.

Lemma outputDataArea_row_count_witness :
  _lastRow (ctl (outputDataArea data_rows roomy_state).2) = Some 3 /\
  _rowNum (ctl (outputDataArea data_rows roomy_state).2) = Some 2.
Proof.
  assert (H1 : _sheet (ctl roomy_state) = Some ("book", "S")%string)
    by (vm_compute; reflexivity).
  assert (H2 : find_sheet (world roomy_state) ("book", "S")%string = Some roomy_sheet)
    by (vm_compute; reflexivity).
  assert (H3 : _dataStartRow (ctl roomy_state) = Some 2) by (vm_compute; reflexivity).
  assert (H4 : _startColumn (ctl roomy_state) = Some 1) by (vm_compute; reflexivity).
  assert (H5 : _keyColumn (ctl roomy_state) = Some 1) by (vm_compute; reflexivity).
  assert (H6 : last data_rows = Some [SNum 4; SStr "d"]) by reflexivity.
  assert (H7 : 1 <= 1) by lia.
  assert (H8 : [SNum 4; SStr "d"] !! Z.to_nat (1 - 1) = Some (SNum 4)) by reflexivity.
  assert (H9 : populated (SNum 4) = true) by reflexivity.
  assert (H10 : 2 + Z.of_nat (length data_rows) - 1 < maxRows roomy_sheet)
    by (simpl; lia).
  assert (H11 : forall i, 2 + Z.of_nat (length data_rows) <= i <= maxRows roomy_sheet ->
                          cells roomy_sheet i 1 = blank).
  { intros i Hi. assert (i = 4 \/ i = 5 \/ i = 6) as [->|[->| ->]] by (simpl in Hi; lia);
      reflexivity. }
  exact (outputDataArea_row_count data_rows roomy_state _ _ roomy_sheet
           ("book", "S")%string 2 1 1 [SNum 4; SStr "d"] (SNum 4)
           data_rows_written H1 H2 H3 H4 H5 H6 H7 H8 H9 H10 H11).
Defined.

Lemma header_values_written :
  outputHeader header_values demo_state
  = (Ok (mkRange ("book", "S")%string 1 1 1 2), (outputHeader header_values demo_state).2).
Proof.
  apply (result_eta (outputHeader header_values demo_state)
           (mkRange ("book", "S")%string 1 1 1 2)).
  vm_compute. reflexivity.
Defined.

Lemma outputHeader_round_trip_witness :
  _header (ctl (outputHeader header_values demo_state).2) = Some header_values /\
  _columnNum (ctl (outputHeader header_values demo_state).2) = Some 2 /\
  _lastColumn (ctl (outputHeader header_values demo_state).2) = Some 2.
Proof.
  assert (H1 : _sheet (ctl demo_state) = Some ("book", "S")%string)
    by (vm_compute; reflexivity).
  assert (H2 : find_sheet (world demo_state) ("book", "S")%string = Some three_by_two)
    by (vm_compute; reflexivity).
  assert (H3 : _headerRow (ctl demo_state) = Some 1) by (vm_compute; reflexivity).
  assert (H4 : _startColumn (ctl demo_state) = Some 1) by (vm_compute; reflexivity).
  assert (H5 : (2 <= length header_values)%nat) by (simpl; lia).
  assert (H6 : Forall (fun v => populated v = true) header_values)
    by (repeat constructor).
  assert (H7 : 1 + Z.of_nat (length header_values) - 1 = maxColumns three_by_two \/
               cells three_by_two 1 (1 + Z.of_nat (length header_values)) = blank)
    by (left; reflexivity).
  exact (outputHeader_round_trip header_values demo_state _ _ ("book", "S")%string
           three_by_two 1 1 header_values_written H1 H2 H3 H4 H5 H6 H7).
Defined.

Lemma outputHeader_then_lookup_witness :
  exists c,
    _startColumn (ctl (outputHeader header_values demo_state).2) = Some c /\
    (getHeaderColumnByColumnName (SStr "B") (outputHeader header_values demo_state).2).1
    = Ok (Some (Z.of_nat 1 + c)).
Proof.
  assert (H1 : Forall (fun v => populated v = true) header_values)
    by (repeat constructor).
  assert (H2 : header_values !! 1%nat = Some (SStr "B")) by reflexivity.
  assert (H3 : forall j, (j < 1)%nat -> header_values !! j <> Some (SStr "B")).
  { intros j Hj. assert (j = 0%nat) as -> by lia. discriminate. }
  destruct (outputHeader_then_lookup header_values demo_state _ _ (SStr "B") 1
              header_values_written H1 H2 H3)
    as (ref & sh' & h & c & _ & _ & _ & Hc & _ & Hcol & _).
  exists c. split; [exact Hc | exact Hcol].
Defined.

Lemma data_area_of_demo :
  getDataAreaRange demo_state
  = (Ok (mkRange ("book", "S")%string 2 1 2 2), (getDataAreaRange demo_state).2).
Proof.
  apply (result_eta (getDataAreaRange demo_state) (mkRange ("book", "S")%string 2 1 2 2)).
  vm_compute. reflexivity.
Defined.

Lemma getDataAreaRange_geometry_witness :
  exists lr rn,
    _lastRow (ctl demo_state) = Some lr /\ _rowNum (ctl demo_state) = Some rn /\
    (1 <= rn -> 2 + 2 - 1 = lr).
Proof.
  destruct (proj2 (getDataAreaRange_geometry demo_state _ _ data_area_of_demo)
              demo_reachable)
    as (h & c & lr & lc & rn & _ & _ & Hl & _ & Hr & _ & _ & _ & _ & Hrows & _).
  exists lr, rn. split; [exact Hl|]. split; [exact Hr | exact Hrows].
Defined.

Lemma checkbox_column_range :
  getColumnRange CHECKBOX_COLUMN (Some 1) false checkbox_state
  = (Ok (mkRange ("book", "S")%string 2 1 3 1),
     (getColumnRange CHECKBOX_COLUMN (Some 1) false checkbox_state).2).
Proof.
  apply (result_eta (getColumnRange CHECKBOX_COLUMN (Some 1) false checkbox_state)
           (mkRange ("book", "S")%string 2 1 3 1)).
  vm_compute. reflexivity.
Defined.

Lemma getCheckedDataAreaRowArray_never_returns_witness :
  (getCheckedDataAreaRowArray checkbox_state).1 = Throw PlatformError.
Proof.
  destruct (getCheckedDataAreaRowArray_never_returns checkbox_state) as (_ & H & _).
  exact (H _ _ checkbox_column_range).
Defined.

Lemma getRowRange_columns_witness :
  exists c lc,
    _startColumn (ctl demo_state) = Some c /\ _lastColumn (ctl demo_state) = Some lc /\
    rg_column (mkRange ("book", "S")%string 2 1 1 2) = c /\
    rg_column (mkRange ("book", "S")%string 2 1 1 2)
    + rg_columns (mkRange ("book", "S")%string 2 1 1 2) - 1 = lc.
Proof.
  assert (E : getRowRange (Some 2) None false demo_state
              = (Ok (mkRange ("book", "S")%string 2 1 1 2),
                 (getRowRange (Some 2) None false demo_state).2)).
  { apply (result_eta (getRowRange (Some 2) None false demo_state)
             (mkRange ("book", "S")%string 2 1 1 2)).
    vm_compute. reflexivity. }
  destruct (getRowRange_columns demo_state _ _ (Some 2) None false E) as (_ & _ & _ & H).
  exact (H demo_reachable eq_refl).
Defined.

Lemma new_sheet_data_area_witness :
  exists s',
    constructor shelf_param empty_world = (Ok tt, s') /\
    _rowNum (ctl s') = Some (1 - 13) /\
    (getCheckedDataAreaRowArray s').1 = Throw ResourceBoundsError.
Proof.
  assert (H1 : truthy_str (bookId shelf_param) = false) by reflexivity.
  assert (H2 : sheetName shelf_param = Some shelf_sheet_name) by reflexivity.
  assert (H3 : shelf_sheet_name <> EmptyString) by discriminate.
  assert (H4 : books empty_world !! active empty_world = Some (∅ : gmap string Sheet))
    by (vm_compute; reflexivity).
  assert (H5 : (∅ : gmap string Sheet) !! shelf_sheet_name = None) by reflexivity.
  assert (H6 : (if truthy_num (headerRow shelf_param)
                then headerRow shelf_param else Some 1) = Some 13) by reflexivity.
  assert (H7 : (if truthy_num (startColumn shelf_param)
                then startColumn shelf_param else Some 1) = Some 1) by reflexivity.
  assert (H8 : (if truthy_num (keyColumn shelf_param)
                then keyColumn shelf_param else Some 1) = Some 2) by reflexivity.
  assert (H9 : 2 <= 13 <= newRows empty_world) by (simpl; lia).
  assert (H10 : 1 <= 1 <= newColumns empty_world) by (simpl; lia).
  assert (H11 : 1 <= 2 <= newColumns empty_world) by (simpl; lia).
  destruct (new_sheet_data_area shelf_param empty_world shelf_sheet_name ∅ 13 1 2
              H1 H2 H3 H4 H5 H6 H7 H8 H9 H10 H11)
    as (s' & E & Hr & _ & Hc).
  exists s'. split; [exact E|]. split; [exact Hr | exact Hc].
Defined.

(** ** The cached counts on a live object *)






Lemma reachable_live (s : State) : reachable s -> live s.
Proof.
  induction 1 as [param w s' H | param s s' _ IH H | v s rg s' _ IH H
                 | rows s rg s' _ IH H | s w _ IH].
  - exact (live_new param w s' H).
  - pose proof (live_update param s IH) as L. rewrite H in L. exact L.
  - pose proof (live_outputHeader v s IH) as L. rewrite H in L. exact L.
  - pose proof (live_outputDataArea rows s IH) as L. rewrite H in L. exact L.
  - exact (live_resource s w IH).
Qed.











